(** * SeisPy image reader

    A shallow embedding of [seispy/postprocess/image.py]: the classes
    [Image] and [Patch], the methods [Image._readSW4hdr] and
    [Image._readSW4patches], and the functions [read] and [parse_filename].

    Python exceptions are results, the open file is the list of bytes not
    yet consumed, numpy's floating-point scalars are IEEE 754 values with
    the Standard Library's executable specification of their operations,
    and numpy's fixed-width integers are [Z] with their wrap-around
    written out. *)

From Stdlib Require Import ZArith List String Ascii Bool Lia SpecFloat.
From Stdlib Require Import Strings.Byte.
Import ListNotations.
Local Open Scope Z_scope.

(** ** Python exceptions *)

Inductive exn : Set :=
| IndexError
| KeyError
| ValueError
| TypeError
| AttributeError
| IOError.

Inductive result (A : Type) : Type :=
| Ok (a : A)
| Raise (e : exn).

Arguments Ok {A} a.
Arguments Raise {A} e.

Definition bind {A B : Type} (r : result A) (k : A -> result B) : result B :=
  match r with
  | Ok a => k a
  | Raise e => Raise e
  end.

Notation "x <- c ;; k" := (bind c (fun x => k))
  (at level 61, c at next level, right associativity).
Notation "' p <- c ;; k" := (bind c (fun x => let 'p := x in k))
  (at level 61, p pattern, c at next level, right associativity).

Definition is_ok {A : Type} (r : result A) : bool :=
  match r with
  | Ok _ => true
  | Raise _ => false
  end.

(** ** IEEE 754 scalars: numpy's float32 and float64 *)

Definition float := spec_float.

Inductive float_dtype : Set := float32 | float64.

Module IEEE.

Definition mant_bits (t : float_dtype) : Z :=
  match t with float32 => 23 | float64 => 52 end.

Definition exp_bits (t : float_dtype) : Z :=
  match t with float32 => 8 | float64 => 11 end.

Definition itemsize (t : float_dtype) : nat :=
  match t with float32 => 4%nat | float64 => 8%nat end.

Definition prec (t : float_dtype) : Z := mant_bits t + 1.
Definition emax (t : float_dtype) : Z := 2 ^ (exp_bits t - 1).

(** The value stored in a [mant_bits + exp_bits + 1]-bit pattern: sign bit,
    biased exponent, fraction. *)
Definition of_bits (t : float_dtype) (x : Z) : float :=
  let mw := mant_bits t in
  let ew := exp_bits t in
  let s := Z.testbit x (mw + ew) in
  let e := Z.land (Z.shiftr x mw) (Z.ones ew) in
  let m := Z.land x (Z.ones mw) in
  if e =? 0 then
    match m with
    | Zpos p => S754_finite s p (3 - emax t - prec t)
    | _ => S754_zero s
    end
  else if e =? Z.ones ew then
    if m =? 0 then S754_infinity s else S754_nan
  else
    match Z.lor m (Z.shiftl 1 mw) with
    | Zpos p => S754_finite s p (e - (emax t - 1) - mw)
    | _ => S754_nan
    end.

Definition add (t : float_dtype) : float -> float -> float := SFadd (prec t) (emax t).
Definition sub (t : float_dtype) : float -> float -> float := SFsub (prec t) (emax t).
Definition mul (t : float_dtype) : float -> float -> float := SFmul (prec t) (emax t).
Definition div (t : float_dtype) : float -> float -> float := SFdiv (prec t) (emax t).
Definition sqrt (t : float_dtype) : float -> float := SFsqrt (prec t) (emax t).

(** Conversion of an integer, rounded to nearest even. *)
Definition of_Z (t : float_dtype) (z : Z) : float :=
  binary_normalize (prec t) (emax t) z 0 false.

Definition ltb : float -> float -> bool := SFltb.
Definition leb : float -> float -> bool := SFleb.
Definition eqb : float -> float -> bool := SFeqb.

Definition is_nan (x : float) : bool :=
  match x with S754_nan => true | _ => false end.


(** A well-formed value of the format: what [of_bits] returns. *)
Definition valid (t : float_dtype) (x : float) : bool :=
  valid_binary (prec t) (emax t) x.

End IEEE.

Definition f64_add := IEEE.add float64.
Definition f64_sub := IEEE.sub float64.
Definition f64_mul := IEEE.mul float64.
Definition f64_div := IEEE.div float64.
Definition f64_of_Z := IEEE.of_Z float64.

(** ** Bytes and numpy's fixed-width scalars *)

Inductive endianness : Set := little_endian | big_endian.

Definition Z_of_byte (b : byte) : Z := Z.of_N (Byte.to_N b).

(** Unsigned value of a big-endian byte string. *)
Definition be_uint (bs : list byte) : Z :=
  fold_left (fun acc b => acc * 256 + Z_of_byte b) bs 0.

Definition uint_of_bytes (bo : endianness) (bs : list byte) : Z :=
  match bo with
  | big_endian => be_uint bs
  | little_endian => be_uint (rev bs)
  end.

(** Two's complement reading of a 32-bit pattern, and the wrap-around of
    np.int32 arithmetic. *)
Definition wrap32 (z : Z) : Z := (z + 2 ^ 31) mod 2 ^ 32 - 2 ^ 31.

Definition int32_of_bytes (bo : endianness) (bs : list byte) : Z :=
  wrap32 (uint_of_bytes bo bs).

Definition float_of_bytes (t : float_dtype) (bo : endianness) (bs : list byte) : float :=
  IEEE.of_bits t (uint_of_bytes bo bs).

(** ** numpy: reading a binary file

    [np.fromfile(f, dtype, count)] on a file opened in binary mode.  The
    file [f] is the list of bytes from the read position to the end.  A
    negative [count] reads every complete item that is left; otherwise the
    call asks for [count] items and returns the complete items it found
    (possibly fewer, without raising), having consumed the bytes it asked
    for as far as they exist. *)

Fixpoint chunks (size n : nat) (bs : list byte) : list (list byte) :=
  match n with
  | O => []
  | S n' => firstn size bs :: chunks size n' (skipn size bs)
  end.

Definition np_fromfile (size : nat) (count : Z) (f : list byte)
  : list (list byte) * list byte :=
  let len := Z.of_nat (List.length f) in
  let avail := len / Z.of_nat size in
  let n := if count <? 0 then avail else Z.min count avail in
  let consumed :=
    if count <? 0 then n * Z.of_nat size else Z.min (count * Z.of_nat size) len in
  (chunks size (Z.to_nat n) f, skipn (Z.to_nat consumed) f).

(** ** numpy: arrays of floating-point samples *)

Record ndarray : Type := mk_ndarray {
  dtype : float_dtype;
  shape : Z * Z;
  items : list float   (* row-major *)
}.

(** [a.reshape(d0, d1)] of a one-dimensional buffer: one dimension may be
    -1 and is then inferred; any other negative dimension, or a size that
    does not fit, raises ValueError. *)
Definition np_reshape (t : float_dtype) (buf : list float) (d0 d1 : Z) : result ndarray :=
  let size := Z.of_nat (List.length buf) in
  if (d0 <? -1) || (d1 <? -1) then Raise ValueError
  else if (d0 =? -1) && (d1 =? -1) then Raise ValueError
  else if d0 =? -1 then
    if (d1 =? 0) || negb (size mod d1 =? 0) then Raise ValueError
    else Ok (mk_ndarray t (size / d1, d1) buf)
  else if d1 =? -1 then
    if (d0 =? 0) || negb (size mod d0 =? 0) then Raise ValueError
    else Ok (mk_ndarray t (d0, size / d0) buf)
  else if size =? d0 * d1 then Ok (mk_ndarray t (d0, d1) buf)
  else Raise ValueError.

(** [a.T]: entry (j, i) of the result is entry (i, j) of [a]. *)
Definition np_transpose (a : ndarray) : ndarray :=
  let '(r, c) := shape a in
  let rn := Z.to_nat r in
  let cn := Z.to_nat c in
  mk_ndarray (dtype a) (c, r)
    (flat_map (fun j => map (fun i => nth (i * cn + j) (items a) S754_nan) (seq 0 rn))
              (seq 0 cn)).

(** The rows of a two-dimensional array, for display. *)
Fixpoint rows_of (c n : nat) (l : list float) : list (list float) :=
  match n with
  | O => []
  | S n' => firstn c l :: rows_of c n' (skipn c l)
  end.

Definition to_rows (a : ndarray) : list (list float) :=
  rows_of (Z.to_nat (snd (shape a))) (Z.to_nat (fst (shape a))) (items a).

(** [a.min()] and [a.max()]: reductions of [np.minimum] and [np.maximum],
    which keep a NaN once met; an empty array raises ValueError. *)
Definition np_minimum (a b : float) : float :=
  if IEEE.leb a b || IEEE.is_nan a then a else b.

Definition np_maximum (a b : float) : float :=
  if IEEE.leb b a || IEEE.is_nan a then a else b.

Definition np_min (l : list float) : result float :=
  match l with
  | [] => Raise ValueError
  | x :: r => Ok (fold_left np_minimum r x)
  end.

Definition np_max (l : list float) : result float :=
  match l with
  | [] => Raise ValueError
  | x :: r => Ok (fold_left np_maximum r x)
  end.

(** [a ** 2], elementwise in the array's own precision. *)
Definition np_square (t : float_dtype) (l : list float) : list float :=
  map (fun x => IEEE.mul t x x) l.

(** ** numpy: arrays of np.int32 samples

    Given an np.int32 scalar where a dtype is expected, numpy takes the
    dtype of the scalar, int32: [np.fromfile] then returns 4-byte
    integers.  The operations are those of the floating-point arrays;
    [a ** 2] wraps around. *)

Record intarray : Type := mk_intarray {
  ishape : Z * Z;
  iitems : list Z   (* row-major *)
}.

Definition np_reshape_int32 (buf : list Z) (d0 d1 : Z) : result intarray :=
  let size := Z.of_nat (List.length buf) in
  if (d0 <? -1) || (d1 <? -1) then Raise ValueError
  else if (d0 =? -1) && (d1 =? -1) then Raise ValueError
  else if d0 =? -1 then
    if (d1 =? 0) || negb (size mod d1 =? 0) then Raise ValueError
    else Ok (mk_intarray (size / d1, d1) buf)
  else if d1 =? -1 then
    if (d0 =? 0) || negb (size mod d0 =? 0) then Raise ValueError
    else Ok (mk_intarray (d0, size / d0) buf)
  else if size =? d0 * d1 then Ok (mk_intarray (d0, d1) buf)
  else Raise ValueError.

Definition np_transpose_int32 (a : intarray) : intarray :=
  let '(r, c) := ishape a in
  let rn := Z.to_nat r in
  let cn := Z.to_nat c in
  mk_intarray (c, r)
    (flat_map (fun j => map (fun i => nth (i * cn + j) (iitems a) 0) (seq 0 rn))
              (seq 0 cn)).

Definition np_min_int32 (l : list Z) : result Z :=
  match l with
  | [] => Raise ValueError
  | x :: r => Ok (fold_left Z.min r x)
  end.

Definition np_max_int32 (l : list Z) : result Z :=
  match l with
  | [] => Raise ValueError
  | x :: r => Ok (fold_left Z.max r x)
  end.

Definition np_square_int32 (l : list Z) : list Z :=
  map (fun z => wrap32 (z * z)) l.

(** The array a patch holds: of floating-point samples, or of integers
    when the samples were read as np.int32. *)
Inductive array : Type :=
| FloatArray (a : ndarray)
| Int32Array (a : intarray).

Coercion FloatArray : ndarray >-> array.

(* [Some a] is read at the type expected of it, so that an [ndarray] can
   stand where an [option array] is wanted. *)
#[local] Arguments Some {A} & a.

(** ** Python values held by the attributes *)

(** A number: a Python or numpy integer, or a numpy float64. *)
Inductive pynum : Type :=
| PyInt (z : Z)
| PyFloat (x : float).

(** A dictionary key: the tables are indexed by integer codes; the
    attribute [Image.plane] holds a string. *)
Inductive pykey : Type :=
| KInt (z : Z)
| KStr (s : string).

Definition pykey_eqb (a b : pykey) : bool :=
  match a, b with
  | KInt x, KInt y => x =? y
  | KStr x, KStr y => String.eqb x y
  | _, _ => false
  end.

(** [d[k]]: the value of the first entry with key [k], KeyError if none. *)
Fixpoint dict_get {V : Type} (d : list (pykey * V)) (k : pykey) : result V :=
  match d with
  | [] => Raise KeyError
  | (k', v) :: d' => if pykey_eqb k' k then Ok v else dict_get d' k
  end.

(** The argument of [read]: the default string 'random' (compared by
    identity), None, or a path. *)
Inductive filename_arg : Type :=
| FRandom
| FNone
| FPath (path : string).

(** [Image.precision] holds the default, the Python integer 4, then the
    header's code, an np.int32 scalar, then the numpy type the code stands
    for. *)
Inductive precision_attr : Type :=
| PrecPyInt (n : Z)
| PrecInt (code : Z)
| PrecType (t : float_dtype).

(** [Image.mode] holds None, then the header's code, then the mode's name. *)
Inductive mode_attr : Type :=
| ModeNone
| ModeCode (code : Z)
| ModeName (name : string).

(** ** The module seispy.plotting.dic_and_dtype and the environment *)

(** Modelled from the spec: the constants of [seispy.plotting.dic_and_dtype],
    which [image.py] imports and which is not among the source files.  The
    three lookup tables are parameters.  The spec (section 6) fixes the two
    record layouts up to the width of the header's creation-time field,
    which is a parameter too:
    header: precision:int32, numberOfPatches:int32, time:float64,
    planeCode:int32, coordinate:float64, modeCode:int32, gridInfo:int32,
    creationTime: fixed-width bytes;
    patch descriptor: h:float64, zmin:float64, ib:int32, ni:int32, jb:int32,
    nj:int32. *)
Record dic_and_dtype : Type := {
  creation_time_size : nat;
  prec_dict : list (pykey * float_dtype);
  SW4_plane_dict : list (pykey * string);
  SW4_mode_dict : list (pykey * (string * string))
}.

Definition SW4_header_dtype_itemsize (D : dic_and_dtype) : nat :=
  (36 + creation_time_size D)%nat.

Definition SW4_patch_dtype_itemsize : nat := 32%nat.

(** What the program takes from its surroundings: the byte order of the
    machine (the dtypes are native), numpy's mean and standard deviation of
    a buffer of the given precision (their summation order is numpy's own),
    the draws of [np.random.rand(ni, nj)] in row-major order, and the
    contents of the files that can be opened. *)
Record environment : Type := {
  byteorder : endianness;
  np_mean : float_dtype -> list float -> float;
  np_std : float_dtype -> list float -> float;
  np_random_rand : Z -> Z -> list float;
  files : string -> option (list byte)
}.

Definition field (off len : nat) (rec : list byte) : list byte :=
  firstn len (skipn off rec).

(** A numpy bytes scalar drops the trailing NUL bytes of its field. *)
Fixpoint rstrip_nul (bs : list byte) : list byte :=
  match bs with
  | [] => []
  | b :: r =>
      match rstrip_nul r with
      | [] => if Byte.eqb b x00 then [] else [b]
      | r' => b :: r'
      end
  end.

(** ** class Patch *)

Module Patch.

Record t : Type := mk {
  number : Z;
  h : pynum;
  zmin : pynum;
  ib : Z;
  ni : Z;
  jb : Z;
  nj : Z;
  extent : pynum * pynum * pynum * pynum;
  data : option array;
  min : pynum;
  max : pynum;
  std : pynum;
  rms : pynum
}.

Definition __init__ : t :=
  mk 0 (PyInt 0) (PyInt 1) 1 0 1 0
     (PyInt 0, PyInt 1, PyInt 0, PyInt 1) None
     (PyInt 0) (PyInt 0) (PyInt 0) (PyInt 0).

End Patch.

(** The half spacing [patch.h / 2.0] and the two extents of
    [Image._readSW4patches], in float64 arithmetic; [ni - 1] and [nj - 1]
    are computed in 64 bits, where they cannot overflow. *)
Definition f64_two : float := S754_finite false 4503599627370496 (-51).
Definition f64_zero : float := S754_zero false.

Definition half_spacing (h : float) : float := f64_div h f64_two.

Definition extent_xy (h zmin : float) (ni nj : Z) : pynum * pynum * pynum * pynum :=
  (PyFloat (f64_sub f64_zero (half_spacing h)),
   PyFloat (f64_add (f64_mul (f64_of_Z (ni - 1)) h) (half_spacing h)),
   PyFloat (f64_sub zmin (half_spacing h)),
   PyFloat (f64_add (f64_add zmin (f64_mul (f64_of_Z (nj - 1)) h)) (half_spacing h))).

Definition extent_z (h : float) (ni nj : Z) : pynum * pynum * pynum * pynum :=
  (PyFloat (f64_sub f64_zero (half_spacing h)),
   PyFloat (f64_add (f64_mul (f64_of_Z (nj - 1)) h) (half_spacing h)),
   PyFloat (f64_sub f64_zero (half_spacing h)),
   PyFloat (f64_add (f64_mul (f64_of_Z (ni - 1)) h) (half_spacing h))).

(** ** class Image *)

Module Image.

Record t : Type := mk {
  filename : filename_arg;
  number_of_patches : Z;
  precision : precision_attr;
  type : string;
  mode : mode_attr;
  unit : option string;
  cycle : Z;
  time : pynum;
  plane : string;
  min : pynum;
  max : pynum;
  std : pynum;
  rms : pynum;
  patches : list Patch.t;
  (* set by _readSW4hdr; None while the attribute does not exist *)
  _plane : option Z;
  coordinate : option float;
  gridinfo : option Z;
  creation_time : option (list byte)
}.

Definition __init__ : t :=
  mk FNone 1 (PrecPyInt 4) "cross-section" ModeNone None 0 (PyInt 0) "X"
     (PyInt 0) (PyInt 0) (PyInt 0) (PyInt 0) [] None None None None.

Definition set_filename (v : filename_arg) (s : t) : t :=
  mk v (number_of_patches s) (precision s) (type s) (mode s) (unit s) (cycle s)
     (time s) (plane s) (min s) (max s) (std s) (rms s) (patches s)
     (_plane s) (coordinate s) (gridinfo s) (creation_time s).

Definition set_cycle (v : Z) (s : t) : t :=
  mk (filename s) (number_of_patches s) (precision s) (type s) (mode s) (unit s) v
     (time s) (plane s) (min s) (max s) (std s) (rms s) (patches s)
     (_plane s) (coordinate s) (gridinfo s) (creation_time s).

Definition set_precision (v : precision_attr) (s : t) : t :=
  mk (filename s) (number_of_patches s) v (type s) (mode s) (unit s) (cycle s)
     (time s) (plane s) (min s) (max s) (std s) (rms s) (patches s)
     (_plane s) (coordinate s) (gridinfo s) (creation_time s).

Definition set_plane (v : string) (s : t) : t :=
  mk (filename s) (number_of_patches s) (precision s) (type s) (mode s) (unit s) (cycle s)
     (time s) v (min s) (max s) (std s) (rms s) (patches s)
     (_plane s) (coordinate s) (gridinfo s) (creation_time s).

Definition set_mode_unit (m : mode_attr) (u : option string) (s : t) : t :=
  mk (filename s) (number_of_patches s) (precision s) (type s) m u (cycle s)
     (time s) (plane s) (min s) (max s) (std s) (rms s) (patches s)
     (_plane s) (coordinate s) (gridinfo s) (creation_time s).

Definition set_patches (v : list Patch.t) (s : t) : t :=
  mk (filename s) (number_of_patches s) (precision s) (type s) (mode s) (unit s) (cycle s)
     (time s) (plane s) (min s) (max s) (std s) (rms s) v
     (_plane s) (coordinate s) (gridinfo s) (creation_time s).

Section Methods.

Variable D : dic_and_dtype.
Variable E : environment.

(** [_readSW4hdr]: one header record; indexing the empty array that a
    short file gives raises IndexError. *)
Definition _readSW4hdr (self : t) (f : list byte) : result (t * list byte) :=
  let '(recs, f') := np_fromfile (SW4_header_dtype_itemsize D) 1 f in
  match recs with
  | [] => Raise IndexError
  | header :: _ =>
      let bo := byteorder E in
      Ok (mk (filename self)
             (int32_of_bytes bo (field 4 4 header))
             (PrecInt (int32_of_bytes bo (field 0 4 header)))
             (type self)
             (ModeCode (int32_of_bytes bo (field 28 4 header)))
             (unit self) (cycle self)
             (PyFloat (float_of_bytes float64 bo (field 8 8 header)))
             (plane self) (min self) (max self) (std self) (rms self)
             (patches self)
             (Some (int32_of_bytes bo (field 16 4 header)))
             (Some (float_of_bytes float64 bo (field 20 8 header)))
             (Some (int32_of_bytes bo (field 32 4 header)))
             (Some (rstrip_nul (field 36 (creation_time_size D) header))),
          f')
  end.

(** The body of the loop of [_readSW4patches] for the descriptor [item] of
    index [i]: the file as the body leaves it, and the new patch or the
    exception raised.  The samples are read with [self.precision] as their
    dtype: a numpy type once [read] has resolved the code; the np.int32
    code of the header, which numpy takes for the dtype int32; or the
    Python integer of a new Image, which numpy refuses. *)
Definition read_patch (self : t) (i : Z) (item : list byte) (f : list byte)
  : list byte * result Patch.t :=
  let bo := byteorder E in
  let h := float_of_bytes float64 bo (field 0 8 item) in
  let zmin := float_of_bytes float64 bo (field 8 8 item) in
  let ib := int32_of_bytes bo (field 16 4 item) in
  let ni := int32_of_bytes bo (field 20 4 item) in
  let jb := int32_of_bytes bo (field 24 4 item) in
  let nj := int32_of_bytes bo (field 28 4 item) in
  match precision self with
  | PrecPyInt _ => (f, Raise TypeError)
  | PrecType t =>
      let '(raw, f') := np_fromfile (IEEE.itemsize t) (wrap32 (ni * nj)) f in
      let data := map (float_of_bytes t bo) raw in
      (f',
       grid <- np_reshape t data nj ni ;;
       code <- match _plane self with
               | Some c => Ok c
               | None => Raise AttributeError
               end ;;
       let '(grid', ext) :=
         if (code =? 0) || (code =? 1) then (grid, extent_xy h zmin ni nj)
         else if code =? 2 then (np_transpose grid, extent_z h ni nj)
         else (grid, Patch.extent Patch.__init__) in
       lo <- np_min data ;;
       hi <- np_max data ;;
       Ok (Patch.mk i (PyFloat h) (PyFloat zmin) ib ni jb nj ext (Some grid')
             (PyFloat lo) (PyFloat hi)
             (PyFloat (np_std E t data))
             (PyFloat (IEEE.sqrt t (np_mean E t (np_square t data))))))
  | PrecInt _ =>
      let '(raw, f') := np_fromfile 4 (wrap32 (ni * nj)) f in
      let data := map (int32_of_bytes bo) raw in
      (f',
       grid <- np_reshape_int32 data nj ni ;;
       code <- match _plane self with
               | Some c => Ok c
               | None => Raise AttributeError
               end ;;
       let '(grid', ext) :=
         if (code =? 0) || (code =? 1) then (grid, extent_xy h zmin ni nj)
         else if code =? 2 then (np_transpose_int32 grid, extent_z h ni nj)
         else (grid, Patch.extent Patch.__init__) in
       lo <- np_min_int32 data ;;
       hi <- np_max_int32 data ;;
       Ok (Patch.mk i (PyFloat h) (PyFloat zmin) ib ni jb nj ext (Some (Int32Array grid'))
             (PyInt lo) (PyInt hi)
             (PyFloat (np_std E float64 (map f64_of_Z data)))
             (PyFloat (IEEE.sqrt float64
                         (np_mean E float64 (map f64_of_Z (np_square_int32 data)))))))
  end.

(** The body for a caller that lets the exception pass: the new patch and
    the file after its samples. *)
Definition decode_patch (self : t) (i : Z) (item : list byte) (f : list byte)
  : result (Patch.t * list byte) :=
  match read_patch self i item f with
  | (f', Ok patch) => Ok (patch, f')
  | (_, Raise e) => Raise e
  end.

(** The loop.  Each patch is appended to the list of the image in place
    (line 95), so the patches made before an exception stay in the image:
    [run_patches] gives the image and the file as the loop leaves them,
    and the exception if one ended it. *)
Fixpoint run_patches (self : t) (i : Z) (patch_info : list (list byte)) (f : list byte)
  : t * list byte * option exn :=
  match patch_info with
  | [] => (self, f, None)
  | item :: rest =>
      match read_patch self i item f with
      | (f', Ok patch) =>
          run_patches (set_patches (patches self ++ [patch]) self) (i + 1) rest f'
      | (f', Raise e) => (self, f', Some e)
      end
  end.

(** The loop for a caller that lets the exception pass. *)
Definition patches_loop (self : t) (i : Z) (patch_info : list (list byte)) (f : list byte)
  : result (t * list byte) :=
  match run_patches self i patch_info f with
  | (self', f', None) => Ok (self', f')
  | (_, _, Some e) => Raise e
  end.

(** [_readSW4patches]: the descriptors are read in one call, then the
    samples of each patch in turn. *)
Definition _readSW4patches (self : t) (f : list byte) : result (t * list byte) :=
  let '(patch_info, f') :=
    np_fromfile SW4_patch_dtype_itemsize (number_of_patches self) f in
  patches_loop self 0 patch_info f'.

(** The image and the file as [_readSW4patches] leaves them, and the
    exception if it raised one. *)
Definition _readSW4patches_state (self : t) (f : list byte) : t * list byte * option exn :=
  let '(patch_info, f') :=
    np_fromfile SW4_patch_dtype_itemsize (number_of_patches self) f in
  run_patches self 0 patch_info f'.

End Methods.

End Image.

(** ** Python strings *)

(** [s.rsplit(c, 1)] when [c] occurs in [s]: the text before and after its
    last occurrence. *)
Fixpoint rsplit1 (c : ascii) (s : string) : option (string * string) :=
  match s with
  | EmptyString => None
  | String a r =>
      match rsplit1 c r with
      | Some (x, y) => Some (String a x, y)
      | None => if Ascii.eqb a c then Some (EmptyString, r) else None
      end
  end.

(** [s.rsplit(c, n)] *)
Fixpoint rsplit (c : ascii) (n : nat) (s : string) : list string :=
  match n with
  | O => [s]
  | S n' =>
      match rsplit1 c s with
      | Some (x, y) => rsplit c n' x ++ [y]
      | None => [s]
      end
  end.

(** [s.split(c)] *)
Fixpoint split (c : ascii) (s : string) : list string :=
  match s with
  | EmptyString => [EmptyString]
  | String a r =>
      if Ascii.eqb a c then EmptyString :: split c r
      else
        match split c r with
        | x :: l => String a x :: l
        | [] => [String a EmptyString]
        end
  end.

Definition is_space (a : ascii) : bool :=
  let n := nat_of_ascii a in
  (n =? 32)%nat || ((9 <=? n)%nat && (n <=? 13)%nat).

Fixpoint lstrip (s : string) : string :=
  match s with
  | String a r => if is_space a then lstrip r else s
  | EmptyString => s
  end.

Fixpoint rstrip (s : string) : string :=
  match s with
  | EmptyString => EmptyString
  | String a r =>
      match rstrip r with
      | EmptyString => if is_space a then EmptyString else String a EmptyString
      | r' => String a r'
      end
  end.

Fixpoint digits_value (acc : Z) (s : string) : option Z :=
  match s with
  | EmptyString => Some acc
  | String a r =>
      let n := nat_of_ascii a in
      if (48 <=? n)%nat && (n <=? 57)%nat
      then digits_value (acc * 10 + Z.of_nat (n - 48)) r
      else None
  end.

(** [int(s)]: blanks around an optionally signed, non-empty run of decimal
    digits; ValueError otherwise. *)
Definition py_int (s : string) : result Z :=
  let body := rstrip (lstrip s) in
  let '(neg, ds) :=
    match body with
    | String "-" r => (true, r)
    | String "+" r => (false, r)
    | _ => (false, body)
    end in
  match ds with
  | EmptyString => Raise ValueError
  | _ =>
      match digits_value 0 ds with
      | Some v => Ok (if neg then - v else v)
      | None => Raise ValueError
      end
  end.

(** [os.path.basename] and [os.path.splitext] (posix). *)
Definition basename (p : string) : string :=
  match rsplit1 "/" p with
  | Some (_, y) => y
  | None => p
  end.

Fixpoint all_dots (s : string) : bool :=
  match s with
  | EmptyString => true
  | String a r => Ascii.eqb a "." && all_dots r
  end.

Definition splitext (p : string) : string * string :=
  match rsplit1 "." (basename p) with
  | Some (x, y) =>
      if all_dots (basename (String "/" x)) then (p, EmptyString)
      else
        match rsplit1 "." p with
        | Some (x', y') => (x', String "." y')
        | None => (p, EmptyString)
        end
  | None => (p, EmptyString)
  end.

(** ** parse_filename *)

Definition last_part (l : list string) : string :=
  List.last l EmptyString.

(** The four-name unpacking of [rsplit('.', 3)], the integer after the last
    '=' of the cycle part and the two-name unpacking of the plane part;
    each unpacking of a list of another length raises ValueError. *)
Definition parse_parts (text : string) (is_SW4 : bool)
  : result (string * Z * string * string * string * bool) :=
  match rsplit "." 3 text with
  | [name; cycle; plane; mode] =>
      cycle' <- py_int (last_part (split "=" cycle)) ;;
      match split "=" plane with
      | [plane'; coordinate] => Ok (name, cycle', plane', coordinate, mode, is_SW4)
      | _ => Raise ValueError
      end
  | _ => Raise ValueError
  end.

Definition parse_filename (filename : string)
  : result (string * Z * string * string * string * bool) :=
  let base := basename filename in
  let '(name, extention) := splitext base in
  if String.eqb extention ".sw4img" then parse_parts name true
  else parse_parts base false.

(** ** read *)

Fixpoint has_nul (s : string) : bool :=
  match s with
  | EmptyString => false
  | String a r => Ascii.eqb a Ascii.zero || has_nul r
  end.

Definition f64_half : float := S754_finite false 4503599627370496 (-53).
Definition f64_hundred : float := S754_finite false 7036874417766400 (-46).

Section Read.

Variable D : dic_and_dtype.
Variable E : environment.

(** The branch of [read] for the default argument: one patch of random
    samples. *)
Definition random_patch : result Patch.t :=
  let ni := 100 in
  let nj := 200 in
  let h := f64_hundred in
  let zmin := 0 in
  let data :=
    map (fun x => f64_mul (f64_of_Z 2) (f64_sub x f64_half)) (np_random_rand E ni nj) in
  lo <- np_min data ;;
  hi <- np_max data ;;
  Ok (Patch.mk 0 (PyFloat h) (PyInt zmin)
        (Patch.ib Patch.__init__) ni (Patch.jb Patch.__init__) nj
        (PyInt 0,
         PyFloat (f64_mul (f64_of_Z nj) h),
         PyFloat (f64_add (f64_of_Z zmin) (f64_mul (f64_of_Z ni) h)),
         PyInt zmin)
        (Some (mk_ndarray float64 (ni, nj) data))
        (PyFloat lo) (PyFloat hi)
        (PyFloat (np_std E float64 data))
        (PyFloat (IEEE.sqrt float64 (np_mean E float64 (np_square float64 data))))).

(** [open(path, 'rb')]: the contents of the file, IOError when there is no
    such file.  A name that holds a NUL character names no file: Python
    refuses it with TypeError. *)
Definition open (path : string) : result (list byte) :=
  match files E path with
  | Some bytes => Ok bytes
  | None => Raise (if has_nul path then TypeError else IOError)
  end.

(** The key of a table lookup: an integer is its own key; a numpy type or
    None is the key of no entry. *)
Definition precision_key (p : precision_attr) : result pykey :=
  match p with
  | PrecPyInt c | PrecInt c => Ok (KInt c)
  | PrecType _ => Raise KeyError
  end.

Definition mode_key (m : mode_attr) : result pykey :=
  match m with
  | ModeCode c => Ok (KInt c)
  | ModeName s => Ok (KStr s)
  | ModeNone => Raise KeyError
  end.

Definition read (filename : filename_arg) : result Image.t :=
  let image := Image.set_filename filename Image.__init__ in
  match filename with
  | FRandom =>
      patch <- random_patch ;;
      Ok (Image.set_patches (Image.patches image ++ [patch]) image)
  | FNone => Ok image
  | FPath path =>
      ' (name, cycle, plane, coordinate, mode, is_SW4) <- parse_filename path ;;
      let image := Image.set_cycle cycle image in
      if is_SW4 : bool then
        f <- open path ;;
        ' (image, f) <- Image._readSW4hdr D E image f ;;
        k <- precision_key (Image.precision image) ;;
        t <- dict_get (prec_dict D) k ;;
        let image := Image.set_precision (PrecType t) image in
        p <- dict_get (SW4_plane_dict D) (KStr (Image.plane image)) ;;
        let image := Image.set_plane p image in
        k <- mode_key (Image.mode image) ;;
        ' (m, u) <- dict_get (SW4_mode_dict D) k ;;
        let image := Image.set_mode_unit (ModeName m) (Some u) image in
        ' (image, f) <- Image._readSW4patches E image f ;;
        Ok image
      else Ok image
  end.

End Read.

(** ** Concrete tables, environment and files for the examples *)

(** An instance of the tables in the spec's terms: precision codes 4 and 8
    for float32 and float64, plane codes 0, 1, 2 (the ones
    [_readSW4patches] tests) for X, Y, Z, and three displacement modes. *)
Definition sw4_tables : dic_and_dtype :=
  {| creation_time_size := 25;
     prec_dict := [(KInt 4, float32); (KInt 8, float64)];
     SW4_plane_dict := [(KInt 0, "X"); (KInt 1, "Y"); (KInt 2, "Z")]%string;
     SW4_mode_dict :=
       [(KInt 1, ("ux", "m")); (KInt 2, ("uy", "m")); (KInt 3, ("uz", "m"))]%string |}.

(** Summation from left to right, starting from zero: numpy's order for a
    buffer of fewer than eight samples. *)
Definition seq_sum (t : float_dtype) (l : list float) : float :=
  fold_left (IEEE.add t) l (S754_zero false).

Definition seq_mean (t : float_dtype) (l : list float) : float :=
  IEEE.div t (seq_sum t l) (IEEE.of_Z t (Z.of_nat (List.length l))).

Definition seq_std (t : float_dtype) (l : list float) : float :=
  let m := seq_mean t l in
  IEEE.sqrt t (seq_mean t (np_square t (map (fun x => IEEE.sub t x m) l))).

Definition byte_of_Z (z : Z) : byte :=
  match Byte.of_N (Z.to_N (z mod 256)) with
  | Some b => b
  | None => x00
  end.

(** The [n] bytes of [z], least significant first. *)
Fixpoint le_bytes (n : nat) (z : Z) : list byte :=
  match n with
  | O => []
  | S n' => byte_of_Z z :: le_bytes n' (z / 256)
  end.

Definition sw4_header (precision patches : Z) (time : Z) (plane : Z) (coordinate : Z)
  (mode gridinfo : Z) : list byte :=
  le_bytes 4 precision ++ le_bytes 4 patches ++ le_bytes 8 time ++ le_bytes 4 plane
  ++ le_bytes 8 coordinate ++ le_bytes 4 mode ++ le_bytes 4 gridinfo ++ repeat x00 25.

Definition sw4_descriptor (h zmin : Z) (ib ni jb nj : Z) : list byte :=
  le_bytes 8 h ++ le_bytes 8 zmin ++ le_bytes 4 ib ++ le_bytes 4 ni
  ++ le_bytes 4 jb ++ le_bytes 4 nj.

(** The float64 bit patterns of 1.0, ..., 6.0. *)
Definition one_to_six : list Z :=
  [0x3FF0000000000000; 0x4000000000000000; 0x4008000000000000;
   0x4010000000000000; 0x4014000000000000; 0x4018000000000000].

Definition samples64 (bits : list Z) : list byte :=
  flat_map (le_bytes 8) bits.

(** The file of the end-to-end scenario: precision 8, one patch,
    time 1.5, plane code [plane], coordinate 0.0, mode code 1, grid info 0;
    then the descriptor h = 100.0, zmin = 0.0, ib = 1, ni = 3, jb = 1,
    nj = 2 and the samples 1.0, ..., 6.0. *)
Definition scenario_patch_bytes : list byte :=
  sw4_descriptor 0x4059000000000000 0 1 3 1 2 ++ samples64 one_to_six.

Definition scenario_file (plane : Z) : list byte :=
  sw4_header 8 1 0x3FF8000000000000 plane 0 1 0 ++ scenario_patch_bytes.

Definition scenario_path : string := "shake.cycle=10.x=0.ux.sw4img".

(** A file that declares two patches of 3 by 2 float64 samples and ends
    one sample short: the first patch is whole, the second lacks its last
    sample. *)
Definition truncated_patches_bytes : list byte :=
  sw4_descriptor 0x4059000000000000 0 1 3 1 2
  ++ sw4_descriptor 0x4059000000000000 0 1 3 1 2
  ++ samples64 one_to_six ++ samples64 (firstn 5 one_to_six).

Definition truncated_file : list byte :=
  sw4_header 8 2 0x3FF8000000000000 0 0 1 0 ++ truncated_patches_bytes.

(** An environment: a little-endian machine, sequential reductions, a
    constant random draw and one file (none if the name holds a NUL
    character). *)
Definition f64_quarter : float := S754_finite false 4503599627370496 (-54).

Definition env_with (path : string) (contents : list byte) : environment :=
  {| byteorder := little_endian;
     np_mean := seq_mean;
     np_std := seq_std;
     np_random_rand := fun ni nj => repeat f64_quarter (Z.to_nat (ni * nj));
     files := fun p =>
                if has_nul p then None
                else if String.eqb p path then Some contents else None |}.

Definition scenario_env : environment := env_with scenario_path (scenario_file 0).

(** The image after [_readSW4hdr] and the three lookups of [read], as
    [_readSW4patches] expects it. *)
Definition image_after_header (t : float_dtype) (patches code : Z) : Image.t :=
  Image.mk (FPath scenario_path) patches (PrecType t) "cross-section"
    (ModeName "ux") (Some "m"%string) 10 (PyInt 0) "X"
    (PyInt 0) (PyInt 0) (PyInt 0) (PyInt 0) [] (Some code) None None None.



(** ** Vocabulary of the statements *)

(** The fields of a patch descriptor record. *)
Definition desc_h (E : environment) (item : list byte) : float :=
  float_of_bytes float64 (byteorder E) (field 0 8 item).
Definition desc_zmin (E : environment) (item : list byte) : float :=
  float_of_bytes float64 (byteorder E) (field 8 8 item).
Definition desc_ni (E : environment) (item : list byte) : Z :=
  int32_of_bytes (byteorder E) (field 20 4 item).
Definition desc_nj (E : environment) (item : list byte) : Z :=
  int32_of_bytes (byteorder E) (field 28 4 item).

(** The raw sample buffer read for a descriptor from the file [f]. *)
Definition patch_samples (E : environment) (t : float_dtype) (item f : list byte)
  : list float :=
  map (float_of_bytes t (byteorder E))
      (fst (np_fromfile (IEEE.itemsize t) (wrap32 (desc_ni E item * desc_nj E item)) f)).

(** The plane table is indexed by header codes only. *)
Definition int_keyed {V : Type} (d : list (pykey * V)) : Prop :=
  Forall (fun kv => exists c, fst kv = KInt c) d.


(** The grid of a patch is the [nj] by [ni] reshaping [g] of its raw
    samples, as it is ([transposed = false]) or transposed. *)
Definition grid_of (p : Patch.t) (transposed : bool) (g : ndarray) : Prop :=
  np_reshape (dtype g) (items g) (Patch.nj p) (Patch.ni p) = Ok g /\
  Patch.data p = Some (if transposed then np_transpose g else g).


(** The descriptors with the raw buffers that the loop of
    [_readSW4patches] reads for them, in order: the read for a patch starts
    where the read for the patch before it ended. *)
Fixpoint sample_reads (E : environment) (t : float_dtype)
  (patch_info : list (list byte)) (f : list byte) : list (list byte * list float) :=
  match patch_info with
  | [] => []
  | item :: rest =>
      (item, patch_samples E t item f)
      :: sample_reads E t rest
           (snd (np_fromfile (IEEE.itemsize t)
                   (wrap32 (desc_ni E item * desc_nj E item)) f))
  end.

(** The descriptors and the buffers read by [_readSW4patches] on the image
    [self] and the file [f]. *)
Definition reads_of (E : environment) (t : float_dtype) (self : Image.t) (f : list byte)
  : list (list byte * list float) :=
  sample_reads E t
    (fst (np_fromfile SW4_patch_dtype_itemsize (Image.number_of_patches self) f))
    (snd (np_fromfile SW4_patch_dtype_itemsize (Image.number_of_patches self) f)).


(** The patch carries the fields of the descriptor [item]. *)
Definition from_descriptor (E : environment) (item : list byte) (p : Patch.t) : Prop :=
  Patch.h p = PyFloat (desc_h E item) /\
  Patch.zmin p = PyFloat (desc_zmin E item) /\
  Patch.ni p = desc_ni E item /\
  Patch.nj p = desc_nj E item.



(** The grid of the patch is the [nj] by [ni] reshaping of [buf], as it is
    or transposed. *)
Definition holds_grid (t : float_dtype) (buf : list float) (transposed : bool)
  (p : Patch.t) : Prop :=
  exists g,
    np_reshape t buf (Patch.nj p) (Patch.ni p) = Ok g /\
    Patch.data p = Some (if transposed then np_transpose g else g).

(** The four statistics of a patch are those of the raw buffer [buf] of
    precision [t]. *)
Definition stats_of (E : environment) (t : float_dtype) (buf : list float) (p : Patch.t)
  : Prop :=
  exists lo hi,
    np_min buf = Ok lo /\ np_max buf = Ok hi /\
    Patch.min p = PyFloat lo /\ Patch.max p = PyFloat hi /\
    Patch.std p = PyFloat (np_std E t buf) /\
    Patch.rms p = PyFloat (IEEE.sqrt t (np_mean E t (np_square t buf))).

(** The run of the loop of [_readSW4patches] from index [i] over the
    descriptors [patch_info]: the patches it appends, in order, and the
    file it leaves. *)
Inductive decodes (E : environment) (self : Image.t)
  : Z -> list (list byte) -> list byte -> list Patch.t -> list byte -> Prop :=
| decodes_nil (i : Z) (f : list byte) : decodes E self i [] f [] f
| decodes_cons (i : Z) (item : list byte) (rest : list (list byte))
    (f f1 f' : list byte) (p : Patch.t) (ps : list Patch.t) :
    Image.decode_patch E self i item f = Ok (p, f1) ->
    decodes E self (i + 1) rest f1 ps f' ->
    decodes E self i (item :: rest) f (p :: ps) f'.

(** A patch made by the loop body. *)
Definition decoded (E : environment) (self : Image.t) (p : Patch.t) : Prop :=
  exists i item f f', Image.decode_patch E self i item f = Ok (p, f').

(** The number of samples the descriptors [patch_info] announce, and a
    descriptor whose dimensions are such: non-negative, with a product
    that fits np.int32. *)
Definition samples_needed (E : environment) (patch_info : list (list byte)) : Z :=
  fold_right (fun item acc => desc_ni E item * desc_nj E item + acc) 0 patch_info.

Definition sane_dims (E : environment) (item : list byte) : Prop :=
  0 <= desc_ni E item /\ 0 <= desc_nj E item /\
  desc_ni E item * desc_nj E item < 2 ^ 31.









(** The number of binary digits of a mantissa. *)
Definition dig (m : positive) : Z := Zpos (digits2_pos m).

Definition f64_one : float := S754_finite false 4503599627370496 (-52).

(** What [np.random.rand] promises of a draw: a float64 of the half-open
    interval [0, 1). *)
Definition unit_draw (x : float) : Prop :=
  IEEE.valid float64 x = true /\
  IEEE.leb f64_zero x = true /\
  IEEE.ltb x f64_one = true.

(** [np.random.rand(ni, nj)] as numpy documents it: [ni * nj] draws. *)
Definition rand_contract (E : environment) : Prop :=
  forall ni nj : Z, 0 <= ni -> 0 <= nj ->
    List.length (np_random_rand E ni nj) = Z.to_nat (ni * nj) /\
    Forall unit_draw (np_random_rand E ni nj).

(** A sample of the closed interval [-1, 1]. *)
Definition within_unit (y : float) : Prop :=
  IEEE.leb (SFopp f64_one) y = true /\ IEEE.leb y f64_one = true.

(** The character [c] does not occur in [s]; the number of its
    occurrences. *)
Fixpoint lacks (c : ascii) (s : string) : bool :=
  match s with
  | EmptyString => true
  | String a r => negb (Ascii.eqb a c) && lacks c r
  end.

Fixpoint count_char (c : ascii) (s : string) : nat :=
  match s with
  | EmptyString => O
  | String a r => ((if Ascii.eqb a c then 1 else 0) + count_char c r)%nat
  end.

(** [sep.join(l)] *)
Fixpoint join (c : ascii) (l : list string) : string :=
  match l with
  | [] => EmptyString
  | [x] => x
  | x :: r => (x ++ String c (join c r))%string
  end.

(** The text of an image file name: name, cycle part, plane and its
    coordinate, mode. *)
Definition dotted (name cyc plane coordinate mode : string) : string :=
  (name ++ String "." (cyc ++ String "."
     ((plane ++ String "=" coordinate) ++ String "." mode)))%string.

(** The parts of such a name as SW4 writes it: no part holds a path
    separator, the parts after the name hold no dot, the plane and its
    coordinate hold no '=', and the cycle is a run of decimal digits of
    value [n]. *)
Definition name_parts (name key digits plane coordinate mode : string) (n : Z) : Prop :=
  lacks "/" name = true /\
  (lacks "/" key && lacks "." key) = true /\
  (digits <> EmptyString /\ digits_value 0 digits = Some n) /\
  (lacks "/" plane && lacks "." plane && lacks "=" plane) = true /\
  (lacks "/" coordinate && lacks "." coordinate && lacks "=" coordinate) = true /\
  (lacks "/" mode && lacks "." mode) = true.

(** [n] samples of precision [t] stored from the start of the bytes [f]. *)
Definition samples_at (E : environment) (t : float_dtype) (n : Z) (f : list byte)
  : list float :=
  map (float_of_bytes t (byteorder E)) (chunks (IEEE.itemsize t) (Z.to_nat n) f).

(** The blocks of samples announced by the descriptors [patch_info], one
    after the other from the start of [f]. *)
Fixpoint sample_blocks (E : environment) (t : float_dtype)
  (patch_info : list (list byte)) (f : list byte) : list (list float) :=
  match patch_info with
  | [] => []
  | item :: rest =>
      let n := desc_ni E item * desc_nj E item in
      samples_at E t n f
      :: sample_blocks E t rest (skipn (Z.to_nat (Z.of_nat (IEEE.itemsize t) * n)) f)
  end.

(** The image with the plane code [code] in [_plane], as [_readSW4hdr]
    leaves it for a header that holds this code. *)
Definition with_plane_code (code : Z) (s : Image.t) : Image.t :=
  Image.mk (Image.filename s) (Image.number_of_patches s) (Image.precision s)
    (Image.type s) (Image.mode s) (Image.unit s) (Image.cycle s) (Image.time s)
    (Image.plane s) (Image.min s) (Image.max s) (Image.std s) (Image.rms s)
    (Image.patches s) (Some code) (Image.coordinate s) (Image.gridinfo s)
    (Image.creation_time s).

(** The patch with its extent replaced by the extent of a new Patch,
    (0, 1, 0, 1). *)
Definition default_extent (p : Patch.t) : Patch.t :=
  Patch.mk (Patch.number p) (Patch.h p) (Patch.zmin p) (Patch.ib p) (Patch.ni p)
    (Patch.jb p) (Patch.nj p) (Patch.extent Patch.__init__) (Patch.data p)
    (Patch.min p) (Patch.max p) (Patch.std p) (Patch.rms p).

(** The raw buffer read for a descriptor when the samples are taken for
    np.int32. *)
Definition int_samples (E : environment) (item f : list byte) : list Z :=
  map (int32_of_bytes (byteorder E))
      (fst (np_fromfile 4 (wrap32 (desc_ni E item * desc_nj E item)) f)).

(** * Properties *)

(** ** Results *)

Lemma bind_ok {A B : Type} (c : result A) (k : A -> result B) (b : B) :
  bind c k = Ok b -> exists a, c = Ok a /\ k a = Ok b.
Proof.
  destruct c as [a | e]; simpl; intros H; [eauto | discriminate].
Qed.

Lemma bind_raise {A B : Type} (c : result A) (k : A -> result B) (e : exn) :
  bind c k = Raise e -> c = Raise e \/ exists a, c = Ok a /\ k a = Raise e.
Proof.
  destruct c as [a | e']; simpl; intros H; [right; eauto | left; congruence].
Qed.

Ltac inv_bind H :=
  let a := fresh "a" in
  let Ha := fresh "Ha" in
  apply bind_ok in H; destruct H as (a & Ha & H).

#[local] Arguments np_fromfile : simpl never.
#[local] Arguments np_reshape : simpl never.
#[local] Arguments np_transpose : simpl never.
#[local] Arguments np_min : simpl never.
#[local] Arguments np_max : simpl never.
#[local] Arguments wrap32 : simpl never.
#[local] Arguments int32_of_bytes : simpl never.
#[local] Arguments float_of_bytes : simpl never.
#[local] Arguments extent_xy : simpl never.
#[local] Arguments extent_z : simpl never.

(** ** The loop body *)

(** The body for an image whose precision is a numpy type. *)
Lemma decode_patch_float (E : environment) (self : Image.t) (t : float_dtype)
  (i : Z) (item f : list byte) :
  Image.precision self = PrecType t ->
  Image.decode_patch E self i item f
  = (g <- np_reshape t (patch_samples E t item f) (desc_nj E item) (desc_ni E item) ;;
     code <- match Image._plane self with
             | Some c => Ok c
             | None => Raise AttributeError
             end ;;
     lo <- np_min (patch_samples E t item f) ;;
     hi <- np_max (patch_samples E t item f) ;;
     Ok (Patch.mk i (PyFloat (desc_h E item)) (PyFloat (desc_zmin E item))
           (int32_of_bytes (byteorder E) (field 16 4 item)) (desc_ni E item)
           (int32_of_bytes (byteorder E) (field 24 4 item)) (desc_nj E item)
           (if (code =? 0) || (code =? 1)
            then extent_xy (desc_h E item) (desc_zmin E item) (desc_ni E item) (desc_nj E item)
            else if code =? 2 then extent_z (desc_h E item) (desc_ni E item) (desc_nj E item)
            else Patch.extent Patch.__init__)
           (Some (if (code =? 0) || (code =? 1) then g
                  else if code =? 2 then np_transpose g else g))
           (PyFloat lo) (PyFloat hi)
           (PyFloat (np_std E t (patch_samples E t item f)))
           (PyFloat (IEEE.sqrt t (np_mean E t (np_square t (patch_samples E t item f))))),
         snd (np_fromfile (IEEE.itemsize t) (wrap32 (desc_ni E item * desc_nj E item)) f))).
Proof.
  intros Hp.
  unfold Image.decode_patch, Image.read_patch, patch_samples, desc_ni, desc_nj, desc_h,
    desc_zmin.
  rewrite Hp.
  destruct (np_fromfile (IEEE.itemsize t) _ f) as [raw rest]. cbn [fst snd].
  destruct (np_reshape t _ _ _) as [g | e]; cbn [bind]; [| reflexivity].
  destruct (Image._plane self) as [code |]; cbn [bind]; [| reflexivity].
  destruct ((code =? 0) || (code =? 1)); [| destruct (code =? 2)];
    (destruct (np_min _) as [lo | e]; cbn [bind]; [| reflexivity]);
    (destruct (np_max _) as [hi | e]; cbn [bind]; reflexivity).
Qed.

Lemma decode_patch_inv (E : environment) (self : Image.t) (t : float_dtype) (i : Z)
  (item f : list byte) (p : Patch.t) (f' : list byte) :
  Image.precision self = PrecType t ->
  Image.decode_patch E self i item f = Ok (p, f') ->
  exists code g lo hi,
    Image._plane self = Some code /\
    np_reshape t (patch_samples E t item f) (desc_nj E item) (desc_ni E item) = Ok g /\
    np_min (patch_samples E t item f) = Ok lo /\
    np_max (patch_samples E t item f) = Ok hi /\
    f' = snd (np_fromfile (IEEE.itemsize t) (wrap32 (desc_ni E item * desc_nj E item)) f) /\
    p = Patch.mk i (PyFloat (desc_h E item)) (PyFloat (desc_zmin E item))
          (int32_of_bytes (byteorder E) (field 16 4 item)) (desc_ni E item)
          (int32_of_bytes (byteorder E) (field 24 4 item)) (desc_nj E item)
          (if (code =? 0) || (code =? 1)
           then extent_xy (desc_h E item) (desc_zmin E item) (desc_ni E item) (desc_nj E item)
           else if code =? 2 then extent_z (desc_h E item) (desc_ni E item) (desc_nj E item)
           else Patch.extent Patch.__init__)
          (Some (if (code =? 0) || (code =? 1) then g
                 else if code =? 2 then np_transpose g else g))
          (PyFloat lo) (PyFloat hi)
          (PyFloat (np_std E t (patch_samples E t item f)))
          (PyFloat (IEEE.sqrt t (np_mean E t (np_square t (patch_samples E t item f))))).
Proof.
  intros Hp H. rewrite (decode_patch_float E self t i item f Hp) in H.
  inv_bind H. rename a into g.
  inv_bind H. rename a into code.
  inv_bind H. rename a into lo.
  inv_bind H. rename a into hi.
  injection H as <- <-.
  exists code, g, lo, hi.
  destruct (Image._plane self) as [c |]; [| discriminate].
  injection Ha0 as ->.
  repeat split; assumption.
Qed.

(** Whatever the precision, a patch that is made carries its index and
    the fields of its descriptor. *)
Lemma decode_patch_descriptor (E : environment) (self : Image.t) (i : Z)
  (item f : list byte) (p : Patch.t) (f' : list byte) :
  Image.decode_patch E self i item f = Ok (p, f') ->
  Patch.number p = i /\
  Patch.h p = PyFloat (desc_h E item) /\
  Patch.zmin p = PyFloat (desc_zmin E item) /\
  Patch.ni p = desc_ni E item /\
  Patch.nj p = desc_nj E item.
Proof.
  unfold Image.decode_patch, Image.read_patch, desc_ni, desc_nj, desc_h, desc_zmin.
  intros H.
  destruct (Image.precision self) as [n | c | t]; [discriminate | |].
  - destruct (np_fromfile 4 _ f) as [raw rest].
    destruct (np_reshape_int32 _ _ _) as [g | e]; cbn [bind] in H; [| discriminate].
    destruct (Image._plane self) as [code |]; cbn [bind] in H; [| discriminate].
    destruct ((code =? 0) || (code =? 1)); [| destruct (code =? 2)];
      (destruct (np_min_int32 _) as [lo | e]; cbn [bind] in H; [| discriminate]);
      (destruct (np_max_int32 _) as [hi | e]; cbn [bind] in H; [| discriminate]);
      injection H as <- <-; repeat split.
  - destruct (np_fromfile (IEEE.itemsize t) _ f) as [raw rest].
    destruct (np_reshape t _ _ _) as [g | e]; cbn [bind] in H; [| discriminate].
    destruct (Image._plane self) as [code |]; cbn [bind] in H; [| discriminate].
    destruct ((code =? 0) || (code =? 1)); [| destruct (code =? 2)];
      (destruct (np_min _) as [lo | e]; cbn [bind] in H; [| discriminate]);
      (destruct (np_max _) as [hi | e]; cbn [bind] in H; [| discriminate]);
      injection H as <- <-; repeat split.
Qed.

(** ** The loop *)

Lemma decode_patch_set_patches (E : environment) (self : Image.t)
  (v : list Patch.t) (i : Z) (item f : list byte) :
  Image.decode_patch E (Image.set_patches v self) i item f
  = Image.decode_patch E self i item f.
Proof. reflexivity. Qed.

Lemma decodes_set_patches (E : environment) (self : Image.t) (v : list Patch.t)
  (i : Z) (infos : list (list byte)) (f f' : list byte) (ps : list Patch.t) :
  decodes E (Image.set_patches v self) i infos f ps f' ->
  decodes E self i infos f ps f'.
Proof.
  induction 1 as [| i item rest f f1 f' p ps Hd _ IH]; econstructor; eauto.
Qed.

Lemma set_patches_twice (self : Image.t) (u v : list Patch.t) :
  Image.set_patches v (Image.set_patches u self) = Image.set_patches v self.
Proof. reflexivity. Qed.

Lemma patches_loop_nil (E : environment) (self : Image.t) (i : Z) (f : list byte) :
  Image.patches_loop E self i [] f = Ok (self, f).
Proof. reflexivity. Qed.

Lemma patches_loop_cons (E : environment) (self : Image.t) (i : Z)
  (item : list byte) (rest : list (list byte)) (f : list byte) :
  Image.patches_loop E self i (item :: rest) f
  = (' (patch, f') <- Image.decode_patch E self i item f ;;
     Image.patches_loop E (Image.set_patches (Image.patches self ++ [patch]) self)
       (i + 1) rest f').
Proof.
  unfold Image.patches_loop, Image.decode_patch. cbn [Image.run_patches].
  destruct (Image.read_patch E self i item f) as [f' [p | e]]; reflexivity.
Qed.

Lemma patches_loop_decodes (E : environment) (infos : list (list byte)) :
  forall (self : Image.t) (i : Z) (f : list byte) (img : Image.t) (f' : list byte),
    Image.patches_loop E self i infos f = Ok (img, f') ->
    exists ps,
      decodes E self i infos f ps f' /\
      img = Image.set_patches (Image.patches self ++ ps) self.
Proof.
  induction infos as [| item rest IH]; intros self i f img f' H.
  - rewrite patches_loop_nil in H.
    injection H as <- <-. exists []. split; [constructor |].
    rewrite app_nil_r. destruct self; reflexivity.
  - rewrite patches_loop_cons in H.
    inv_bind H. destruct a as [p f1].
    apply IH in H. destruct H as (ps & Hd & ->).
    exists (p :: ps). split.
    + econstructor; [exact Ha |]. eapply decodes_set_patches; exact Hd.
    + rewrite set_patches_twice. simpl. rewrite <- app_assoc. reflexivity.
Qed.

Lemma decodes_patches_loop (E : environment) (self : Image.t) (i : Z)
  (infos : list (list byte)) (f f' : list byte) (ps : list Patch.t) :
  decodes E self i infos f ps f' ->
  forall v,
    Image.patches_loop E (Image.set_patches v self) i infos f
    = Ok (Image.set_patches (v ++ ps) self, f').
Proof.
  induction 1 as [i f | i item rest f f1 f' p ps Hd _ IH]; intros v.
  - rewrite patches_loop_nil, app_nil_r. reflexivity.
  - rewrite patches_loop_cons, decode_patch_set_patches, Hd. cbn [bind].
    rewrite set_patches_twice.
    change (Image.patches (Image.set_patches v self)) with v.
    rewrite IH, <- app_assoc. reflexivity.
Qed.

Lemma decodes_length (E : environment) (self : Image.t) (i : Z)
  (infos : list (list byte)) (f f' : list byte) (ps : list Patch.t) :
  decodes E self i infos f ps f' -> List.length ps = List.length infos.
Proof. induction 1; simpl; congruence. Qed.

Lemma decodes_decoded (E : environment) (self : Image.t) (i : Z)
  (infos : list (list byte)) (f f' : list byte) (ps : list Patch.t) :
  decodes E self i infos f ps f' -> Forall (decoded E self) ps.
Proof.
  induction 1 as [| i item rest f f1 f' p ps Hd _ IH]; constructor; [| exact IH].
  exists i, item, f, f1. exact Hd.
Qed.

(** What [_readSW4patches] returns: the image with the decoded patches
    appended. *)
Lemma readSW4patches_inv (E : environment) (self img : Image.t) (f f' : list byte) :
  Image._readSW4patches E self f = Ok (img, f') ->
  exists ps,
    img = Image.set_patches (Image.patches self ++ ps) self /\
    Forall (decoded E self) ps /\
    List.length ps
    = List.length (fst (np_fromfile SW4_patch_dtype_itemsize (Image.number_of_patches self) f)).
Proof.
  unfold Image._readSW4patches. intros H.
  destruct (np_fromfile SW4_patch_dtype_itemsize _ f) as [infos f1].
  apply patches_loop_decodes in H. destruct H as (ps & Hd & ->).
  exists ps. split; [reflexivity |]. split.
  - eapply decodes_decoded; exact Hd.
  - simpl. eapply decodes_length; exact Hd.
Qed.

(** ** Reshaping and transposition *)

Lemma np_reshape_ok (t : float_dtype) (buf : list float) (d0 d1 : Z) (g : ndarray) :
  np_reshape t buf d0 d1 = Ok g ->
  dtype g = t /\ items g = buf /\
  (0 <= d0 -> 0 <= d1 -> shape g = (d0, d1)).
Proof.
  unfold np_reshape. intros H.
  repeat match type of H with
         | (if ?c then _ else _) = _ => destruct c eqn:?; try discriminate
         end;
    injection H as <-; simpl; repeat split; intros; try reflexivity; lia.
Qed.

Lemma np_reshape_size (t : float_dtype) (buf : list float) (d0 d1 : Z) (g : ndarray) :
  np_reshape t buf d0 d1 = Ok g -> 0 <= d0 -> 0 <= d1 ->
  Z.of_nat (List.length buf) = d0 * d1.
Proof.
  unfold np_reshape. intros H H0 H1.
  repeat match type of H with
         | (if ?c then _ else _) = _ => destruct c eqn:?; try discriminate
         end; lia.
Qed.

Lemma np_reshape_fix (t : float_dtype) (buf : list float) (d0 d1 : Z) (g : ndarray) :
  np_reshape t buf d0 d1 = Ok g ->
  np_reshape (dtype g) (items g) d0 d1 = Ok g.
Proof.
  intros H. destruct (np_reshape_ok _ _ _ _ _ H) as (-> & -> & _). exact H.
Qed.


(** ** Transposition *)




(** ** The patches and the buffers read for them *)

Lemma decodes_reads (E : environment) (self : Image.t) (t : float_dtype) (i : Z)
  (infos : list (list byte)) (f f' : list byte) (ps : list Patch.t) :
  Image.precision self = PrecType t ->
  decodes E self i infos f ps f' ->
  Forall2 (fun p r =>
             exists i0 f0 f1,
               Image.decode_patch E self i0 (fst r) f0 = Ok (p, f1) /\
               snd r = patch_samples E t (fst r) f0)
    ps (sample_reads E t infos f).
Proof.
  intros Hp. induction 1 as [| i item rest f f1 f' p ps Hd _ IH]; [constructor |].
  cbn [sample_reads]. constructor.
  - exists i, f, f1. split; [exact Hd | reflexivity].
  - destruct (decode_patch_inv E self t i item f p f1 Hp Hd)
      as (code & g & lo & hi & _ & _ & _ & _ & <- & _).
    exact IH.
Qed.

(** The patches appended by [_readSW4patches], paired with the descriptors
    and the buffers read for them. *)
Lemma readSW4patches_reads (E : environment) (self img : Image.t) (t : float_dtype)
  (f f' : list byte) :
  Image.precision self = PrecType t ->
  Image._readSW4patches E self f = Ok (img, f') ->
  exists ps,
    img = Image.set_patches (Image.patches self ++ ps) self /\
    Forall2 (fun p r =>
               exists i0 f0 f1,
                 Image.decode_patch E self i0 (fst r) f0 = Ok (p, f1) /\
                 snd r = patch_samples E t (fst r) f0)
      ps (reads_of E t self f).
Proof.
  intros Hp H. unfold Image._readSW4patches in H. unfold reads_of.
  destruct (np_fromfile SW4_patch_dtype_itemsize _ f) as [infos f1]. cbn [fst snd].
  apply patches_loop_decodes in H. destruct H as (ps & Hd & ->).
  exists ps. split; [reflexivity |].
  exact (decodes_reads E self t 0 infos f1 f' ps Hp Hd).
Qed.

(** ** C1: the orientation rule *)





(** ** C7: the statistics *)

Lemma decoded_stats (E : environment) (self : Image.t) (t : float_dtype) (code : Z)
  (i : Z) (item f : list byte) (p : Patch.t) (f1 : list byte) :
  Image.precision self = PrecType t ->
  Image._plane self = Some code ->
  Image.decode_patch E self i item f = Ok (p, f1) ->
  holds_grid t (patch_samples E t item f) (code =? 2) p /\
  stats_of E t (patch_samples E t item f) p.
Proof.
  intros Hp Hc H.
  apply (decode_patch_inv E self t i item f p f1 Hp) in H.
  destruct H as (code' & g & lo & hi & Hc' & Hg & Hlo & Hhi & _ & ->).
  rewrite Hc in Hc'. injection Hc' as <-.
  split.
  - exists g. split; [exact Hg |]. cbn [Patch.data].
    destruct (Z.eqb_spec code 0) as [-> | N0]; [reflexivity |].
    destruct (Z.eqb_spec code 1) as [-> | N1]; [reflexivity |].
    destruct (code =? 2); reflexivity.
  - exists lo, hi. cbn [Patch.min Patch.max Patch.std Patch.rms].
    repeat split; assumption.
Qed.

(** C7. [_readSW4patches] appends one patch for each descriptor it reads,
    in order; with [buf] the raw samples read from the file for the
    descriptor, the grid of the patch is the [nj] by [ni] reshaping of
    [buf], transposed for the plane Z (code 2), and min, max, std and rms
    of the patch are those of [buf] itself, with rms the square root of
    the mean of the squares: for the plane Z they are the statistics of
    the grid before its transposition. *)
Theorem statistics_of_raw_buffer (E : environment) (self img : Image.t)
  (f f' : list byte) (t : float_dtype) (code : Z) :
  Image.precision self = PrecType t ->
  Image._plane self = Some code ->
  Image._readSW4patches E self f = Ok (img, f') ->
  exists ps,
    Image.patches img = Image.patches self ++ ps /\
    Forall2 (fun p r =>
               holds_grid t (snd r) (code =? 2) p /\ stats_of E t (snd r) p)
      ps (reads_of E t self f).
Proof.
  intros Hp Hc H.
  destruct (readSW4patches_reads E self img t f f' Hp H) as (ps & -> & Hps).
  exists ps. split; [reflexivity |].
  eapply Forall2_impl; [| exact Hps].
  intros p r (i0 & f0 & f1 & Hd & ->).
  exact (decoded_stats E self t code i0 (fst r) f0 p f1 Hp Hc Hd).
Qed.

Lemma statistics_of_raw_buffer_witness :
  exists ps,
    Image.patches
      (Image.set_patches
         [Patch.mk 0 (PyFloat f64_hundred) (PyFloat f64_zero) 1 3 1 2
            (extent_z f64_hundred 3 2)
            (Some (mk_ndarray float64 (3, 2) (map f64_of_Z [1; 4; 2; 5; 3; 6])))
            (PyFloat (f64_of_Z 1)) (PyFloat (f64_of_Z 6))
            (PyFloat (seq_std float64 (map f64_of_Z [1; 2; 3; 4; 5; 6])))
            (PyFloat (IEEE.sqrt float64
                        (seq_mean float64
                           (np_square float64 (map f64_of_Z [1; 2; 3; 4; 5; 6])))))]
         (image_after_header float64 1 2))
    = Image.patches (image_after_header float64 1 2) ++ ps /\
    Forall2 (fun p r =>
               holds_grid float64 (snd r) (2 =? 2) p /\
               stats_of scenario_env float64 (snd r) p)
      ps (reads_of scenario_env float64 (image_after_header float64 1 2)
            scenario_patch_bytes).
Proof.
  eapply (statistics_of_raw_buffer scenario_env
            (image_after_header float64 1 2) _ scenario_patch_bytes [] float64 2).
  - reflexivity.
  - reflexivity.
  - vm_compute. reflexivity.
Defined.

(** ** The top-level read of a native file *)

Lemma dict_get_int_keyed {V : Type} (d : list (pykey * V)) (s : string) :
  int_keyed d -> dict_get d (KStr s) = Raise KeyError.
Proof.
  induction 1 as [| [k v] d [c Hk] _ IH]; simpl; [reflexivity |].
  simpl in Hk. subst k. simpl. exact IH.
Qed.

Lemma readSW4hdr_plane (D : dic_and_dtype) (E : environment) (self hdr : Image.t)
  (f rest : list byte) :
  Image._readSW4hdr D E self f = Ok (hdr, rest) ->
  Image.plane hdr = Image.plane self /\
  exists c, Image.precision hdr = PrecInt c.
Proof.
  unfold Image._readSW4hdr.
  destruct (np_fromfile (SW4_header_dtype_itemsize D) 1 f) as [[| header recs] f1];
    [discriminate |].
  intros [= <- <-]. simpl. eauto.
Qed.

Lemma readSW4hdr_any_self (D : dic_and_dtype) (E : environment) (self hdr : Image.t)
  (f rest : list byte) :
  Image._readSW4hdr D E self f = Ok (hdr, rest) ->
  forall self', exists hdr',
    Image._readSW4hdr D E self' f = Ok (hdr', rest) /\
    Image._plane hdr' = Image._plane hdr /\
    Image.number_of_patches hdr' = Image.number_of_patches hdr.
Proof.
  unfold Image._readSW4hdr.
  destruct (np_fromfile (SW4_header_dtype_itemsize D) 1 f) as [[| header recs] f1];
    [discriminate |].
  intros [= <- <-] self'. eexists. split; [reflexivity |]. split; reflexivity.
Qed.

Lemma dict_get_raises {V : Type} (d : list (pykey * V)) (k : pykey) (e : exn) :
  dict_get d k = Raise e -> e = KeyError.
Proof.
  induction d as [| [k' v] d IH]; simpl.
  - congruence.
  - destruct (pykey_eqb k' k); [discriminate | exact IH].
Qed.

(** C5. A native file whose header holds a plane code with no entry in
    the plane table: once the header is read, [read] raises KeyError (the
    exception of a failed table lookup) and returns no image.  The table
    is indexed by the integer codes of the header. *)
Theorem unknown_plane_code_raises (D : dic_and_dtype) (E : environment)
  (path : string) (name : string) (cycle : Z) (plane coordinate mode : string)
  (f rest : list byte) (hdr : Image.t) (code : Z) :
  int_keyed (SW4_plane_dict D) ->
  parse_filename path = Ok (name, cycle, plane, coordinate, mode, true) ->
  files E path = Some f ->
  Image._readSW4hdr D E Image.__init__ f = Ok (hdr, rest) ->
  Image._plane hdr = Some code ->
  dict_get (SW4_plane_dict D) (KInt code) = Raise KeyError ->
  read D E (FPath path) = Raise KeyError.
Proof.
  intros HD Hp Hf Hh _ _. unfold read. rewrite Hp. cbn [bind].
  unfold open. rewrite Hf. cbn [bind].
  destruct (readSW4hdr_any_self _ _ _ _ _ _ Hh
              (Image.set_cycle cycle (Image.set_filename (FPath path) Image.__init__)))
    as (hdr' & Hh' & _).
  rewrite Hh'. cbn [bind].
  apply readSW4hdr_plane in Hh'. destruct Hh' as (Hpl & c & Hc).
  rewrite Hc. cbn [precision_key bind].
  destruct (dict_get (prec_dict D) (KInt c)) as [t | e] eqn:Hd; cbn [bind].
  - change (Image.plane (Image.set_precision (PrecType t) hdr')) with (Image.plane hdr').
    rewrite (dict_get_int_keyed _ _ HD). reflexivity.
  - apply dict_get_raises in Hd. congruence.
Qed.

Lemma sw4_tables_int_keyed : int_keyed (SW4_plane_dict sw4_tables).
Proof. repeat constructor; simpl; eauto. Qed.

Lemma unknown_plane_code_raises_witness :
  read sw4_tables (env_with scenario_path (scenario_file 9)) (FPath scenario_path)
  = Raise KeyError.
Proof.
  eapply (unknown_plane_code_raises sw4_tables (env_with scenario_path (scenario_file 9))
            scenario_path _ _ _ _ _ (scenario_file 9) _ _ 9).
  - exact sw4_tables_int_keyed.
  - vm_compute. reflexivity.
  - vm_compute. reflexivity.
  - vm_compute. reflexivity.
  - reflexivity.
  - reflexivity.
Defined.

(** C4, as the code has it.  [read] resolves no plane from the header's
    code: its lookup is made with the default of the attribute [plane],
    so for a table indexed by codes the read of every native file raises
    and no image with a resolved plane is returned. *)
Theorem native_read_resolves_no_plane (D : dic_and_dtype) (E : environment)
  (path : string) (name : string) (cycle : Z) (plane coordinate mode : string) :
  int_keyed (SW4_plane_dict D) ->
  parse_filename path = Ok (name, cycle, plane, coordinate, mode, true) ->
  exists e, read D E (FPath path) = Raise e.
Proof.
  intros HD Hp. unfold read. rewrite Hp. cbn [bind].
  destruct (open E path) as [f | e]; cbn [bind]; [| eauto].
  destruct (Image._readSW4hdr D E _ f) as [[hdr rest] | e] eqn:Hh; cbn [bind]; [| eauto].
  apply readSW4hdr_plane in Hh. destruct Hh as (Hpl & c & Hc).
  rewrite Hc. cbn [precision_key bind].
  destruct (dict_get (prec_dict D) (KInt c)) as [t | e]; cbn [bind]; [| eauto].
  change (Image.plane (Image.set_precision (PrecType t) hdr)) with (Image.plane hdr).
  rewrite (dict_get_int_keyed _ _ HD). cbn [bind]. eauto.
Qed.

Lemma native_read_resolves_no_plane_witness :
  exists e, read sw4_tables (env_with scenario_path (scenario_file 2)) (FPath scenario_path)
            = Raise e.
Proof.
  eapply (native_read_resolves_no_plane sw4_tables
            (env_with scenario_path (scenario_file 2)) scenario_path).
  - exact sw4_tables_int_keyed.
  - vm_compute. reflexivity.
Defined.

(** C2, as the code has it.  On the file of the end-to-end scenario [read]
    raises KeyError at the plane lookup and returns no image.  Run on the
    header that [_readSW4hdr] decodes from that file, with the precision
    resolved to float64, [_readSW4patches] does build the patch of the
    scenario: data [[1,2,3],[4,5,6]] of shape (2,3), extent
    (-50, 250, -50, 150), min 1, max 6, rms sqrt(91/6). *)
Theorem end_to_end_scenario :
  read sw4_tables scenario_env (FPath scenario_path) = Raise KeyError /\
  exists hdr rest img p (g : ndarray),
    Image._readSW4hdr sw4_tables scenario_env Image.__init__ (scenario_file 0)
    = Ok (hdr, rest) /\
    Image._readSW4patches scenario_env (Image.set_precision (PrecType float64) hdr) rest
    = Ok (img, []) /\
    Image.patches img = [p] /\
    Patch.data p = Some g /\
    shape g = (2, 3) /\
    to_rows g = [[f64_of_Z 1; f64_of_Z 2; f64_of_Z 3]; [f64_of_Z 4; f64_of_Z 5; f64_of_Z 6]] /\
    Patch.extent p = (PyFloat (f64_of_Z (-50)), PyFloat (f64_of_Z 250),
                      PyFloat (f64_of_Z (-50)), PyFloat (f64_of_Z 150)) /\
    Patch.min p = PyFloat (f64_of_Z 1) /\
    Patch.max p = PyFloat (f64_of_Z 6) /\
    Patch.rms p = PyFloat (IEEE.sqrt float64 (f64_div (f64_of_Z 91) (f64_of_Z 6))).
Proof.
  split; [vm_compute; reflexivity |].
  do 5 eexists.
  split; [vm_compute; reflexivity |].
  split; [vm_compute; reflexivity |].
  split; [reflexivity |].
  split; [reflexivity |].
  repeat split; vm_compute; reflexivity.
Qed.

(** ** Reading items from the file *)

Lemma chunks_length (size n : nat) (bs : list byte) :
  List.length (chunks size n bs) = n.
Proof.
  revert bs. induction n as [| n IH]; intros bs; simpl; [reflexivity |].
  rewrite IH. reflexivity.
Qed.

Lemma np_fromfile_count (size : nat) (count : Z) (f : list byte) :
  0 <= count ->
  Z.of_nat (List.length (fst (np_fromfile size count f)))
  = Z.min count (Z.of_nat (List.length f) / Z.of_nat size).
Proof.
  intros Hc. unfold np_fromfile. cbn [fst].
  rewrite chunks_length.
  destruct (Z.ltb_spec count 0) as [Hneg | _]; [lia |].
  assert (0 <= Z.of_nat (List.length f) / Z.of_nat size) by (apply Z_div_nonneg_nonneg; lia).
  lia.
Qed.

Lemma np_fromfile_rest (size : nat) (count : Z) (f : list byte) :
  0 <= count ->
  snd (np_fromfile size count f)
  = skipn (Z.to_nat (Z.min (count * Z.of_nat size) (Z.of_nat (List.length f)))) f.
Proof.
  intros Hc. unfold np_fromfile. cbn [snd].
  destruct (Z.ltb_spec count 0) as [Hneg | _]; [lia | reflexivity].
Qed.

Lemma np_fromfile_eof (size : nat) (count : Z) :
  np_fromfile size count [] = ([], []).
Proof.
  unfold np_fromfile. simpl List.length. rewrite Zdiv_0_l.
  destruct (count <? 0); simpl.
  - reflexivity.
  - destruct (Z.min_spec count 0) as [[H ->] | [H ->]].
    + destruct count; simpl; try reflexivity; try lia.
      destruct (Z.to_nat _); reflexivity.
    + simpl. destruct (Z.to_nat _); reflexivity.
Qed.

(** ** Failures of the loop body *)

Lemma np_reshape_raises (t : float_dtype) (buf : list float) (d0 d1 : Z) (e : exn) :
  np_reshape t buf d0 d1 = Raise e -> e = ValueError.
Proof.
  unfold np_reshape. intros H. cbv zeta in H.
  repeat match type of H with
         | (if ?c then _ else _) = _ => destruct c; cbv iota in H
         end; congruence.
Qed.

Lemma np_min_raises (l : list float) (e : exn) : np_min l = Raise e -> e = ValueError.
Proof. unfold np_min; destruct l; congruence. Qed.

Lemma np_max_raises (l : list float) (e : exn) : np_max l = Raise e -> e = ValueError.
Proof. unfold np_max; destruct l; congruence. Qed.

Lemma np_min_max_ok (l : list float) (lo : float) :
  np_min l = Ok lo -> exists hi, np_max l = Ok hi.
Proof. unfold np_min, np_max; destruct l; [discriminate | eauto]. Qed.

(** The loop body in terms of its parts, for an image whose precision is a
    numpy type and whose header has been read. *)
Lemma decode_patch_eq (E : environment) (self : Image.t) (t : float_dtype) (code : Z)
  (i : Z) (item f : list byte) :
  Image.precision self = PrecType t ->
  Image._plane self = Some code ->
  Image.decode_patch E self i item f
  = (g <- np_reshape t (patch_samples E t item f) (desc_nj E item) (desc_ni E item) ;;
     lo <- np_min (patch_samples E t item f) ;;
     hi <- np_max (patch_samples E t item f) ;;
     Ok (Patch.mk i (PyFloat (desc_h E item)) (PyFloat (desc_zmin E item))
           (int32_of_bytes (byteorder E) (field 16 4 item)) (desc_ni E item)
           (int32_of_bytes (byteorder E) (field 24 4 item)) (desc_nj E item)
           (if (code =? 0) || (code =? 1)
            then extent_xy (desc_h E item) (desc_zmin E item) (desc_ni E item) (desc_nj E item)
            else if code =? 2 then extent_z (desc_h E item) (desc_ni E item) (desc_nj E item)
            else Patch.extent Patch.__init__)
           (Some (if (code =? 0) || (code =? 1) then g
                  else if code =? 2 then np_transpose g else g))
           (PyFloat lo) (PyFloat hi)
           (PyFloat (np_std E t (patch_samples E t item f)))
           (PyFloat (IEEE.sqrt t (np_mean E t (np_square t (patch_samples E t item f))))),
         snd (np_fromfile (IEEE.itemsize t) (wrap32 (desc_ni E item * desc_nj E item)) f))).
Proof.
  intros Hp Hc. rewrite (decode_patch_float E self t i item f Hp), Hc.
  destruct (np_reshape t _ _ _) as [g | e]; reflexivity.
Qed.

Lemma decode_patch_raises (E : environment) (self : Image.t) (t : float_dtype) (code : Z)
  (i : Z) (item f : list byte) (e : exn) :
  Image.precision self = PrecType t ->
  Image._plane self = Some code ->
  Image.decode_patch E self i item f = Raise e -> e = ValueError.
Proof.
  intros Hp Hc. rewrite (decode_patch_eq E self t code i item f Hp Hc).
  intros H.
  apply bind_raise in H. destruct H as [H | (g & _ & H)];
    [exact (np_reshape_raises _ _ _ _ _ H) |].
  apply bind_raise in H. destruct H as [H | (lo & _ & H)];
    [exact (np_min_raises _ _ H) |].
  apply bind_raise in H. destruct H as [H | (hi & _ & H)];
    [exact (np_max_raises _ _ H) | discriminate].
Qed.

(** At the end of the file the samples of a patch are an empty buffer, and
    the body raises: the reshaping fails or, for a patch of no samples,
    the minimum of the empty buffer does. *)
Lemma decode_patch_eof (E : environment) (self : Image.t) (i : Z) (item : list byte) :
  exists e, Image.decode_patch E self i item [] = Raise e.
Proof.
  unfold Image.decode_patch, Image.read_patch.
  destruct (Image.precision self) as [n | c | t]; [eauto | |].
  - rewrite np_fromfile_eof. cbn [map].
    destruct (np_reshape_int32 [] _ _) as [g | e]; cbn [bind]; [| eauto].
    destruct (Image._plane self) as [code |]; cbn [bind]; [| eauto].
    destruct ((code =? 0) || (code =? 1)); [| destruct (code =? 2)];
      unfold np_min_int32; cbn [bind]; eauto.
  - rewrite np_fromfile_eof. cbn [map].
    destruct (np_reshape t [] _ _) as [g | e]; cbn [bind]; [| eauto].
    destruct (Image._plane self) as [code |]; cbn [bind]; [| eauto].
    destruct ((code =? 0) || (code =? 1)); [| destruct (code =? 2)];
      unfold np_min; cbn [bind]; eauto.
Qed.

(** ** C3, C10: the number of patches *)

Lemma readSW4patches_count (E : environment) (self img : Image.t) (f f' : list byte) :
  0 <= Image.number_of_patches self ->
  Image._readSW4patches E self f = Ok (img, f') ->
  Image.number_of_patches img = Image.number_of_patches self /\
  Z.of_nat (List.length (Image.patches img))
  = Z.of_nat (List.length (Image.patches self))
    + Z.min (Image.number_of_patches self) (Z.of_nat (List.length f) / 32).
Proof.
  intros HN H. apply readSW4patches_inv in H. destruct H as (ps & -> & _ & Hlen).
  split; [reflexivity |]. simpl.
  rewrite length_app, Nat2Z.inj_add, Hlen, (np_fromfile_count _ _ _ HN). reflexivity.
Qed.

(** C3, amended.  When [_readSW4patches] succeeds on an image with no
    patch yet and the file holds at least [number_of_patches] complete
    descriptor records (of 32 bytes), the number of patches of the image
    is the header's [number_of_patches]. *)
Theorem patch_count_matches_header (E : environment) (self img : Image.t)
  (f f' : list byte) :
  Image.patches self = [] ->
  0 <= Image.number_of_patches self ->
  32 * Image.number_of_patches self <= Z.of_nat (List.length f) ->
  Image._readSW4patches E self f = Ok (img, f') ->
  Z.of_nat (List.length (Image.patches img)) = Image.number_of_patches img.
Proof.
  intros Hnil HN Hlen H.
  destruct (readSW4patches_count E self img f f' HN H) as [-> ->].
  rewrite Hnil. simpl.
  assert (Image.number_of_patches self <= Z.of_nat (List.length f) / 32)
    by (apply Z.div_le_lower_bound; lia).
  lia.
Qed.

Lemma patch_count_matches_header_witness :
  exists img f',
    Image._readSW4patches scenario_env (image_after_header float64 1 0) scenario_patch_bytes
    = Ok (img, f') /\
    Z.of_nat (List.length (Image.patches img)) = Image.number_of_patches img.
Proof.
  eexists. eexists. split.
  - vm_compute. reflexivity.
  - eapply (patch_count_matches_header scenario_env (image_after_header float64 1 0)
              _ scenario_patch_bytes _).
    + reflexivity.
    + vm_compute. discriminate.
    + vm_compute. discriminate.
    + vm_compute. reflexivity.
Defined.

(** C3 fails as stated: a file that ends with its header, which declares
    one patch, is decoded without error into an image with no patch. *)
Lemma patch_count_counterexample :
  exists hdr img,
    Image._readSW4hdr sw4_tables scenario_env Image.__init__
      (sw4_header 8 1 0x3FF8000000000000 0 0 1 0) = Ok (hdr, []) /\
    Image._readSW4patches scenario_env (Image.set_precision (PrecType float64) hdr) []
    = Ok (img, []) /\
    Image.number_of_patches img = 1 /\
    Image.patches img = [] /\
    Z.of_nat (List.length (Image.patches img)) <> Image.number_of_patches img.
Proof.
  do 2 eexists.
  split; [vm_compute; reflexivity |].
  split; [vm_compute; reflexivity |].
  repeat split. simpl. discriminate.
Qed.

Lemma readSW4patches_unfold (E : environment) (self : Image.t) (f : list byte) :
  Image._readSW4patches E self f
  = Image.patches_loop E self 0
      (fst (np_fromfile SW4_patch_dtype_itemsize (Image.number_of_patches self) f))
      (snd (np_fromfile SW4_patch_dtype_itemsize (Image.number_of_patches self) f)).
Proof.
  unfold Image._readSW4patches.
  destruct (np_fromfile SW4_patch_dtype_itemsize _ f); reflexivity.
Qed.

(** C10, amended.  When the file ends before all [number_of_patches]
    descriptor records: if not even one record is complete the loop ends
    without error and appends no patch; if at least one is, the loop
    raises on the first patch, whose samples would lie beyond the end of
    the file, and nothing is returned. *)
Theorem truncated_descriptor_region (E : environment) (self : Image.t) (f : list byte) :
  0 < Image.number_of_patches self ->
  Z.of_nat (List.length f) < 32 * Image.number_of_patches self ->
  (Z.of_nat (List.length f) < 32 -> Image._readSW4patches E self f = Ok (self, [])) /\
  (32 <= Z.of_nat (List.length f) -> exists e, Image._readSW4patches E self f = Raise e).
Proof.
  intros HN Hshort.
  assert (H0 : 0 <= Image.number_of_patches self) by lia.
  pose proof (np_fromfile_count SW4_patch_dtype_itemsize _ f H0) as Hcnt.
  pose proof (np_fromfile_rest SW4_patch_dtype_itemsize _ f H0) as Hrest.
  change (Z.of_nat SW4_patch_dtype_itemsize) with 32 in Hcnt, Hrest.
  rewrite Z.min_r, Nat2Z.id, skipn_all in Hrest by lia.
  rewrite readSW4patches_unfold, Hrest.
  destruct (fst (np_fromfile SW4_patch_dtype_itemsize (Image.number_of_patches self) f))
    as [| item rest].
  - split; [reflexivity |]. intros Hlen. exfalso.
    assert (1 <= Z.of_nat (List.length f) / 32) by (apply Z.div_le_lower_bound; lia).
    simpl in Hcnt. lia.
  - split.
    + intros Hlen. exfalso.
      rewrite (Z.div_small (Z.of_nat (List.length f)) 32) in Hcnt by lia.
      simpl in Hcnt. lia.
    + intros _. destruct (decode_patch_eof E self 0 item) as [e He].
      exists e. rewrite patches_loop_cons, He. reflexivity.
Qed.

Lemma truncated_descriptor_region_witness :
  (Z.of_nat (List.length (firstn 20 scenario_patch_bytes)) < 32 ->
   Image._readSW4patches scenario_env (image_after_header float64 2 0)
     (firstn 20 scenario_patch_bytes)
   = Ok (image_after_header float64 2 0, [])) /\
  (32 <= Z.of_nat (List.length (firstn 20 scenario_patch_bytes)) ->
   exists e, Image._readSW4patches scenario_env (image_after_header float64 2 0)
               (firstn 20 scenario_patch_bytes) = Raise e).
Proof.
  apply (truncated_descriptor_region scenario_env (image_after_header float64 2 0)
           (firstn 20 scenario_patch_bytes)).
  - reflexivity.
  - reflexivity.
Defined.

(** C10 fails as stated: with two patches declared and one complete
    descriptor (ni = 3, nj = 2) before the end of the file, the loop does
    not append one patch: it raises ValueError. *)
Lemma truncated_descriptor_counterexample :
  List.length (sw4_descriptor 0x4059000000000000 0 1 3 1 2) = 32%nat /\
  Image._readSW4patches scenario_env (image_after_header float64 2 0)
    (sw4_descriptor 0x4059000000000000 0 1 3 1 2)
  = Raise ValueError.
Proof. split; vm_compute; reflexivity. Qed.

(** ** The loop on a file that ends too soon *)

Lemma wrap32_small (z : Z) : - 2 ^ 31 <= z < 2 ^ 31 -> wrap32 z = z.
Proof.
  intros H. unfold wrap32. rewrite Z.mod_small; lia.
Qed.

Lemma patch_samples_length (E : environment) (t : float_dtype) (item f : list byte) :
  sane_dims E item ->
  Z.of_nat (List.length (patch_samples E t item f))
  = Z.min (desc_ni E item * desc_nj E item)
          (Z.of_nat (List.length f) / Z.of_nat (IEEE.itemsize t)).
Proof.
  intros (Hi & Hj & Hmax). unfold patch_samples.
  rewrite length_map, wrap32_small by nia.
  apply np_fromfile_count. nia.
Qed.

Lemma patches_loop_short (E : environment) (t : float_dtype) (code : Z)
  (infos : list (list byte)) :
  forall (self : Image.t) (i : Z) (rest : list byte),
    Image.precision self = PrecType t ->
    Image._plane self = Some code ->
    Forall (sane_dims E) infos ->
    Z.of_nat (List.length rest) < Z.of_nat (IEEE.itemsize t) * samples_needed E infos ->
    Image.patches_loop E self i infos rest = Raise ValueError.
Proof.
  induction infos as [| item infos IH]; intros self i rest Hp Hc Hsane Hshort.
  - simpl in Hshort. lia.
  - inversion Hsane as [| ? ? Hitem Hrest]; subst.
    rewrite patches_loop_cons.
    destruct (Image.decode_patch E self i item rest) as [[p f1] | e] eqn:Hd.
    + cbn [bind].
      apply (decode_patch_inv E self t i item rest p f1 Hp) in Hd.
      destruct Hd as (code' & g & lo & hi & _ & Hg & _ & _ & -> & _).
      destruct Hitem as (Hi & Hj & Hmax).
      pose proof (np_reshape_size _ _ _ _ _ Hg Hj Hi) as Hsize.
      rewrite (patch_samples_length E t item rest (conj Hi (conj Hj Hmax))) in Hsize.
      assert (Hw : 0 < Z.of_nat (IEEE.itemsize t)) by (destruct t; simpl; lia).
      assert (Hfit : Z.of_nat (IEEE.itemsize t) * (desc_ni E item * desc_nj E item)
                     <= Z.of_nat (List.length rest)).
      { assert (Hle : desc_ni E item * desc_nj E item
                      <= Z.of_nat (List.length rest) / Z.of_nat (IEEE.itemsize t)) by lia.
        pose proof (Z.mul_div_le (Z.of_nat (List.length rest)) _ Hw). nia. }
      apply IH; try assumption.
      rewrite wrap32_small, np_fromfile_rest by nia.
      rewrite length_skipn. simpl in Hshort. lia.
    + cbn [bind]. rewrite (decode_patch_raises E self t code i item rest e Hp Hc Hd).
      reflexivity.
Qed.

(** ** The image an exception leaves *)

Lemma read_patch_ok (E : environment) (self : Image.t) (i : Z) (item f f1 : list byte)
  (p : Patch.t) :
  Image.read_patch E self i item f = (f1, Ok p) ->
  Image.decode_patch E self i item f = Ok (p, f1).
Proof. intros H. unfold Image.decode_patch. rewrite H. reflexivity. Qed.

Lemma read_patch_raise (E : environment) (self : Image.t) (i : Z) (item f f1 : list byte)
  (e : exn) :
  Image.read_patch E self i item f = (f1, Raise e) ->
  Image.decode_patch E self i item f = Raise e.
Proof. intros H. unfold Image.decode_patch. rewrite H. reflexivity. Qed.

(** The loop and the state it leaves: the same image and file when it
    returns, the same exception when it raises. *)
Lemma run_patches_loop (E : environment) (self : Image.t) (i : Z)
  (infos : list (list byte)) (f : list byte) :
  match Image.patches_loop E self i infos f with
  | Ok (img, f') => Image.run_patches E self i infos f = (img, f', None)
  | Raise e => exists img pos, Image.run_patches E self i infos f = (img, pos, Some e)
  end.
Proof.
  unfold Image.patches_loop.
  destruct (Image.run_patches E self i infos f) as [[img pos] [e |]]; eauto.
Qed.

(** What the loop leaves in the image, however it ends: the patches the
    image had, then one patch for each of the first descriptors, those
    that were decoded before the loop ended; fewer than the descriptors
    when an exception ended it. *)
Lemma run_patches_partial (E : environment) (t : float_dtype) (code : Z)
  (infos : list (list byte)) :
  forall (self : Image.t) (i : Z) (f : list byte) (img : Image.t) (pos : list byte)
         (out : option exn),
    Image.precision self = PrecType t ->
    Image._plane self = Some code ->
    Image.run_patches E self i infos f = (img, pos, out) ->
    exists ps,
      img = Image.set_patches (Image.patches self ++ ps) self /\
      Forall2 (fun p r => from_descriptor E (fst r) p /\ stats_of E t (snd r) p)
        ps (firstn (List.length ps) (sample_reads E t infos f)) /\
      (out <> None -> (List.length ps < List.length infos)%nat).
Proof.
  induction infos as [| item infos IH]; intros self i f img pos out Hp Hc H.
  - cbn [Image.run_patches] in H. injection H as <- <- <-.
    exists []. rewrite app_nil_r. split; [destruct self; reflexivity |].
    split; [constructor | intros Hn; congruence].
  - cbn [Image.run_patches] in H.
    destruct (Image.read_patch E self i item f) as [f1 [p | e]] eqn:Hr.
    + apply read_patch_ok in Hr.
      apply IH in H; [| exact Hp | exact Hc].
      destruct H as (ps & -> & Hps & Hlen).
      exists (p :: ps). split; [| split].
      * rewrite set_patches_twice.
        change (Image.patches (Image.set_patches (Image.patches self ++ [p]) self))
          with (Image.patches self ++ [p]).
        rewrite <- app_assoc. reflexivity.
      * cbn [List.length firstn sample_reads]. constructor.
        -- cbn [fst snd]. split.
           ++ apply (decode_patch_descriptor E self i item f p f1 Hr).
           ++ apply (decoded_stats E self t code i item f p f1 Hp Hc Hr).
        -- destruct (decode_patch_inv E self t i item f p f1 Hp Hr)
             as (c' & g & lo & hi & _ & _ & _ & _ & <- & _).
           exact Hps.
      * intros Hn. cbn [List.length]. specialize (Hlen Hn). lia.
    + injection H as <- <- <-.
      exists []. rewrite app_nil_r. split; [destruct self; reflexivity |].
      split; [constructor | intros _; cbn [List.length]; lia].
Qed.

(** ** C6: a short sample buffer *)

Lemma sample_reads_length (E : environment) (t : float_dtype)
  (infos : list (list byte)) (f : list byte) :
  List.length (sample_reads E t infos f) = List.length infos.
Proof.
  revert f. induction infos as [| item infos IH]; intros f;
    cbn [sample_reads List.length]; [reflexivity | rewrite IH; reflexivity].
Qed.

Lemma readSW4hdr_sets_plane (D : dic_and_dtype) (E : environment) (self hdr : Image.t)
  (f rest : list byte) :
  Image._readSW4hdr D E self f = Ok (hdr, rest) ->
  exists code, Image._plane hdr = Some code.
Proof.
  unfold Image._readSW4hdr.
  destruct (np_fromfile (SW4_header_dtype_itemsize D) 1 f) as [[| header recs] f1];
    [discriminate |].
  intros [= <- <-]. cbn [Image._plane]. eauto.
Qed.

(** [read] of a native file whose header can be read ends at the lookup of
    the plane, for a table indexed by codes. *)
Lemma read_ends_at_plane_lookup (D : dic_and_dtype) (E : environment)
  (path : string) (name : string) (cycle : Z) (plane coordinate mode : string)
  (f rest : list byte) (hdr : Image.t) :
  int_keyed (SW4_plane_dict D) ->
  parse_filename path = Ok (name, cycle, plane, coordinate, mode, true) ->
  files E path = Some f ->
  Image._readSW4hdr D E Image.__init__ f = Ok (hdr, rest) ->
  read D E (FPath path) = Raise KeyError.
Proof.
  intros HD Hp Hf Hh. unfold read. rewrite Hp. cbn [bind].
  unfold open. rewrite Hf. cbn [bind].
  destruct (readSW4hdr_any_self _ _ _ _ _ _ Hh
              (Image.set_cycle cycle (Image.set_filename (FPath path) Image.__init__)))
    as (hdr' & Hh' & _).
  rewrite Hh'. cbn [bind].
  apply readSW4hdr_plane in Hh'. destruct Hh' as (Hpl & c & Hc).
  rewrite Hc. cbn [precision_key bind].
  destruct (dict_get (prec_dict D) (KInt c)) as [t | e] eqn:Hd; cbn [bind].
  - change (Image.plane (Image.set_precision (PrecType t) hdr')) with (Image.plane hdr').
    rewrite (dict_get_int_keyed _ _ HD). reflexivity.
  - apply dict_get_raises in Hd. congruence.
Qed.

(** C6, as the code has it.  A native file with a complete header and all
    its patch descriptors (with dimensions that are dimensions), but fewer
    bytes after them than the samples they announce.  [read] does fail and
    returns no image, but with KeyError, at the lookup of the plane,
    before any sample is read: the short buffer is never detected.  Run
    on the decoded header, with the precision resolved, [_readSW4patches]
    raises ValueError, the exception of the reshaping of a buffer that is
    too short; by then the patches decoded before the short one have been
    appended to the image, which the exception leaves with them. *)
Theorem short_sample_buffer_raises (D : dic_and_dtype) (E : environment)
  (path : string) (name : string) (cycle : Z) (plane coordinate mode : string)
  (f rest : list byte) (hdr : Image.t) (t : float_dtype) :
  int_keyed (SW4_plane_dict D) ->
  parse_filename path = Ok (name, cycle, plane, coordinate, mode, true) ->
  files E path = Some f ->
  Image._readSW4hdr D E Image.__init__ f = Ok (hdr, rest) ->
  0 <= Image.number_of_patches hdr ->
  32 * Image.number_of_patches hdr <= Z.of_nat (List.length rest) ->
  Forall (sane_dims E)
    (fst (np_fromfile SW4_patch_dtype_itemsize (Image.number_of_patches hdr) rest)) ->
  Z.of_nat (List.length rest) - 32 * Image.number_of_patches hdr
  < Z.of_nat (IEEE.itemsize t)
    * samples_needed E
        (fst (np_fromfile SW4_patch_dtype_itemsize (Image.number_of_patches hdr) rest)) ->
  read D E (FPath path) = Raise KeyError /\
  Image._readSW4patches E (Image.set_precision (PrecType t) hdr) rest = Raise ValueError /\
  exists img pos ps,
    Image._readSW4patches_state E (Image.set_precision (PrecType t) hdr) rest
    = (img, pos, Some ValueError) /\
    img = Image.set_patches (Image.patches hdr ++ ps)
            (Image.set_precision (PrecType t) hdr) /\
    (List.length ps
     < List.length (reads_of E t (Image.set_precision (PrecType t) hdr) rest))%nat /\
    Forall2 (fun p r => from_descriptor E (fst r) p /\ stats_of E t (snd r) p)
      ps (firstn (List.length ps)
            (reads_of E t (Image.set_precision (PrecType t) hdr) rest)).
Proof.
  intros HD Hparse Hf Hh HN Hlen Hsane Hshort.
  split; [exact (read_ends_at_plane_lookup D E path name cycle plane coordinate mode
                   f rest hdr HD Hparse Hf Hh) |].
  destruct (readSW4hdr_sets_plane D E _ hdr f rest Hh) as [code Hc].
  set (self := Image.set_precision (PrecType t) hdr).
  assert (Hp : Image.precision self = PrecType t) by reflexivity.
  assert (Hc' : Image._plane self = Some code) by exact Hc.
  assert (Hraise : Image._readSW4patches E self rest = Raise ValueError).
  { rewrite readSW4patches_unfold.
    change (Image.number_of_patches self) with (Image.number_of_patches hdr).
    apply (patches_loop_short E t code); try assumption.
    rewrite np_fromfile_rest by assumption.
    change (Z.of_nat SW4_patch_dtype_itemsize) with 32.
    rewrite length_skipn. lia. }
  split; [exact Hraise |].
  rewrite readSW4patches_unfold in Hraise.
  pose proof (run_patches_loop E self 0
                (fst (np_fromfile SW4_patch_dtype_itemsize (Image.number_of_patches self) rest))
                (snd (np_fromfile SW4_patch_dtype_itemsize (Image.number_of_patches self) rest)))
    as Hrun.
  rewrite Hraise in Hrun. destruct Hrun as (img & pos & Hrun).
  destruct (run_patches_partial E t code _ self 0 _ img pos (Some ValueError) Hp Hc' Hrun)
    as (ps & Himg & Hps & Hlt).
  exists img, pos, ps.
  split.
  { unfold Image._readSW4patches_state.
    destruct (np_fromfile SW4_patch_dtype_itemsize (Image.number_of_patches self) rest)
      as [infos f1]. exact Hrun. }
  split; [exact Himg |].
  unfold reads_of at 1. rewrite sample_reads_length.
  split; [apply Hlt; discriminate | exact Hps].
Qed.

(** The file of two patches that ends one sample short: [read] raises
    KeyError; [_readSW4patches] on the decoded header raises ValueError at
    the second patch and leaves the image with the first. *)
Lemma short_sample_buffer_raises_witness :
  read sw4_tables (env_with scenario_path truncated_file) (FPath scenario_path)
  = Raise KeyError /\
  exists hdr,
    Image._readSW4hdr sw4_tables (env_with scenario_path truncated_file) Image.__init__
      truncated_file
    = Ok (hdr, truncated_patches_bytes) /\
    Image._readSW4patches_state (env_with scenario_path truncated_file)
      (Image.set_precision (PrecType float64) hdr) truncated_patches_bytes
    = (Image.set_patches
         [Patch.mk 0 (PyFloat f64_hundred) (PyFloat f64_zero) 1 3 1 2
            (extent_xy f64_hundred f64_zero 3 2)
            (Some (mk_ndarray float64 (2, 3) (map f64_of_Z [1; 2; 3; 4; 5; 6])))
            (PyFloat (f64_of_Z 1)) (PyFloat (f64_of_Z 6))
            (PyFloat (seq_std float64 (map f64_of_Z [1; 2; 3; 4; 5; 6])))
            (PyFloat (IEEE.sqrt float64
                        (seq_mean float64
                           (np_square float64 (map f64_of_Z [1; 2; 3; 4; 5; 6])))))]
         (Image.set_precision (PrecType float64) hdr),
       [], Some ValueError).
Proof.
  split.
  - refine (proj1 (short_sample_buffer_raises sw4_tables
                     (env_with scenario_path truncated_file) scenario_path
                     _ _ _ _ _ truncated_file truncated_patches_bytes _ float64
                     sw4_tables_int_keyed _ _ _ _ _ _ _)).
    + vm_compute. reflexivity.
    + vm_compute. reflexivity.
    + vm_compute. reflexivity.
    + vm_compute. discriminate.
    + vm_compute. discriminate.
    + match goal with
      | |- Forall _ ?l => let l' := eval vm_compute in l in change l with l'
      end.
      repeat constructor; vm_compute; discriminate.
    + vm_compute. reflexivity.
  - eexists. split.
    + vm_compute. reflexivity.
    + vm_compute. reflexivity.
Defined.

(** ** IEEE 754: signs of rounded results *)

Section Signs.

Variables prec emax : Z.
















End Signs.

(** ** C8: the extent *)








(** ** IEEE 754 binary64: rounding of results that need no subnormal *)

Lemma dig_bounds (m : positive) : 2 ^ (dig m - 1) <= Zpos m < 2 ^ dig m.
Proof.
  unfold dig. induction m as [m IH | m IH |]; simpl digits2_pos.
  - rewrite Pos2Z.inj_succ, (Pos2Z.inj_xI m).
    replace (Z.succ (Zpos (digits2_pos m)) - 1) with (Z.succ (Zpos (digits2_pos m) - 1)) by lia.
    rewrite !Z.pow_succ_r by lia.
    generalize dependent (2 ^ (Zpos (digits2_pos m) - 1)).
    generalize (2 ^ Zpos (digits2_pos m)). intros; lia.
  - rewrite Pos2Z.inj_succ, (Pos2Z.inj_xO m).
    replace (Z.succ (Zpos (digits2_pos m)) - 1) with (Z.succ (Zpos (digits2_pos m) - 1)) by lia.
    rewrite !Z.pow_succ_r by lia.
    generalize dependent (2 ^ (Zpos (digits2_pos m) - 1)).
    generalize (2 ^ Zpos (digits2_pos m)). intros; lia.
  - simpl. lia.
Qed.

Lemma dig_pos (m : positive) : 1 <= dig m.
Proof. unfold dig. lia. Qed.

Lemma dig_le (m : positive) (k : Z) : Zpos m < 2 ^ k -> dig m <= k.
Proof.
  intros H. destruct (Z.le_gt_cases (dig m) k) as [Hle | Hgt]; [exact Hle |].
  pose proof (dig_bounds m) as [Hlo _].
  assert (2 ^ k <= 2 ^ (dig m - 1)) by (apply Z.pow_le_mono_r; lia).
  lia.
Qed.

Lemma dig_ge (m : positive) (k : Z) : 2 ^ (k - 1) <= Zpos m -> k <= dig m.
Proof.
  intros H. destruct (Z.le_gt_cases k (dig m)) as [Hle | Hgt]; [exact Hle |].
  pose proof (dig_bounds m) as [_ Hhi]. pose proof (dig_pos m).
  assert (2 ^ dig m <= 2 ^ (k - 1)) by (apply Z.pow_le_mono_r; lia).
  lia.
Qed.

Lemma dig_unique (m : positive) (k : Z) :
  2 ^ (k - 1) <= Zpos m < 2 ^ k -> dig m = k.
Proof.
  intros [Hlo Hhi]. apply Z.le_antisymm; [apply dig_le | apply dig_ge]; assumption.
Qed.

Lemma iter_xO (m d : positive) : Zpos (Pos.iter xO m d) = Zpos m * 2 ^ Zpos d.
Proof.
  induction d as [| d IH] using Pos.peano_ind.
  - simpl. lia.
  - rewrite Pos.iter_succ, (Pos2Z.inj_xO (Pos.iter xO m d)), IH, Pos2Z.inj_succ, Z.pow_succ_r by lia. lia.
Qed.

Lemma shr_1_div2 (mrs : shr_record) :
  0 <= shr_m mrs -> shr_m (shr_1 mrs) = shr_m mrs / 2.
Proof.
  destruct mrs as [m r s]. simpl. intros H.
  rewrite <- Z.div2_div.
  destruct m as [| p | p]; [reflexivity | destruct p; reflexivity | lia].
Qed.

Ltac pow_side :=
  first [ lia | apply Z.pow_nonzero; lia | apply Z.pow_pos_nonneg; lia ].

Lemma iter_shr_1 (n : positive) :
  forall mrs : shr_record,
    0 <= shr_m mrs ->
    shr_m (iter_pos shr_1 n mrs) = shr_m mrs / 2 ^ Zpos n.
Proof.
  assert (Hnn : forall k mrs, 0 <= shr_m mrs -> 0 <= shr_m (iter_pos shr_1 k mrs)).
  { intros k. induction k as [k IH | k IH |]; intros mrs H; simpl.
    - apply IH, IH. rewrite shr_1_div2 by assumption. apply Z.div_pos; lia.
    - apply IH, IH, H.
    - rewrite shr_1_div2 by assumption. apply Z.div_pos; lia. }
  induction n as [n IH | n IH |]; intros mrs H; simpl iter_pos.
  - rewrite IH by (apply Hnn; rewrite shr_1_div2 by assumption; apply Z.div_pos; lia).
    rewrite IH by (rewrite shr_1_div2 by assumption; apply Z.div_pos; lia).
    rewrite shr_1_div2 by assumption.
    rewrite !Z.div_div by pow_side.
    f_equal. rewrite (Pos2Z.inj_xI n).
    replace (2 * Zpos n + 1) with (1 + Zpos n + Zpos n) by lia.
    rewrite !Z.pow_add_r by lia. lia.
  - rewrite IH by (apply Hnn; assumption). rewrite IH by assumption.
    rewrite Z.div_div by pow_side.
    f_equal. rewrite (Pos2Z.inj_xO n).
    replace (2 * Zpos n) with (Zpos n + Zpos n) by lia.
    rewrite Z.pow_add_r by lia. reflexivity.
  - rewrite shr_1_div2 by assumption. reflexivity.
Qed.

Lemma fexp64 (e : Z) : fexp 53 1024 e = Z.max (e - 53) (-1074).
Proof. reflexivity. Qed.

Lemma shr_fexp_none (m : positive) (t : Z) :
  dig m = 53 -> -1074 <= t ->
  shr_fexp 53 1024 (Zpos m) t loc_Exact = (Build_shr_record (Zpos m) false false, t).
Proof.
  intros Hd Ht. unfold shr_fexp. cbn [Zdigits2 shr_record_of_loc].
  change (Zpos (digits2_pos m)) with (dig m). rewrite Hd, fexp64.
  replace (Z.max (53 + t - 53) (-1074) - t) with 0 by lia. reflexivity.
Qed.

Lemma bra_exact (s : bool) (m : positive) (t : Z) :
  dig m = 53 -> -1074 <= t <= 971 ->
  binary_round_aux 53 1024 s (Zpos m) t loc_Exact = S754_finite s m t.
Proof.
  intros Hd Ht. unfold binary_round_aux.
  rewrite (shr_fexp_none m t Hd) by lia.
  cbn [shr_m loc_of_shr_record round_nearest_even].
  rewrite (shr_fexp_none m t Hd) by lia.
  cbn [shr_m].
  replace (t <=? 1024 - 53) with true by (symmetry; apply Z.leb_le; lia).
  reflexivity.
Qed.

Lemma round_nearest_even_cases (m : Z) (l : location) :
  round_nearest_even m l = m \/ round_nearest_even m l = m + 1.
Proof.
  unfold round_nearest_even. destruct l as [| []]; try destruct (Z.even m); auto.
Qed.

(** Rounding a mantissa of more than 53 digits: the result has 53 digits
    and the exponent that goes with them, or is the next power of two. *)
Lemma bra_shift (s : bool) (a : positive) (e : Z) (l : location) :
  53 < dig a ->
  -1074 <= dig a + e - 53 -> dig a + e - 52 <= 971 ->
  exists mr er,
    binary_round_aux 53 1024 s (Zpos a) e l = S754_finite s mr er /\
    dig mr = 53 /\
    (er = dig a + e - 53 \/ (er = dig a + e - 52 /\ mr = 4503599627370496%positive)).
Proof.
  intros Hd Hlo Hhi. unfold binary_round_aux.
  unfold shr_fexp at 1. cbn [Zdigits2]. change (Zpos (digits2_pos a)) with (dig a).
  rewrite fexp64.
  replace (Z.max (dig a + e - 53) (-1074) - e) with (dig a - 53) by lia.
  destruct (dig a - 53) as [| n | n] eqn:Hn; try lia.
  unfold shr.
  set (mrs' := iter_pos shr_1 n (shr_record_of_loc (Zpos a) l)).
  assert (Hm' : shr_m mrs' = Zpos a / 2 ^ Zpos n).
  { unfold mrs'. rewrite iter_shr_1; destruct l as [| []]; simpl; try lia; reflexivity. }
  pose proof (dig_bounds a) as [Ha1 Ha2].
  assert (Hpow : 0 < 2 ^ Zpos n) by (apply Z.pow_pos_nonneg; lia).
  assert (H52 : 2 ^ 52 <= shr_m mrs').
  { rewrite Hm'. apply Z.div_le_lower_bound; [exact Hpow |].
    rewrite Z.mul_comm, <- Z.pow_add_r by lia.
    replace (52 + Zpos n) with (dig a - 1) by lia. exact Ha1. }
  assert (H53 : shr_m mrs' < 2 ^ 53).
  { rewrite Hm'. apply Z.div_lt_upper_bound; [exact Hpow |].
    rewrite <- Z.pow_add_r by lia.
    replace (Zpos n + 53) with (dig a) by lia. exact Ha2. }
  set (m1 := round_nearest_even (shr_m mrs') (loc_of_shr_record mrs')).
  assert (Hm1 : 2 ^ 52 <= m1 <= 2 ^ 53).
  { unfold m1. destruct (round_nearest_even_cases (shr_m mrs') (loc_of_shr_record mrs'))
      as [-> | ->]; lia. }
  replace (e + Zpos n) with (dig a + e - 53) by lia.
  set (t := dig a + e - 53) in *.
  destruct m1 as [| q | q] eqn:Hq; try lia.
  destruct (Z.eq_dec (Zpos q) (2 ^ 53)) as [Heq | Hne].
  - injection Heq as ->.
    exists 4503599627370496%positive, (t + 1).
    split; [| split; [reflexivity | right; split; [lia | reflexivity]]].
    unfold shr_fexp. cbn [Zdigits2 digits2_pos Pos.succ shr_record_of_loc].
    rewrite fexp64.
    replace (Z.max (54 + t - 53) (-1074) - t) with 1 by lia.
    cbn [shr iter_pos shr_1 shr_m].
    replace (t + 1 <=? 1024 - 53) with true by (symmetry; apply Z.leb_le; lia).
    reflexivity.
  - assert (Hdq : dig q = 53) by (apply dig_unique; lia).
    exists q, t. split; [| split; [exact Hdq | left; reflexivity]].
    rewrite (shr_fexp_none q t Hdq) by lia.
    cbn [shr_m].
    replace (t <=? 1024 - 53) with true by (symmetry; apply Z.leb_le; lia).
    reflexivity.
Qed.

Lemma binary_round_normal (s : bool) (a : positive) (e : Z) :
  -1074 <= dig a + e - 53 -> dig a + e - 52 <= 971 ->
  exists mr er,
    binary_round 53 1024 s a e = S754_finite s mr er /\
    dig mr = 53 /\
    (er = dig a + e - 53 \/ (er = dig a + e - 52 /\ mr = 4503599627370496%positive)).
Proof.
  intros Hlo Hhi. unfold binary_round.
  change (Zpos (digits2_pos a)) with (dig a). rewrite fexp64.
  replace (Z.max (dig a + e - 53) (-1074)) with (dig a + e - 53) by lia.
  unfold shl_align.
  destruct (dig a + e - 53 - e) as [| p | p] eqn:Hp.
  - exists a, e. split; [apply bra_exact; lia | split; [lia | left; lia]].
  - apply bra_shift; lia.
  - assert (Hd : dig (Pos.iter xO a p) = 53).
    { apply dig_unique. rewrite iter_xO.
      pose proof (dig_bounds a) as [Ha1 Ha2].
      assert (Hpow : 0 < 2 ^ Zpos p) by (apply Z.pow_pos_nonneg; lia).
      pose proof (dig_pos a).
      assert (E1 : 2 ^ (53 - 1) = 2 ^ (dig a - 1) * 2 ^ Zpos p)
        by (rewrite <- Z.pow_add_r by lia; f_equal; lia).
      assert (E2 : 2 ^ 53 = 2 ^ dig a * 2 ^ Zpos p)
        by (rewrite <- Z.pow_add_r by lia; f_equal; lia).
      rewrite E1, E2. nia. }
    exists (Pos.iter xO a p), (dig a + e - 53).
    split; [apply bra_exact; lia | split; [exact Hd | left; reflexivity]].
Qed.

(** Doubling a number of 53 digits is exact. *)
Lemma mul_two_normal (s : bool) (m : positive) (e : Z) :
  dig m = 53 -> -1075 <= e -> e <= 970 ->
  SFmul 53 1024 (S754_finite false 4503599627370496 (-51)) (S754_finite s m e)
  = S754_finite s m (e + 1).
Proof.
  intros Hd Hlo Hhi. unfold SFmul. cbn [xorb].
  unfold binary_round_aux.
  unfold shr_fexp at 1.
  assert (Hd' : digits2_pos m = 53%positive) by (unfold dig in Hd; congruence).
  cbn [Zdigits2 Pos.mul digits2_pos]. rewrite Hd'. cbn [Pos.succ].
  rewrite fexp64.
  replace (Z.max (105 + (-51 + e) - 53) (-1074) - (-51 + e)) with 52 by lia.
  cbn [shr shr_record_of_loc iter_pos shr_1 shr_m loc_of_shr_record round_nearest_even orb].
  rewrite (shr_fexp_none m (-51 + e + 52) Hd) by lia.
  cbn [shr_m].
  replace (-51 + e + 52 <=? 1024 - 53) with true by (symmetry; apply Z.leb_le; lia).
  f_equal. lia.
Qed.

Lemma valid_finite (s : bool) (m : positive) (e : Z) :
  valid_binary 53 1024 (S754_finite s m e) = true ->
  -1074 <= e /\ dig m <= 53 /\ (-1074 < e -> dig m = 53).
Proof.
  unfold valid_binary, bounded, canonical_mantissa. intros H.
  apply andb_true_iff in H. destruct H as [H _].
  apply Z.eqb_eq in H. rewrite fexp64 in H.
  change (Zpos (digits2_pos m)) with (dig m) in H. lia.
Qed.

Lemma compare_cont_lt (m q : positive) :
  Pos.compare_cont Eq m q = Lt -> Zpos m < Zpos q.
Proof. intros H. change (m < q)%positive in H. lia. Qed.

Lemma below_one (m : positive) (e : Z) :
  valid_binary 53 1024 (S754_finite false m e) = true ->
  SFltb (S754_finite false m e) f64_one = true ->
  e <= -53.
Proof.
  intros Hv Hlt. destruct (valid_finite _ _ _ Hv) as (He & Hd & Hn).
  unfold SFltb, SFcompare, f64_one in Hlt.
  destruct (Z.compare_spec e (-52)) as [Heq | Hl | Hg]; [| lia | discriminate].
  exfalso. subst e.
  destruct (Pos.compare_cont Eq m 4503599627370496) eqn:Hc; try discriminate.
  apply compare_cont_lt in Hc.
  assert (dig m <= 52) by (apply dig_le; exact Hc).
  assert (dig m = 53) by (apply Hn; lia). lia.
Qed.

Lemma shl_align_same (m : positive) (e : Z) : shl_align m e e = (m, e).
Proof. unfold shl_align. rewrite Z.sub_diag. reflexivity. Qed.

(** The difference of a float64 in [0, 1) and one half: zero, or a number
    of 53 digits of magnitude at most one half. *)
Lemma sub_half (m : positive) (e : Z) :
  valid_binary 53 1024 (S754_finite false m e) = true ->
  SFltb (S754_finite false m e) f64_one = true ->
  SFsub 53 1024 (S754_finite false m e) f64_half = S754_zero false \/
  exists s mr er,
    SFsub 53 1024 (S754_finite false m e) f64_half = S754_finite s mr er /\
    dig mr = 53 /\ -1074 <= er /\
    (er <= -54 \/ (er = -53 /\ mr = 4503599627370496%positive)).
Proof.
  intros Hv Hlt.
  pose proof (below_one m e Hv Hlt) as He53.
  destruct (valid_finite _ _ _ Hv) as (He & Hd & Hn).
  pose proof (dig_bounds m) as [_ Hm].
  assert (Hm53 : Zpos m < 2 ^ 53).
  { eapply Z.lt_le_trans; [exact Hm |]. apply Z.pow_le_mono_r; lia. }
  unfold SFsub, f64_half. rewrite Z.min_l by lia.
  rewrite shl_align_same. cbn [fst cond_Zopp].
  set (B := fst (shl_align 4503599627370496 (-53) e)).
  assert (HB : Zpos B = 2 ^ (-1 - e)).
  { unfold B, shl_align. destruct (e - -53) as [| d | d] eqn:Hd'; try lia; cbn [fst].
    - replace (-1 - e) with 52 by lia. reflexivity.
    - rewrite iter_xO. change 4503599627370496 with (2 ^ 52).
      rewrite <- Z.pow_add_r by lia. f_equal. lia. }
  assert (Hbig : -1 - e >= 54 -> 2 ^ 53 <= 2 ^ (-1 - e - 1)).
  { intros. apply Z.pow_le_mono_r; lia. }
  assert (Hdouble : 2 ^ (-1 - e) = 2 * 2 ^ (-1 - e - 1)).
  { rewrite <- Z.pow_succ_r by lia. f_equal. lia. }
  assert (Hge52 : 2 ^ 52 <= 2 ^ (-1 - e)) by (apply Z.pow_le_mono_r; lia).
  unfold binary_normalize.
  destruct (Zpos m - Zpos B) as [| a | a] eqn:HM; [left; reflexivity | right | right].
  - assert (Ha : Zpos a < 2 ^ (-1 - e)) by lia.
    pose proof (dig_le a _ Ha) as Hda. pose proof (dig_pos a) as Hda1.
    assert (Hsmall : -1 - e < 54) by lia.
    destruct (binary_round_normal false a e) as (mr & er & Hr & Hdr & Her); try lia.
    exists false, mr, er. split; [exact Hr |]. split; [exact Hdr |]. lia.
  - assert (Ha : Zpos a < 2 ^ (-1 - e)) by lia.
    pose proof (dig_le a _ Ha) as Hda. pose proof (dig_pos a) as Hda1.
    assert (Hlow : -1 - e >= 54 -> -1 - e <= dig a).
    { intros Hk. apply dig_ge. specialize (Hbig Hk). lia. }
    destruct (binary_round_normal true a e) as (mr & er & Hr & Hdr & Her); try lia.
    exists true, mr, er. split; [exact Hr |]. split; [exact Hdr |]. lia.
Qed.

(** A float64 of [0, 1), less one half and doubled, lies in [-1, 1]. *)
Lemma unit_interval_scaled (x : float) :
  valid_binary 53 1024 x = true ->
  SFleb (S754_zero false) x = true ->
  SFltb x f64_one = true ->
  SFleb (SFopp f64_one) (SFmul 53 1024 f64_two (SFsub 53 1024 x f64_half)) = true /\
  SFleb (SFmul 53 1024 f64_two (SFsub 53 1024 x f64_half)) f64_one = true.
Proof.
  intros Hv H0 H1.
  destruct x as [s | s | | s m e]; try discriminate.
  - destruct s; split; vm_compute; reflexivity.
  - destruct s; discriminate.
  - destruct s; [discriminate |].
    destruct (sub_half m e Hv H1) as [-> | (s & mr & er & -> & Hd & Hlo & Hup)].
    + split; vm_compute; reflexivity.
    + unfold f64_two. rewrite (mul_two_normal s mr er Hd) by lia.
      unfold SFleb, SFcompare, SFopp, f64_one. cbn [negb].
      destruct s.
      * split; [| reflexivity].
        destruct (Z.compare_spec (-52) (er + 1)) as [Heq | Hl | Hg]; try lia; try reflexivity.
        destruct Hup as [Hup | [_ ->]]; [lia | reflexivity].
      * split; [reflexivity |].
        destruct (Z.compare_spec (er + 1) (-52)) as [Heq | Hl | Hg]; try lia; try reflexivity.
        destruct Hup as [Hup | [_ ->]]; [lia | reflexivity].
Qed.

(** ** The random image *)

Lemma f64_of_Z_two : f64_of_Z 2 = f64_two.
Proof. vm_compute. reflexivity. Qed.

Lemma f64_of_Z_hundred : f64_of_Z 100 = f64_hundred.
Proof. vm_compute. reflexivity. Qed.

Lemma random_extent_x : f64_mul (f64_of_Z 200) f64_hundred = f64_of_Z 20000.
Proof. vm_compute. reflexivity. Qed.

Lemma random_extent_z :
  f64_add (f64_of_Z 0) (f64_mul (f64_of_Z 100) f64_hundred) = f64_of_Z 10000.
Proof. vm_compute. reflexivity. Qed.

Lemma scaled_draw_within_unit (x : float) :
  unit_draw x ->
  within_unit (f64_mul (f64_of_Z 2) (f64_sub x f64_half)).
Proof.
  intros (Hv & H0 & H1).
  rewrite f64_of_Z_two.
  exact (unit_interval_scaled x Hv H0 H1).
Qed.


(** C9: [read()] with its default argument returns an image of exactly one
    patch: 100 by 200 samples, spacing 100.0, zmin 0, the extent
    (0, nj*h, zmin+ni*h, zmin) = (0, 20000.0, 10000.0, 0) with no half-cell
    padding, and, the draws of [np.random.rand] being floats of [0, 1),
    every sample within [-1, 1]. *)
Theorem random_image_single_patch (D : dic_and_dtype) (E : environment) :
  rand_contract E ->
  exists (img : Image.t) (p : Patch.t) (data : list float),
    read D E FRandom = Ok img /\
    Image.patches img = [p] /\
    Patch.ni p = 100 /\
    Patch.nj p = 200 /\
    Patch.h p = PyFloat (f64_of_Z 100) /\
    Patch.zmin p = PyInt 0 /\
    Patch.extent p =
      (PyInt 0, PyFloat (f64_of_Z 20000), PyFloat (f64_of_Z 10000), PyInt 0) /\
    Patch.data p = Some (mk_ndarray float64 (100, 200) data) /\
    List.length data = Z.to_nat 20000 /\
    Forall within_unit data.
Proof.
  intros Hrand.
  destruct (Hrand 100 200) as [Hlen Hall]; try lia.
  unfold read, random_patch.
  cbv zeta.
  remember (np_random_rand E 100 200) as draws eqn:Hd.
  destruct draws as [| x r].
  - exfalso. cbn [List.length] in Hlen.
    change (100 * 200) with 20000 in Hlen.
    assert (H : (0 < Z.to_nat 20000)%nat) by lia.
    rewrite <- Hlen in H. inversion H.
  - cbn [map].
    unfold np_min, np_max. cbn [bind].
    eexists. eexists. eexists.
    split; [reflexivity |].
    cbn [Image.patches Image.set_patches Image.set_filename Image.__init__ app
         Patch.ni Patch.nj Patch.h Patch.zmin Patch.extent Patch.data].
    split; [reflexivity |].
    split; [reflexivity |].
    split; [reflexivity |].
    split; [rewrite f64_of_Z_hundred; reflexivity |].
    split; [reflexivity |].
    split; [rewrite random_extent_x, random_extent_z; reflexivity |].
    split; [reflexivity |].
    split.
    + change (List.length (map (fun x => f64_mul (f64_of_Z 2) (f64_sub x f64_half)) (x :: r))
              = Z.to_nat 20000).
      rewrite length_map, Hlen. reflexivity.
    + change (Forall within_unit
                (map (fun x => f64_mul (f64_of_Z 2) (f64_sub x f64_half)) (x :: r))).
      apply Forall_map.
      eapply Forall_impl; [| exact Hall].
      intros a Ha. apply scaled_draw_within_unit. exact Ha.
Qed.

Lemma random_image_single_patch_witness :
  rand_contract scenario_env /\
  exists (img : Image.t) (p : Patch.t) (data : list float),
    read sw4_tables scenario_env FRandom = Ok img /\
    Image.patches img = [p] /\
    Patch.ni p = 100 /\
    Patch.nj p = 200 /\
    Patch.h p = PyFloat (f64_of_Z 100) /\
    Patch.zmin p = PyInt 0 /\
    Patch.extent p =
      (PyInt 0, PyFloat (f64_of_Z 20000), PyFloat (f64_of_Z 10000), PyInt 0) /\
    Patch.data p = Some (mk_ndarray float64 (100, 200) data) /\
    List.length data = Z.to_nat 20000 /\
    Forall within_unit data.
Proof.
  assert (H : rand_contract scenario_env).
  { intros ni nj _ _.
    unfold scenario_env, env_with; cbn [np_random_rand].
    split.
    - apply repeat_length.
    - apply Forall_forall. intros x Hx.
      apply repeat_spec in Hx. subst x.
      repeat split; vm_compute; reflexivity. }
  split; [exact H |].
  exact (random_image_single_patch sw4_tables scenario_env H).
Defined.

(** ** Python strings: splitting *)

Lemma string_app_assoc (x y z : string) :
  ((x ++ y) ++ z)%string = (x ++ (y ++ z))%string.
Proof. induction x as [| a x IH]; simpl; [reflexivity | rewrite IH; reflexivity]. Qed.

Lemma lacks_app (c : ascii) (x y : string) :
  lacks c (x ++ y) = lacks c x && lacks c y.
Proof.
  induction x as [| a x IH]; simpl; [reflexivity |].
  rewrite IH, andb_assoc. reflexivity.
Qed.

Lemma count_char_app (c : ascii) (x y : string) :
  count_char c (x ++ y)%string = (count_char c x + count_char c y)%nat.
Proof.
  induction x as [| a x IH]; simpl; [reflexivity |].
  rewrite IH. lia.
Qed.

Lemma lacks_count (c : ascii) (s : string) :
  lacks c s = true -> count_char c s = O.
Proof.
  induction s as [| a s IH]; simpl; [reflexivity |].
  destruct (Ascii.eqb a c); simpl; [discriminate | exact IH].
Qed.

Lemma rsplit1_lacks (c : ascii) (s : string) :
  lacks c s = true -> rsplit1 c s = None.
Proof.
  induction s as [| a s IH]; simpl; [reflexivity |].
  destruct (Ascii.eqb a c); simpl; [discriminate |].
  intros H. rewrite (IH H). reflexivity.
Qed.

Lemma rsplit1_none (c : ascii) (s : string) :
  rsplit1 c s = None -> lacks c s = true.
Proof.
  induction s as [| a s IH]; simpl; [reflexivity |].
  destruct (rsplit1 c s) as [[x y] |]; [discriminate |].
  destruct (Ascii.eqb a c); [discriminate |].
  intros _. simpl. apply IH. reflexivity.
Qed.

Lemma rsplit1_some (c : ascii) (s x y : string) :
  rsplit1 c s = Some (x, y) ->
  s = (x ++ String c y)%string /\ lacks c y = true.
Proof.
  revert x y. induction s as [| a s IH]; simpl; intros x y H; [discriminate |].
  destruct (rsplit1 c s) as [[x' y'] |] eqn:Hr.
  - injection H as <- <-. destruct (IH _ _ eq_refl) as [-> Hy].
    split; [reflexivity | exact Hy].
  - destruct (Ascii.eqb_spec a c) as [-> | _]; [| discriminate].
    injection H as <- <-. split; [reflexivity |].
    apply rsplit1_none. exact Hr.
Qed.

Lemma rsplit1_app (c : ascii) (x y : string) :
  lacks c y = true -> rsplit1 c (x ++ String c y) = Some (x, y).
Proof.
  intros Hy. induction x as [| a x IH]; simpl.
  - rewrite (rsplit1_lacks _ _ Hy), Ascii.eqb_refl. reflexivity.
  - rewrite IH. reflexivity.
Qed.

Lemma split_lacks (c : ascii) (s : string) :
  lacks c s = true -> split c s = [s].
Proof.
  induction s as [| a s IH]; simpl; [reflexivity |].
  destruct (Ascii.eqb a c); simpl; [discriminate |].
  intros H. rewrite (IH H). reflexivity.
Qed.

Lemma split_app (c : ascii) (x y : string) :
  lacks c x = true -> split c (x ++ String c y) = x :: split c y.
Proof.
  induction x as [| a x IH]; simpl.
  - rewrite Ascii.eqb_refl. reflexivity.
  - destruct (Ascii.eqb a c); simpl; [discriminate |].
    intros H. rewrite (IH H). reflexivity.
Qed.

Lemma split_nonempty (c : ascii) (s : string) : split c s <> [].
Proof.
  destruct s as [| a s]; simpl; [discriminate |].
  destruct (Ascii.eqb a c); [discriminate |].
  destruct (split c s); discriminate.
Qed.

(** What [split] returns: pieces without the separator whose join is the
    text. *)
Lemma split_join (c : ascii) (s : string) :
  join c (split c s) = s /\ Forall (fun x => lacks c x = true) (split c s).
Proof.
  induction s as [| a s [IHj IHf]]; simpl.
  - split; [reflexivity | repeat constructor].
  - destruct (Ascii.eqb_spec a c) as [-> | Hne].
    + pose proof (split_nonempty c s) as Hn.
      destruct (split c s) as [| x l] eqn:Hs; [contradiction |].
      split.
      * change (join c (EmptyString :: x :: l))
          with (String c (join c (x :: l))). rewrite IHj. reflexivity.
      * constructor; [reflexivity | exact IHf].
    + pose proof (split_nonempty c s) as Hn.
      destruct (split c s) as [| x l] eqn:Hs; [contradiction |].
      apply Forall_cons_iff in IHf. destruct IHf as [Hx Hl].
      split.
      * destruct l as [| x' l'].
        -- simpl in IHj. simpl. rewrite IHj. reflexivity.
        -- change (join c (String a x :: x' :: l'))
             with (String a (x ++ String c (join c (x' :: l'))))%string.
           change (join c (x :: x' :: l'))
             with (x ++ String c (join c (x' :: l')))%string in IHj.
           rewrite IHj. reflexivity.
      * constructor; [| exact Hl].
        simpl. rewrite Hx.
        destruct (Ascii.eqb_spec a c); [contradiction | reflexivity].
Qed.

Lemma split_app_any (c : ascii) (x y : string) :
  exists l, split c (x ++ String c y) = l ++ split c y /\ l <> [].
Proof.
  induction x as [| a x (l & IH & Hl)]; simpl.
  - rewrite Ascii.eqb_refl. exists [EmptyString]. split; [reflexivity | discriminate].
  - rewrite IH. destruct (Ascii.eqb a c).
    + exists (EmptyString :: l). split; [reflexivity | discriminate].
    + destruct l as [| z l]; [contradiction |].
      exists (String a z :: l). split; [reflexivity | discriminate].
Qed.

Lemma last_split_app (c : ascii) (x y : string) :
  lacks c y = true -> last_part (split c (x ++ String c y)) = y.
Proof.
  intros Hy. unfold last_part.
  destruct (split_app_any c x y) as (l & -> & _).
  rewrite (split_lacks _ _ Hy). apply last_last.
Qed.

(** The four parts of [rsplit(c, 3)]: the last three hold no separator. *)
Lemma rsplit3_parts (c : ascii) (s a b d e : string) :
  rsplit c 3 s = [a; b; d; e] ->
  s = (a ++ String c (b ++ String c (d ++ String c e)))%string /\
  lacks c b = true /\ lacks c d = true /\ lacks c e = true.
Proof.
  cbn [rsplit].
  destruct (rsplit1 c s) as [[x3 y3] |] eqn:H3; [| discriminate].
  destruct (rsplit1 c x3) as [[x2 y2] |] eqn:H2; [| discriminate].
  destruct (rsplit1 c x2) as [[x1 y1] |] eqn:H1; [| discriminate].
  cbn [app]. intros [= <- <- <- <-].
  apply rsplit1_some in H3, H2, H1.
  destruct H3 as [-> L3], H2 as [-> L2], H1 as [-> L1].
  repeat split; try assumption.
  repeat (rewrite string_app_assoc; simpl). reflexivity.
Qed.

Lemma rsplit3_app (c : ascii) (a b d e : string) :
  lacks c b = true -> lacks c d = true -> lacks c e = true ->
  rsplit c 3 (a ++ String c (b ++ String c (d ++ String c e))) = [a; b; d; e].
Proof.
  intros Lb Ld Le. cbn [rsplit].
  replace (a ++ String c (b ++ String c (d ++ String c e)))%string
    with ((a ++ String c (b ++ String c d)) ++ String c e)%string.
  2:{ repeat (rewrite string_app_assoc; simpl). reflexivity. }
  rewrite (rsplit1_app _ _ _ Le).
  replace (a ++ String c (b ++ String c d))%string
    with ((a ++ String c b) ++ String c d)%string.
  2:{ repeat (rewrite string_app_assoc; simpl). reflexivity. }
  rewrite (rsplit1_app _ _ _ Ld), (rsplit1_app _ _ _ Lb). reflexivity.
Qed.

Lemma rsplit3_few (c : ascii) (s : string) :
  (count_char c s < 3)%nat -> List.length (rsplit c 3 s) <> 4%nat.
Proof.
  intros Hc Hl.
  destruct (rsplit c 3 s) as [| a [| b [| d [| e [| ? ?]]]]] eqn:Hr; try discriminate.
  apply rsplit3_parts in Hr. destruct Hr as (-> & _).
  rewrite !count_char_app in Hc. cbn [count_char] in Hc.
  rewrite !count_char_app in Hc. cbn [count_char] in Hc.
  rewrite !count_char_app in Hc. cbn [count_char] in Hc.
  rewrite Ascii.eqb_refl in Hc. lia.
Qed.

(** ** Paths *)

Lemma basename_lacks (p : string) : lacks "/" p = true -> basename p = p.
Proof. intros H. unfold basename. rewrite (rsplit1_lacks _ _ H). reflexivity. Qed.

Lemma basename_app (d b : string) :
  lacks "/" b = true -> basename (d ++ String "/" b) = b.
Proof. intros H. unfold basename. rewrite (rsplit1_app _ _ _ H). reflexivity. Qed.

Lemma basename_no_sep (p : string) : lacks "/" (basename p) = true.
Proof.
  unfold basename. destruct (rsplit1 "/" p) as [[x y] |] eqn:H.
  - apply rsplit1_some in H. apply H.
  - apply rsplit1_none. exact H.
Qed.

(** [splitext] cuts its argument in two; the extension is empty or starts
    with the last dot. *)
Lemma splitext_parts (p x e : string) :
  splitext p = (x, e) ->
  p = (x ++ e)%string /\
  (e = EmptyString \/ exists y, e = String "." y /\ lacks "." y = true).
Proof.
  unfold splitext.
  assert (Hnil : forall q : string, q = (q ++ "")%string).
  { induction q as [| a q IH]; simpl; [reflexivity | rewrite <- IH; reflexivity]. }
  destruct (rsplit1 "." (basename p)) as [[x0 y0] |].
  - destruct (all_dots (basename (String "/" x0))).
    + intros [= <- <-]. split; [apply Hnil | left; reflexivity].
    + destruct (rsplit1 "." p) as [[x' y'] |] eqn:Hr.
      * intros [= <- <-]. apply rsplit1_some in Hr. destruct Hr as [-> Hy].
        split; [reflexivity | right; eauto].
      * intros [= <- <-]. split; [apply Hnil | left; reflexivity].
  - intros [= <- <-]. split; [apply Hnil | left; reflexivity].
Qed.

Lemma all_dots_lacks (c : ascii) (s : string) :
  c <> "."%char -> lacks c s = false -> all_dots s = false.
Proof.
  intros Hc. induction s as [| a s IH]; simpl; [discriminate |].
  destruct (Ascii.eqb_spec a c) as [-> | Hne]; simpl.
  - intros _. destruct (Ascii.eqb_spec c "."); [contradiction | reflexivity].
  - intros H. rewrite (IH H). apply andb_false_r.
Qed.

Lemma splitext_sw4img (stem : string) :
  lacks "/" stem = true ->
  lacks "=" stem = false ->
  splitext (stem ++ ".sw4img") = (stem, ".sw4img"%string).
Proof.
  intros Hs He. unfold splitext.
  rewrite basename_lacks.
  2:{ rewrite lacks_app, Hs. reflexivity. }
  change (stem ++ ".sw4img")%string with (stem ++ String "." "sw4img")%string.
  rewrite rsplit1_app by reflexivity.
  change (String "/" stem) with ("" ++ String "/" stem)%string.
  rewrite (basename_app _ _ Hs).
  rewrite (all_dots_lacks "=" stem) by (discriminate || exact He).
  reflexivity.
Qed.

(** ** int() *)

Lemma digit_not_space (a : ascii) :
  ((48 <=? nat_of_ascii a)%nat && (nat_of_ascii a <=? 57)%nat) = true ->
  is_space a = false.
Proof.
  unfold is_space. intros H. apply andb_true_iff in H. destruct H as [H1 H2].
  apply Nat.leb_le in H1. apply Nat.leb_le in H2.
  apply orb_false_iff. split.
  - apply Nat.eqb_neq. lia.
  - apply andb_false_iff. right. apply Nat.leb_gt. lia.
Qed.

Lemma digits_rstrip (s : string) :
  forall acc v, digits_value acc s = Some v -> rstrip s = s.
Proof.
  induction s as [| a s IH]; intros acc v H; [reflexivity |].
  cbn [digits_value] in H. cbv zeta in H.
  destruct ((48 <=? nat_of_ascii a)%nat && (nat_of_ascii a <=? 57)%nat) eqn:Hd;
    [| discriminate].
  cbn [rstrip]. rewrite (IH _ _ H).
  destruct s; [rewrite (digit_not_space _ Hd) |]; reflexivity.
Qed.

Lemma digits_lstrip (s : string) (acc v : Z) :
  digits_value acc s = Some v -> lstrip s = s.
Proof.
  destruct s as [| a s]; intros H; [reflexivity |].
  cbn [digits_value] in H. cbv zeta in H.
  destruct ((48 <=? nat_of_ascii a)%nat && (nat_of_ascii a <=? 57)%nat) eqn:Hd;
    [| discriminate].
  cbn [lstrip]. rewrite (digit_not_space _ Hd). reflexivity.
Qed.

(** [int] of a non-empty run of decimal digits is its value. *)
Lemma py_int_digits (ds : string) (n : Z) :
  ds <> EmptyString -> digits_value 0 ds = Some n -> py_int ds = Ok n.
Proof.
  intros Hne H. unfold py_int.
  rewrite (digits_lstrip _ _ _ H), (digits_rstrip _ _ _ H).
  destruct ds as [| a r]; [contradiction |].
  destruct a as [b0 b1 b2 b3 b4 b5 b6 b7].
  destruct b0, b1, b2, b3, b4, b5, b6, b7;
    try (exfalso; cbn in H; discriminate H);
    cbv beta iota; rewrite H; reflexivity.
Qed.

Lemma py_int_raises (s : string) (e : exn) : py_int s = Raise e -> e = ValueError.
Proof.
  unfold py_int.
  destruct (match rstrip (lstrip s) with
            | String "-" r => (true, r)
            | String "+" r => (false, r)
            | _ => (false, rstrip (lstrip s))
            end) as [neg ds].
  destruct ds; [congruence |].
  destruct (digits_value 0 _); [discriminate | congruence].
Qed.

(** ** parse_filename *)

Lemma parse_parts_ok (text : string) (sw sw' : bool) (name : string) (cycle : Z)
  (plane coordinate mode : string) :
  parse_parts text sw = Ok (name, cycle, plane, coordinate, mode, sw') ->
  sw' = sw /\
  exists cyc,
    text = (name ++ String "." (cyc ++ String "."
              ((plane ++ String "=" coordinate) ++ String "." mode)))%string /\
    py_int (last_part (split "=" cyc)) = Ok cycle /\
    lacks "." cyc = true /\ lacks "." mode = true /\
    lacks "." plane = true /\ lacks "." coordinate = true /\
    lacks "=" plane = true /\ lacks "=" coordinate = true.
Proof.
  unfold parse_parts. intros H.
  destruct (rsplit "." 3 text) as [| a [| b [| d [| e [| ? ?]]]]] eqn:Hr;
    try discriminate H.
  apply rsplit3_parts in Hr. destruct Hr as (-> & Lb & Ld & Le).
  inv_bind H.
  destruct (split_join "=" d) as [Hj Hf].
  destruct (split "=" d) as [| p [| c [| ? ?]]]; try discriminate H.
  injection H as <- <- <- <- <- <-.
  cbn [join] in Hj. subst d.
  apply Forall_cons_iff in Hf. destruct Hf as [Hp Hf].
  apply Forall_cons_iff in Hf. destruct Hf as [Hc _].
  rewrite lacks_app in Ld. apply andb_true_iff in Ld. destruct Ld as [Lp Lc].
  cbn [lacks] in Lc. apply andb_true_iff in Lc. destruct Lc as [_ Lc].
  split; [reflexivity |].
  exists b. repeat split; assumption.
Qed.

Lemma parse_parts_raises (text : string) (sw : bool) (e : exn) :
  parse_parts text sw = Raise e -> e = ValueError.
Proof.
  unfold parse_parts. intros H.
  destruct (rsplit "." 3 text) as [| a [| b [| d [| x [| ? ?]]]]];
    try congruence.
  apply bind_raise in H. destruct H as [H | (v & _ & H)].
  - eapply py_int_raises; exact H.
  - destruct (split "=" d) as [| p [| c [| ? ?]]]; congruence.
Qed.

Lemma parse_parts_few_dots (text : string) (sw : bool) :
  (count_char "." text < 3)%nat -> parse_parts text sw = Raise ValueError.
Proof.
  intros Hc. unfold parse_parts.
  pose proof (rsplit3_few "." text Hc) as Hl.
  destruct (rsplit "." 3 text) as [| a [| b [| d [| x [| ? ?]]]]];
    try reflexivity.
  exfalso. apply Hl. reflexivity.
Qed.

Lemma digits_lacks (c : ascii) (s : string) :
  ((48 <=? nat_of_ascii c)%nat && (nat_of_ascii c <=? 57)%nat) = false ->
  forall acc v, digits_value acc s = Some v -> lacks c s = true.
Proof.
  intros Hc. induction s as [| a s IH]; intros acc v H; [reflexivity |].
  cbn [digits_value] in H. cbv zeta in H.
  destruct ((48 <=? nat_of_ascii a)%nat && (nat_of_ascii a <=? 57)%nat) eqn:Hd;
    [| discriminate].
  cbn [lacks]. rewrite (IH _ _ H), andb_true_r.
  destruct (Ascii.eqb_spec a c) as [-> | _]; [congruence | reflexivity].
Qed.

Ltac split_andb :=
  repeat match goal with
         | H : _ /\ _ |- _ => destruct H
         | H : (_ && _) = true |- _ => apply andb_true_iff in H
         end.

Ltac lacks_goal :=
  unfold dotted;
  repeat (rewrite lacks_app || (progress cbn [lacks]));
  repeat match goal with
         | H : lacks _ _ = true |- _ => rewrite H
         end;
  reflexivity.

(** X1. [parse_filename] reads the last component of a path only: the
    directories before it change nothing. *)
Theorem parse_filename_ignores_directory (dir base : string) :
  lacks "/" base = true ->
  parse_filename (dir ++ String "/" base) = parse_filename base.
Proof.
  intros H. unfold parse_filename.
  rewrite (basename_app _ _ H), (basename_lacks _ H). reflexivity.
Qed.

Lemma parse_filename_ignores_directory_witness :
  parse_filename ("/data/run1" ++ String "/" "shake.cycle=10.x=0.ux.sw4img")
  = parse_filename "shake.cycle=10.x=0.ux.sw4img".
Proof.
  apply (parse_filename_ignores_directory "/data/run1" "shake.cycle=10.x=0.ux.sw4img").
  reflexivity.
Defined.

(** X2. What a successful [parse_filename] has read: the last component of
    the path is name.cyc.plane=coordinate.mode, followed by .sw4img exactly
    when the flag is set; the cycle is the integer after the last '=' of
    cyc; the plane, the coordinate and the mode hold no dot, and neither
    the plane nor the coordinate holds '='. *)
Theorem parse_filename_ok_decomposes (filename name : string) (cycle : Z)
  (plane coordinate mode : string) (is_SW4 : bool) :
  parse_filename filename = Ok (name, cycle, plane, coordinate, mode, is_SW4) ->
  exists cyc,
    basename filename
    = (dotted name cyc plane coordinate mode ++ (if is_SW4 then ".sw4img" else ""))%string /\
    py_int (last_part (split "=" cyc)) = Ok cycle /\
    lacks "." cyc = true /\ lacks "." mode = true /\
    lacks "." plane = true /\ lacks "." coordinate = true /\
    lacks "=" plane = true /\ lacks "=" coordinate = true.
Proof.
  unfold parse_filename. intros H.
  destruct (splitext (basename filename)) as [stem ext] eqn:Hs.
  apply splitext_parts in Hs. destruct Hs as [Hb _].
  destruct (String.eqb_spec ext ".sw4img") as [-> | _].
  - apply parse_parts_ok in H. destruct H as (-> & cyc & -> & Hrest).
    exists cyc. split; [exact Hb | exact Hrest].
  - apply parse_parts_ok in H. destruct H as (-> & cyc & Ht & Hrest).
    exists cyc. split; [| exact Hrest].
    rewrite Ht. unfold dotted.
    clear. induction name as [| a x IH]; simpl.
    + repeat (rewrite string_app_assoc; simpl).
      assert (Hnil : forall q : string, (q ++ "")%string = q).
      { induction q as [| b q IH]; simpl; [reflexivity | rewrite IH; reflexivity]. }
      rewrite Hnil. reflexivity.
    + rewrite <- IH. reflexivity.
Qed.

Lemma parse_filename_ok_decomposes_witness :
  exists cyc,
    basename "out/shake.cycle=10.x=0.ux.sw4img"
    = (dotted "shake" cyc "x" "0" "ux" ++ ".sw4img")%string /\
    py_int (last_part (split "=" cyc)) = Ok 10 /\
    lacks "." cyc = true /\ lacks "." "ux" = true /\
    lacks "." "x" = true /\ lacks "." "0" = true /\
    lacks "=" "x" = true /\ lacks "=" "0" = true.
Proof.
  apply (parse_filename_ok_decomposes "out/shake.cycle=10.x=0.ux.sw4img"
           "shake" 10 "x" "0" "ux" true).
  vm_compute. reflexivity.
Defined.

(** X3. Round trip: the name that SW4 writes for an image, with or without
    the extension .sw4img, is parsed into the parts it was made of, the
    cycle as the value of its digits; the name itself may hold dots. *)
Theorem parse_filename_round_trip (name key digits plane coordinate mode : string)
  (n : Z) :
  name_parts name key digits plane coordinate mode n ->
  parse_filename
    (dotted name (key ++ String "=" digits) plane coordinate mode ++ ".sw4img")
  = Ok (name, n, plane, coordinate, mode, true) /\
  (mode <> "sw4img"%string ->
   parse_filename (dotted name (key ++ String "=" digits) plane coordinate mode)
   = Ok (name, n, plane, coordinate, mode, false)).
Proof.
  intros (Hn & Hk & (Hne & Hd) & Hp & Hc & Hm).
  split_andb.
  pose proof (digits_lacks "/" digits eq_refl _ _ Hd) as Hd1.
  pose proof (digits_lacks "." digits eq_refl _ _ Hd) as Hd2.
  pose proof (digits_lacks "=" digits eq_refl _ _ Hd) as Hd3.
  assert (Hstem : lacks "/" (dotted name (key ++ String "=" digits) plane coordinate mode)
                  = true) by lacks_goal.
  assert (Hparts : forall sw,
             parse_parts (dotted name (key ++ String "=" digits) plane coordinate mode) sw
             = Ok (name, n, plane, coordinate, mode, sw)).
  { intros sw. unfold parse_parts, dotted.
    rewrite rsplit3_app by lacks_goal.
    rewrite (last_split_app _ _ _ Hd3), (py_int_digits _ _ Hne Hd). cbn [bind].
    rewrite split_app by assumption.
    rewrite split_lacks by assumption. reflexivity. }
  split.
  - unfold parse_filename.
    rewrite basename_lacks by (rewrite lacks_app, Hstem; reflexivity).
    rewrite splitext_sw4img; [| exact Hstem |].
    + cbn [String.eqb Ascii.eqb Bool.eqb]. apply Hparts.
    + unfold dotted. rewrite !lacks_app. cbn [lacks].
      rewrite !lacks_app. cbn [lacks Ascii.eqb Bool.eqb negb andb].
      rewrite !andb_false_r. reflexivity.
  - intros Hmode. unfold parse_filename.
    rewrite (basename_lacks _ Hstem).
    destruct (splitext (dotted name (key ++ String "=" digits) plane coordinate mode))
      as [stem ext] eqn:Hs.
    destruct (String.eqb_spec ext ".sw4img") as [-> | _]; [| apply Hparts].
    exfalso. revert Hs. unfold splitext.
    rewrite (basename_lacks _ Hstem).
    assert (Hcut : dotted name (key ++ String "=" digits) plane coordinate mode
                   = ((name ++ String "." ((key ++ String "=" digits) ++ String "."
                         (plane ++ String "=" coordinate))) ++ String "." mode)%string).
    { unfold dotted. repeat (rewrite string_app_assoc; simpl). reflexivity. }
    rewrite Hcut. rewrite rsplit1_app by assumption.
    destruct (all_dots _); intros [= _ He].
    apply Hmode. congruence.
Qed.

Lemma parse_filename_round_trip_witness :
  name_parts "basin.v2" "cycle" "0120" "z" "0" "velmag" 120 /\
  parse_filename (dotted "basin.v2" ("cycle" ++ String "=" "0120") "z" "0" "velmag" ++ ".sw4img")
  = Ok ("basin.v2"%string, 120, "z"%string, "0"%string, "velmag"%string, true).
Proof.
  assert (H : name_parts "basin.v2" "cycle" "0120" "z" "0" "velmag" 120).
  { unfold name_parts. repeat split; try reflexivity. discriminate. }
  split; [exact H |].
  exact (proj1 (parse_filename_round_trip "basin.v2" "cycle" "0120" "z" "0" "velmag" 120 H)).
Defined.

(** X4. A path whose last component holds fewer than three dots cannot be
    unpacked into name, cycle, plane and mode: [parse_filename] raises
    ValueError. *)
Theorem parse_filename_few_dots (filename : string) :
  (count_char "." (basename filename) < 3)%nat ->
  parse_filename filename = Raise ValueError.
Proof.
  intros Hc. unfold parse_filename.
  destruct (splitext (basename filename)) as [stem ext] eqn:Hs.
  apply splitext_parts in Hs. destruct Hs as [Hb _].
  destruct (String.eqb ext ".sw4img").
  - apply parse_parts_few_dots.
    rewrite Hb, count_char_app in Hc. lia.
  - apply parse_parts_few_dots. exact Hc.
Qed.

Lemma parse_filename_few_dots_witness :
  parse_filename "out/image.x=0.sw4img" = Raise ValueError.
Proof.
  apply (parse_filename_few_dots "out/image.x=0.sw4img").
  vm_compute. lia.
Defined.

(** X5. Whatever the path, [parse_filename] fails with ValueError only:
    from an unpacking of the wrong number of parts or from [int]. *)
Theorem parse_filename_raises_ValueError_only (filename : string) (e : exn) :
  parse_filename filename = Raise e -> e = ValueError.
Proof.
  unfold parse_filename.
  destruct (splitext (basename filename)) as [stem ext].
  destruct (String.eqb ext ".sw4img"); apply parse_parts_raises.
Qed.

Lemma parse_filename_raises_ValueError_only_witness :
  exists e, parse_filename "shake.cycle=ten.x=0.ux.sw4img" = Raise e /\ e = ValueError.
Proof.
  exists ValueError.
  split; [vm_compute; reflexivity |].
  apply (parse_filename_raises_ValueError_only "shake.cycle=ten.x=0.ux.sw4img").
  vm_compute. reflexivity.
Defined.

(** ** The header record *)

Lemma np_fromfile_one_short (size : nat) (f : list byte) :
  (List.length f < size)%nat -> np_fromfile size 1 f = ([], []).
Proof.
  intros H. unfold np_fromfile. cbv zeta.
  change (1 <? 0) with false. cbv iota.
  rewrite Z.div_small by lia.
  rewrite (Z.min_r 1 0) by lia.
  rewrite Z.min_r by lia.
  rewrite Nat2Z.id, skipn_all. reflexivity.
Qed.

Lemma np_fromfile_one_full (size : nat) (f : list byte) :
  (0 < size <= List.length f)%nat ->
  np_fromfile size 1 f = ([firstn size f], skipn size f).
Proof.
  intros H. unfold np_fromfile. cbv zeta.
  change (1 <? 0) with false. cbv iota.
  assert (1 <= Z.of_nat (List.length f) / Z.of_nat size)
    by (apply Z.div_le_lower_bound; lia).
  rewrite (Z.min_l 1) by lia.
  rewrite Z.min_l by lia.
  rewrite Z.mul_1_l, Nat2Z.id. reflexivity.
Qed.

Lemma readSW4hdr_short (D : dic_and_dtype) (E : environment) (self : Image.t)
  (f : list byte) :
  (List.length f < SW4_header_dtype_itemsize D)%nat ->
  Image._readSW4hdr D E self f = Raise IndexError.
Proof.
  intros H. unfold Image._readSW4hdr.
  rewrite (np_fromfile_one_short _ _ H). reflexivity.
Qed.

Lemma field_firstn (off len size : nat) (f : list byte) :
  (off + len <= size)%nat ->
  field off len (firstn size f) = firstn len (skipn off f).
Proof.
  intros H. unfold field.
  rewrite skipn_firstn_comm, firstn_firstn.
  rewrite Nat.min_l by lia. reflexivity.
Qed.

(** X6. On a file that holds at least one header record (36 bytes and the
    creation time), [_readSW4hdr] succeeds and leaves the file just after
    the record.  It takes the precision code from offset 0, the number of
    patches from offset 4, the plane code (kept in [_plane]) from offset 16
    and the mode code from offset 28, and keeps the patches, the file name,
    the cycle and the attribute [plane] of the image as they were. *)
Theorem readSW4hdr_consumes_record (D : dic_and_dtype) (E : environment)
  (self : Image.t) (f : list byte) :
  (SW4_header_dtype_itemsize D <= List.length f)%nat ->
  exists hdr,
    Image._readSW4hdr D E self f = Ok (hdr, skipn (SW4_header_dtype_itemsize D) f) /\
    Image.precision hdr = PrecInt (int32_of_bytes (byteorder E) (firstn 4 f)) /\
    Image.number_of_patches hdr = int32_of_bytes (byteorder E) (firstn 4 (skipn 4 f)) /\
    Image._plane hdr = Some (int32_of_bytes (byteorder E) (firstn 4 (skipn 16 f))) /\
    Image.mode hdr = ModeCode (int32_of_bytes (byteorder E) (firstn 4 (skipn 28 f))) /\
    Image.patches hdr = Image.patches self /\
    Image.filename hdr = Image.filename self /\
    Image.cycle hdr = Image.cycle self /\
    Image.plane hdr = Image.plane self.
Proof.
  intros H. unfold Image._readSW4hdr.
  rewrite np_fromfile_one_full by (unfold SW4_header_dtype_itemsize in *; lia).
  eexists. split; [reflexivity |].
  cbn [Image.precision Image.number_of_patches Image._plane Image.mode Image.patches
       Image.filename Image.cycle Image.plane].
  rewrite !field_firstn by (unfold SW4_header_dtype_itemsize; lia).
  repeat split; reflexivity.
Qed.

Lemma readSW4hdr_consumes_record_witness :
  exists hdr,
    Image._readSW4hdr sw4_tables scenario_env Image.__init__ (scenario_file 2)
    = Ok (hdr, skipn (SW4_header_dtype_itemsize sw4_tables) (scenario_file 2)) /\
    Image.precision hdr
    = PrecInt (int32_of_bytes (byteorder scenario_env) (firstn 4 (scenario_file 2))) /\
    Image.number_of_patches hdr
    = int32_of_bytes (byteorder scenario_env) (firstn 4 (skipn 4 (scenario_file 2))) /\
    Image._plane hdr
    = Some (int32_of_bytes (byteorder scenario_env) (firstn 4 (skipn 16 (scenario_file 2)))) /\
    Image.mode hdr
    = ModeCode (int32_of_bytes (byteorder scenario_env) (firstn 4 (skipn 28 (scenario_file 2)))) /\
    Image.patches hdr = Image.patches Image.__init__ /\
    Image.filename hdr = Image.filename Image.__init__ /\
    Image.cycle hdr = Image.cycle Image.__init__ /\
    Image.plane hdr = Image.plane Image.__init__.
Proof.
  apply (readSW4hdr_consumes_record sw4_tables scenario_env Image.__init__ (scenario_file 2)).
  apply Nat.leb_le. vm_compute. reflexivity.
Defined.

(** ** read: the branches that decode nothing *)

(** X7. A path whose last component does not end in .sw4img is never
    opened and no table is consulted: [read] gives the same outcome for
    all tables and environments, and when it returns an image, that image
    has no patch, the file name as given and the cycle parsed from the
    name. *)
Theorem read_other_extension (D D' : dic_and_dtype) (E E' : environment)
  (path : string) :
  snd (splitext (basename path)) <> ".sw4img"%string ->
  read D E (FPath path) = read D' E' (FPath path) /\
  forall img,
    read D E (FPath path) = Ok img ->
    Image.patches img = [] /\
    Image.filename img = FPath path /\
    exists name plane coordinate mode,
      parse_filename path = Ok (name, Image.cycle img, plane, coordinate, mode, false).
Proof.
  intros Hext.
  assert (Hpf : parse_filename path = parse_parts (basename path) false).
  { unfold parse_filename. destruct (splitext (basename path)) as [stem ext].
    cbn [snd] in Hext.
    destruct (String.eqb_spec ext ".sw4img"); [contradiction | reflexivity]. }
  unfold read. rewrite Hpf.
  destruct (parse_parts (basename path) false)
    as [[[[[[name cycle] plane] coordinate] mode] sw] | e] eqn:Hp.
  - pose proof (parse_parts_ok _ _ _ _ _ _ _ _ Hp) as [-> _].
    cbn [bind]. split; [reflexivity |].
    intros img [= <-]. cbn [Image.patches Image.filename Image.cycle
                            Image.set_cycle Image.set_filename Image.__init__].
    repeat split. eauto.
  - cbn [bind]. split; [reflexivity | discriminate].
Qed.

Lemma read_other_extension_witness :
  read sw4_tables scenario_env (FPath "shake.cycle=10.x=0.ux")
  = read sw4_tables (env_with "" []) (FPath "shake.cycle=10.x=0.ux") /\
  forall img,
    read sw4_tables scenario_env (FPath "shake.cycle=10.x=0.ux") = Ok img ->
    Image.patches img = [] /\
    Image.filename img = FPath "shake.cycle=10.x=0.ux" /\
    exists name plane coordinate mode,
      parse_filename "shake.cycle=10.x=0.ux"
      = Ok (name, Image.cycle img, plane, coordinate, mode, false).
Proof.
  apply (read_other_extension sw4_tables sw4_tables scenario_env (env_with "" [])
           "shake.cycle=10.x=0.ux").
  vm_compute. intros H. discriminate H.
Defined.

(** X8. A native file shorter than one header record: [read] raises
    IndexError, from indexing the empty array that [np.fromfile] returns;
    no image is returned. *)
Theorem read_truncated_header (D : dic_and_dtype) (E : environment) (path : string)
  (name : string) (cycle : Z) (plane coordinate mode : string) (f : list byte) :
  parse_filename path = Ok (name, cycle, plane, coordinate, mode, true) ->
  files E path = Some f ->
  (List.length f < SW4_header_dtype_itemsize D)%nat ->
  read D E (FPath path) = Raise IndexError.
Proof.
  intros Hp Hf Hlen. unfold read. rewrite Hp. cbn [bind].
  unfold open. rewrite Hf. cbn [bind].
  rewrite (readSW4hdr_short _ _ _ _ Hlen). reflexivity.
Qed.

Lemma read_truncated_header_witness :
  read sw4_tables (env_with scenario_path (firstn 60 (scenario_file 0))) (FPath scenario_path)
  = Raise IndexError.
Proof.
  eapply (read_truncated_header sw4_tables (env_with scenario_path (firstn 60 (scenario_file 0)))
            scenario_path _ _ _ _ _ (firstn 60 (scenario_file 0))).
  - vm_compute. reflexivity.
  - vm_compute. reflexivity.
  - apply Nat.ltb_lt. vm_compute. reflexivity.
Defined.

(** ** read: the exceptions *)

Lemma patches_loop_raises (E : environment) (t : float_dtype) (code : Z)
  (infos : list (list byte)) :
  forall (self : Image.t) (i : Z) (f : list byte) (e : exn),
    Image.precision self = PrecType t ->
    Image._plane self = Some code ->
    Image.patches_loop E self i infos f = Raise e -> e = ValueError.
Proof.
  induction infos as [| item infos IH]; intros self i f e Hp Hc H.
  - discriminate H.
  - rewrite patches_loop_cons in H.
    apply bind_raise in H. destruct H as [H | ([p f1] & _ & H)].
    + exact (decode_patch_raises E self t code i item f e Hp Hc H).
    + eapply IH; [| | exact H]; [exact Hp | exact Hc].
Qed.

(** X9. Whatever its argument, the tables and the files, [read] fails in
    these ways only: ValueError (a name that cannot be parsed, samples
    that do not fill a patch), IOError (no such file), IndexError (no
    complete header), KeyError (a code or a key missing from a table) and
    TypeError, the last from [open] alone, for a name that holds a NUL
    character.  The decoding raises neither TypeError nor AttributeError:
    [_readSW4patches] runs only after the precision has been replaced by a
    numpy type and the header has set [_plane]. *)
Theorem read_raises_listed_exceptions (D : dic_and_dtype) (E : environment)
  (filename : filename_arg) (e : exn) :
  read D E filename = Raise e ->
  e = ValueError \/ e = IOError \/ e = IndexError \/ e = KeyError \/
  (e = TypeError /\
   exists path, filename = FPath path /\ has_nul path = true /\ files E path = None).
Proof.
  unfold read. destruct filename as [| | path].
  - intros H. apply bind_raise in H. destruct H as [H | (p & _ & H)]; [| discriminate].
    unfold random_patch in H. cbv zeta in H.
    apply bind_raise in H. destruct H as [H | (lo & _ & H)];
      [left; exact (np_min_raises _ _ H) |].
    apply bind_raise in H. destruct H as [H | (hi & _ & H)];
      [left; exact (np_max_raises _ _ H) | discriminate].
  - discriminate.
  - intros H.
    apply bind_raise in H.
    destruct H as [H | ([[[[[name cycle] plane] coordinate] mode] sw] & _ & H)].
    { left. unfold parse_filename in H.
      destruct (splitext (basename path)) as [stem ext].
      destruct (String.eqb ext ".sw4img"); exact (parse_parts_raises _ _ _ H). }
    destruct sw; [| discriminate].
    apply bind_raise in H. destruct H as [H | (f & _ & H)].
    { unfold open in H. destruct (files E path) eqn:Hf; [discriminate |].
      destruct (has_nul path) eqn:Hn; injection H as <-.
      - do 4 right. split; [reflexivity |]. exists path. auto.
      - right; left. reflexivity. }
    apply bind_raise in H. destruct H as [H | ([hdr rest] & Hh & H)].
    { right; right; left. unfold Image._readSW4hdr in H.
      destruct (np_fromfile _ 1 f) as [[| header recs] f1]; congruence. }
    apply bind_raise in H. destruct H as [H | (k & _ & H)].
    { right; right; right; left. unfold precision_key in H.
      destruct (Image.precision hdr); congruence. }
    apply bind_raise in H. destruct H as [H | (t & _ & H)].
    { right; right; right; left. exact (dict_get_raises _ _ _ H). }
    apply bind_raise in H. destruct H as [H | (p & _ & H)].
    { right; right; right; left. exact (dict_get_raises _ _ _ H). }
    apply bind_raise in H. destruct H as [H | (k' & _ & H)].
    { right; right; right; left. unfold mode_key in H.
      destruct (Image.mode _); congruence. }
    apply bind_raise in H. destruct H as [H | ([m u] & _ & H)].
    { right; right; right; left. exact (dict_get_raises _ _ _ H). }
    apply bind_raise in H. destruct H as [H | ([img f'] & _ & H)]; [| discriminate].
    left. rewrite readSW4patches_unfold in H.
    assert (Hpl : exists code, Image._plane hdr = Some code).
    { unfold Image._readSW4hdr in Hh.
      destruct (np_fromfile _ 1 f) as [[| header recs] f1]; [discriminate |].
      injection Hh as <- _. cbn [Image._plane]. eauto. }
    destruct Hpl as [code Hcode].
    eapply (patches_loop_raises E t code); [| | exact H]; [reflexivity | exact Hcode].
Qed.

(** A name with a NUL character, which [parse_filename] accepts. *)
Lemma read_raises_listed_exceptions_witness :
  exists e,
    read sw4_tables scenario_env (FPath (String Ascii.zero scenario_path)) = Raise e /\
    (e = ValueError \/ e = IOError \/ e = IndexError \/ e = KeyError \/
     (e = TypeError /\
      exists path,
        FPath (String Ascii.zero scenario_path) = FPath path /\
        has_nul path = true /\ files scenario_env path = None)).
Proof.
  exists TypeError. split; [vm_compute; reflexivity |].
  apply (read_raises_listed_exceptions sw4_tables scenario_env
           (FPath (String Ascii.zero scenario_path))).
  vm_compute. reflexivity.
Defined.

(** ** _readSW4patches: plane codes without a rule *)

#[local] Arguments np_reshape_int32 : simpl never.
#[local] Arguments np_transpose_int32 : simpl never.
#[local] Arguments np_min_int32 : simpl never.
#[local] Arguments np_max_int32 : simpl never.

(** The body under a plane code without a rule, against the body under
    the code 0: the same failure, or the same patch but for the extent. *)
Lemma decode_patch_unlisted (E : environment) (self : Image.t) (code : Z) (i : Z)
  (item f : list byte) :
  code <> 0 -> code <> 1 -> code <> 2 ->
  Image.decode_patch E (with_plane_code code self) i item f
  = match Image.decode_patch E (with_plane_code 0 self) i item f with
    | Ok (p, f') => Ok (default_extent p, f')
    | Raise e => Raise e
    end.
Proof.
  intros N0 N1 N2. apply Z.eqb_neq in N0, N1, N2.
  unfold Image.decode_patch, Image.read_patch.
  cbn [Image.precision Image._plane with_plane_code].
  destruct (Image.precision self) as [n | c | t]; [reflexivity | |].
  - destruct (np_fromfile 4 _ f) as [raw rest].
    destruct (np_reshape_int32 _ _ _) as [g | e]; cbn [bind]; [| reflexivity].
    rewrite N0, N1, N2. cbn [orb Z.eqb].
    destruct (np_min_int32 _) as [lo | e]; cbn [bind]; [| reflexivity].
    destruct (np_max_int32 _) as [hi | e]; cbn [bind]; reflexivity.
  - destruct (np_fromfile (IEEE.itemsize t) _ f) as [raw rest].
    destruct (np_reshape t _ _ _) as [g | e]; cbn [bind]; [| reflexivity].
    rewrite N0, N1, N2. cbn [orb Z.eqb].
    destruct (np_min _) as [lo | e]; cbn [bind]; [| reflexivity].
    destruct (np_max _) as [hi | e]; cbn [bind]; reflexivity.
Qed.

Lemma patches_loop_unlisted (E : environment) (code : Z) (infos : list (list byte)) :
  code <> 0 -> code <> 1 -> code <> 2 ->
  forall (self : Image.t) (v v0 : list Patch.t) (i : Z) (f : list byte),
    match Image.patches_loop E (Image.set_patches v0 (with_plane_code 0 self)) i infos f with
    | Ok (img0, f') =>
        exists ps0,
          img0 = Image.set_patches (v0 ++ ps0) (with_plane_code 0 self) /\
          Image.patches_loop E (Image.set_patches v (with_plane_code code self)) i infos f
          = Ok (Image.set_patches (v ++ map default_extent ps0) (with_plane_code code self),
                f')
    | Raise e =>
        Image.patches_loop E (Image.set_patches v (with_plane_code code self)) i infos f
        = Raise e
    end.
Proof.
  intros N0 N1 N2.
  induction infos as [| item infos IH]; intros self v v0 i f.
  - rewrite !patches_loop_nil. exists []. rewrite !app_nil_r. split; reflexivity.
  - rewrite !patches_loop_cons, !decode_patch_set_patches.
    rewrite (decode_patch_unlisted E self code i item f N0 N1 N2).
    destruct (Image.decode_patch E (with_plane_code 0 self) i item f) as [[p f1] | e];
      cbn [bind]; [| reflexivity].
    rewrite !set_patches_twice.
    change (Image.patches (Image.set_patches v0 (with_plane_code 0 self))) with v0.
    change (Image.patches (Image.set_patches v (with_plane_code code self))) with v.
    specialize (IH self (v ++ [default_extent p]) (v0 ++ [p]) (i + 1) f1).
    destruct (Image.patches_loop E (Image.set_patches (v0 ++ [p]) (with_plane_code 0 self))
                (i + 1) infos f1) as [[img0 f'] | e]; [| exact IH].
    destruct IH as (ps0 & -> & IH).
    exists (p :: ps0). rewrite IH. cbn [map].
    rewrite <- !app_assoc. split; reflexivity.
Qed.

(** X10. [_readSW4patches] takes a plane code other than 0, 1 and 2 as it
    takes the code 0: it fails on the same files with the same exception,
    and where it succeeds it appends the same patches, untransposed,
    except that each keeps the extent (0, 1, 0, 1) of a new Patch. *)
Theorem unlisted_plane_code_default_extent (E : environment) (self : Image.t)
  (f : list byte) (code : Z) :
  code <> 0 -> code <> 1 -> code <> 2 ->
  (forall e,
      Image._readSW4patches E (with_plane_code 0 self) f = Raise e ->
      Image._readSW4patches E (with_plane_code code self) f = Raise e) /\
  (forall img0 f',
      Image._readSW4patches E (with_plane_code 0 self) f = Ok (img0, f') ->
      exists ps0,
        img0 = Image.set_patches (Image.patches self ++ ps0) (with_plane_code 0 self) /\
        Image._readSW4patches E (with_plane_code code self) f
        = Ok (Image.set_patches (Image.patches self ++ map default_extent ps0)
                (with_plane_code code self), f')).
Proof.
  intros N0 N1 N2.
  rewrite !readSW4patches_unfold.
  change (Image.number_of_patches (with_plane_code code self))
    with (Image.number_of_patches self).
  change (Image.number_of_patches (with_plane_code 0 self))
    with (Image.number_of_patches self).
  pose proof (patches_loop_unlisted E code
                (fst (np_fromfile SW4_patch_dtype_itemsize (Image.number_of_patches self) f))
                N0 N1 N2 self (Image.patches self) (Image.patches self) 0
                (snd (np_fromfile SW4_patch_dtype_itemsize (Image.number_of_patches self) f)))
    as H.
  change (Image.set_patches (Image.patches self) (with_plane_code 0 self))
    with (with_plane_code 0 self) in H.
  change (Image.set_patches (Image.patches self) (with_plane_code code self))
    with (with_plane_code code self) in H.
  split.
  - intros e He. rewrite He in H. exact H.
  - intros img0 f' Hok. rewrite Hok in H. exact H.
Qed.

(** The scenario file under the plane code 9. *)
Lemma unlisted_plane_code_default_extent_witness :
  Image._readSW4patches scenario_env
    (with_plane_code 9 (image_after_header float64 1 0)) scenario_patch_bytes
  = Ok (Image.set_patches
          [Patch.mk 0 (PyFloat f64_hundred) (PyFloat f64_zero) 1 3 1 2
             (PyInt 0, PyInt 1, PyInt 0, PyInt 1)
             (Some (mk_ndarray float64 (2, 3) (map f64_of_Z [1; 2; 3; 4; 5; 6])))
             (PyFloat (f64_of_Z 1)) (PyFloat (f64_of_Z 6))
             (PyFloat (seq_std float64 (map f64_of_Z [1; 2; 3; 4; 5; 6])))
             (PyFloat (IEEE.sqrt float64
                         (seq_mean float64
                            (np_square float64 (map f64_of_Z [1; 2; 3; 4; 5; 6])))))]
          (with_plane_code 9 (image_after_header float64 1 0)),
        []).
Proof.
  assert (N0 : 9 <> 0) by discriminate.
  assert (N1 : 9 <> 1) by discriminate.
  assert (N2 : 9 <> 2) by discriminate.
  destruct (proj2 (unlisted_plane_code_default_extent scenario_env
                     (image_after_header float64 1 0) scenario_patch_bytes 9 N0 N1 N2)
              (Image.set_patches
                 [Patch.mk 0 (PyFloat f64_hundred) (PyFloat f64_zero) 1 3 1 2
                    (extent_xy f64_hundred f64_zero 3 2)
                    (Some (mk_ndarray float64 (2, 3) (map f64_of_Z [1; 2; 3; 4; 5; 6])))
                    (PyFloat (f64_of_Z 1)) (PyFloat (f64_of_Z 6))
                    (PyFloat (seq_std float64 (map f64_of_Z [1; 2; 3; 4; 5; 6])))
                    (PyFloat (IEEE.sqrt float64
                                (seq_mean float64
                                   (np_square float64
                                      (map f64_of_Z [1; 2; 3; 4; 5; 6])))))]
                 (with_plane_code 0 (image_after_header float64 1 0)))
              [])
    as (ps0 & Himg & Hrun).
  - vm_compute. reflexivity.
  - rewrite Hrun. vm_compute. vm_compute in Himg.
    injection Himg as <-. reflexivity.
Defined.

(** ** _readSW4patches: the patches in order *)

Lemma decodes_descriptors (E : environment) (self : Image.t) (i : Z)
  (infos : list (list byte)) (f f' : list byte) (ps : list Patch.t) :
  decodes E self i infos f ps f' ->
  Forall2 (fun p item => from_descriptor E item p) ps infos /\
  map Patch.number ps = map (fun k => i + Z.of_nat k) (seq 0 (List.length infos)).
Proof.
  induction 1 as [| i item rest f f1 f' p ps Hd _ [IHd IHn]].
  - split; [constructor | reflexivity].
  - destruct (decode_patch_descriptor E self i item f p f1 Hd) as (Hnum & Hdesc).
    split; [constructor; [exact Hdesc | exact IHd] |].
    cbn [map List.length seq].
    rewrite Hnum, Z.add_0_r. f_equal.
    rewrite IHn, <- seq_shift, map_map.
    apply map_ext. intros k. lia.
Qed.

(** X11. [_readSW4patches] changes the list of patches only: the patches
    the image had stay in front, in order, and one new patch follows for
    each descriptor read from the file, in the order of the descriptors:
    the k-th new patch carries h, zmin, ni and nj of the k-th descriptor
    and the number k, counted from 0. *)
Theorem patches_appended_and_numbered (E : environment) (self img : Image.t)
  (f f' : list byte) :
  Image._readSW4patches E self f = Ok (img, f') ->
  exists ps,
    img = Image.set_patches (Image.patches self ++ ps) self /\
    Forall2 (fun p item => from_descriptor E item p) ps
      (fst (np_fromfile SW4_patch_dtype_itemsize (Image.number_of_patches self) f)) /\
    map Patch.number ps
    = map Z.of_nat
        (seq 0 (List.length
                  (fst (np_fromfile SW4_patch_dtype_itemsize
                          (Image.number_of_patches self) f)))).
Proof.
  rewrite readSW4patches_unfold. intros H.
  apply patches_loop_decodes in H. destruct H as (ps & Hd & ->).
  exists ps. split; [reflexivity |].
  destruct (decodes_descriptors _ _ _ _ _ _ _ Hd) as [Hdesc Hnum].
  split; [exact Hdesc |].
  rewrite Hnum. apply map_ext. intros k. lia.
Qed.

Lemma patches_appended_and_numbered_witness :
  exists ps,
    Image.set_patches
      [Patch.mk 0 (PyFloat f64_hundred) (PyFloat f64_zero) 1 3 1 2
         (extent_xy f64_hundred f64_zero 3 2)
         (Some (mk_ndarray float64 (2, 3) (map f64_of_Z [1; 2; 3; 4; 5; 6])))
         (PyFloat (f64_of_Z 1)) (PyFloat (f64_of_Z 6))
         (PyFloat (seq_std float64 (map f64_of_Z [1; 2; 3; 4; 5; 6])))
         (PyFloat (IEEE.sqrt float64
                     (seq_mean float64
                        (np_square float64 (map f64_of_Z [1; 2; 3; 4; 5; 6])))))]
      (image_after_header float64 1 0)
    = Image.set_patches (Image.patches (image_after_header float64 1 0) ++ ps)
        (image_after_header float64 1 0) /\
    Forall2 (fun p item => from_descriptor scenario_env item p) ps
      (fst (np_fromfile SW4_patch_dtype_itemsize
              (Image.number_of_patches (image_after_header float64 1 0))
              scenario_patch_bytes)) /\
    map Patch.number ps
    = map Z.of_nat
        (seq 0 (List.length
                  (fst (np_fromfile SW4_patch_dtype_itemsize
                          (Image.number_of_patches (image_after_header float64 1 0))
                          scenario_patch_bytes)))).
Proof.
  eapply (patches_appended_and_numbered scenario_env (image_after_header float64 1 0)
            _ scenario_patch_bytes []).
  vm_compute. reflexivity.
Defined.

(** ** _readSW4patches: the bytes it reads *)

Lemma chunks_app (size n : nat) (f extra : list byte) :
  (n * size <= List.length f)%nat ->
  chunks size n (f ++ extra) = chunks size n f.
Proof.
  revert f. induction n as [| n IH]; intros f H; [reflexivity |].
  cbn [chunks].
  assert (Hs : (size <= List.length f)%nat) by lia.
  rewrite firstn_app, skipn_app.
  replace (size - List.length f)%nat with O by lia.
  cbn [firstn skipn]. rewrite app_nil_r.
  rewrite IH; [reflexivity |].
  rewrite length_skipn. lia.
Qed.

Lemma np_fromfile_app (size : nat) (count : Z) (f extra : list byte) :
  (0 < size)%nat -> 0 <= count ->
  count * Z.of_nat size <= Z.of_nat (List.length f) ->
  np_fromfile size count (f ++ extra)
  = (fst (np_fromfile size count f), snd (np_fromfile size count f) ++ extra).
Proof.
  intros Hs Hc Hfit. unfold np_fromfile. cbv zeta. cbn [fst snd].
  destruct (Z.ltb_spec count 0) as [Hneg | _]; [lia |].
  rewrite length_app, Nat2Z.inj_add.
  assert (H1 : count <= Z.of_nat (List.length f) / Z.of_nat size)
    by (apply Z.div_le_lower_bound; lia).
  assert (H2 : count <= (Z.of_nat (List.length f) + Z.of_nat (List.length extra))
                        / Z.of_nat size)
    by (apply Z.div_le_lower_bound; lia).
  rewrite !(Z.min_l count) by assumption.
  rewrite !(Z.min_l (count * Z.of_nat size)) by lia.
  f_equal.
  - apply chunks_app. nia.
  - rewrite skipn_app.
    replace (Z.to_nat (count * Z.of_nat size) - List.length f)%nat with O by lia.
    reflexivity.
Qed.

(** A patch that is decoded takes its samples from the file in full. *)
Lemma decode_patch_fits (E : environment) (self : Image.t) (t : float_dtype) (i : Z)
  (item f : list byte) (p : Patch.t) (f1 : list byte) :
  Image.precision self = PrecType t ->
  Image.decode_patch E self i item f = Ok (p, f1) ->
  sane_dims E item ->
  Z.of_nat (IEEE.itemsize t) * (desc_ni E item * desc_nj E item)
  <= Z.of_nat (List.length f) /\
  f1 = skipn (Z.to_nat (Z.of_nat (IEEE.itemsize t) * (desc_ni E item * desc_nj E item))) f.
Proof.
  intros Hp H Hsane.
  apply (decode_patch_inv E self t i item f p f1 Hp) in H.
  destruct H as (code & g & lo & hi & Hc & Hg & _ & _ & -> & _).
  pose proof Hsane as (Hi & Hj & Hmax).
  pose proof (np_reshape_size _ _ _ _ _ Hg Hj Hi) as Hsize.
  rewrite (patch_samples_length E t item f Hsane) in Hsize.
  assert (Hw : 0 < Z.of_nat (IEEE.itemsize t)) by (destruct t; simpl; lia).
  assert (Hle : desc_ni E item * desc_nj E item
                <= Z.of_nat (List.length f) / Z.of_nat (IEEE.itemsize t)) by lia.
  pose proof (Z.mul_div_le (Z.of_nat (List.length f)) _ Hw) as Hm.
  assert (Hfit : Z.of_nat (IEEE.itemsize t) * (desc_ni E item * desc_nj E item)
                 <= Z.of_nat (List.length f)) by nia.
  split; [exact Hfit |].
  rewrite wrap32_small, np_fromfile_rest by nia.
  f_equal. lia.
Qed.

(** The body for an image whose precision is still the np.int32 code of
    the header. *)
Lemma decode_patch_int (E : environment) (self : Image.t) (c : Z)
  (i : Z) (item f : list byte) :
  Image.precision self = PrecInt c ->
  Image.decode_patch E self i item f
  = (g <- np_reshape_int32 (int_samples E item f) (desc_nj E item) (desc_ni E item) ;;
     code <- match Image._plane self with
             | Some c => Ok c
             | None => Raise AttributeError
             end ;;
     lo <- np_min_int32 (int_samples E item f) ;;
     hi <- np_max_int32 (int_samples E item f) ;;
     Ok (Patch.mk i (PyFloat (desc_h E item)) (PyFloat (desc_zmin E item))
           (int32_of_bytes (byteorder E) (field 16 4 item)) (desc_ni E item)
           (int32_of_bytes (byteorder E) (field 24 4 item)) (desc_nj E item)
           (if (code =? 0) || (code =? 1)
            then extent_xy (desc_h E item) (desc_zmin E item) (desc_ni E item) (desc_nj E item)
            else if code =? 2 then extent_z (desc_h E item) (desc_ni E item) (desc_nj E item)
            else Patch.extent Patch.__init__)
           (Some (Int32Array (if (code =? 0) || (code =? 1) then g
                              else if code =? 2 then np_transpose_int32 g else g)))
           (PyInt lo) (PyInt hi)
           (PyFloat (np_std E float64 (map f64_of_Z (int_samples E item f))))
           (PyFloat (IEEE.sqrt float64
                       (np_mean E float64
                          (map f64_of_Z (np_square_int32 (int_samples E item f)))))),
         snd (np_fromfile 4 (wrap32 (desc_ni E item * desc_nj E item)) f))).
Proof.
  intros Hp.
  unfold Image.decode_patch, Image.read_patch, int_samples, desc_ni, desc_nj, desc_h,
    desc_zmin.
  rewrite Hp.
  destruct (np_fromfile 4 _ f) as [raw rest]. cbn [fst snd].
  destruct (np_reshape_int32 _ _ _) as [g | e]; cbn [bind]; [| reflexivity].
  destruct (Image._plane self) as [code |]; cbn [bind]; [| reflexivity].
  destruct ((code =? 0) || (code =? 1)); [| destruct (code =? 2)];
    (destruct (np_min_int32 _) as [lo | e]; cbn [bind]; [| reflexivity]);
    (destruct (np_max_int32 _) as [hi | e]; cbn [bind]; reflexivity).
Qed.

Lemma np_reshape_int32_size (buf : list Z) (d0 d1 : Z) (g : intarray) :
  np_reshape_int32 buf d0 d1 = Ok g -> 0 <= d0 -> 0 <= d1 ->
  Z.of_nat (List.length buf) = d0 * d1.
Proof.
  unfold np_reshape_int32. intros H H0 H1.
  repeat match type of H with
         | (if ?c then _ else _) = _ => destruct c eqn:?; try discriminate
         end; lia.
Qed.

(** With more bytes after it in the file, a patch is decoded as it was. *)
Lemma decode_patch_app (E : environment) (self : Image.t) (i : Z)
  (item f extra : list byte) (p : Patch.t) (f1 : list byte) :
  Image.decode_patch E self i item f = Ok (p, f1) ->
  sane_dims E item ->
  Image.decode_patch E self i item (f ++ extra) = Ok (p, f1 ++ extra).
Proof.
  intros H Hsane. pose proof Hsane as (Hi & Hj & Hmax).
  destruct (Image.precision self) as [n | c | t] eqn:Hp.
  - unfold Image.decode_patch, Image.read_patch in H. rewrite Hp in H. discriminate H.
  - rewrite (decode_patch_int E self c i item f Hp) in H.
    rewrite (decode_patch_int E self c i item (f ++ extra) Hp).
    assert (Hfit : 4 * (desc_ni E item * desc_nj E item) <= Z.of_nat (List.length f)).
    { destruct (np_reshape_int32 _ _ _) as [g | e] eqn:Hg; [| discriminate H].
      pose proof (np_reshape_int32_size _ _ _ _ Hg Hj Hi) as Hsize.
      unfold int_samples in Hsize.
      rewrite length_map, wrap32_small, np_fromfile_count in Hsize by nia.
      change (Z.of_nat 4) with 4 in Hsize.
      assert (Hle : desc_ni E item * desc_nj E item <= Z.of_nat (List.length f) / 4) by lia.
      pose proof (Z.mul_div_le (Z.of_nat (List.length f)) 4 ltac:(lia)). nia. }
    unfold int_samples in H |- *.
    rewrite wrap32_small in H |- * by nia.
    rewrite (np_fromfile_app 4 _ f extra) by (lia || nia).
    cbn [fst snd].
    destruct (np_reshape_int32 _ _ _) as [g | e]; cbn [bind] in H |- *; [| discriminate].
    destruct (Image._plane self) as [code |]; cbn [bind] in H |- *; [| discriminate].
    destruct (np_min_int32 _) as [lo | e]; cbn [bind] in H |- *; [| discriminate].
    destruct (np_max_int32 _) as [hi | e]; cbn [bind] in H |- *; [| discriminate].
    injection H as <- <-. reflexivity.
  - destruct (decode_patch_fits E self t i item f p f1 Hp H Hsane) as (Hfit & _).
    assert (Hw : (0 < IEEE.itemsize t)%nat) by (destruct t; simpl; lia).
    rewrite (decode_patch_float E self t i item f Hp) in H.
    rewrite (decode_patch_float E self t i item (f ++ extra) Hp).
    unfold patch_samples in H |- *.
    rewrite wrap32_small in H |- * by nia.
    rewrite (np_fromfile_app _ _ f extra Hw) by nia.
    cbn [fst snd].
    destruct (np_reshape t _ _ _) as [g | e]; cbn [bind] in H |- *; [| discriminate].
    destruct (Image._plane self) as [code |]; cbn [bind] in H |- *; [| discriminate].
    destruct (np_min _) as [lo | e]; cbn [bind] in H |- *; [| discriminate].
    destruct (np_max _) as [hi | e]; cbn [bind] in H |- *; [| discriminate].
    injection H as <- <-. reflexivity.
Qed.

Lemma decodes_app (E : environment) (self : Image.t) (i : Z)
  (infos : list (list byte)) (f f' : list byte) (ps : list Patch.t) (extra : list byte) :
  decodes E self i infos f ps f' ->
  Forall (sane_dims E) infos ->
  decodes E self i infos (f ++ extra) ps (f' ++ extra).
Proof.
  induction 1 as [| i item rest f f1 f' p ps Hd _ IH]; intros Hsane.
  - constructor.
  - apply Forall_cons_iff in Hsane. destruct Hsane as [Hitem Hrest].
    econstructor; [exact (decode_patch_app _ _ _ _ _ extra _ _ Hd Hitem) | exact (IH Hrest)].
Qed.

Lemma decodes_consumes (E : environment) (self : Image.t) (t : float_dtype) (i : Z)
  (infos : list (list byte)) (f f' : list byte) (ps : list Patch.t) :
  Image.precision self = PrecType t ->
  decodes E self i infos f ps f' ->
  Forall (sane_dims E) infos ->
  Z.of_nat (List.length f')
  = Z.of_nat (List.length f) - Z.of_nat (IEEE.itemsize t) * samples_needed E infos.
Proof.
  intros Hp. induction 1 as [| i item rest f f1 f' p ps Hd _ IH]; intros Hsane.
  - simpl. lia.
  - apply Forall_cons_iff in Hsane. destruct Hsane as [Hitem Hrest].
    destruct (decode_patch_fits E self t i item f p f1 Hp Hd Hitem) as (Hfit & ->).
    rewrite (IH Hrest), length_skipn. cbn [samples_needed fold_right].
    fold (samples_needed E rest).
    destruct Hitem as (Hi & Hj & _).
    assert (0 <= Z.of_nat (IEEE.itemsize t) * (desc_ni E item * desc_nj E item)) by nia.
    lia.
Qed.

Lemma set_patches_self (self : Image.t) :
  Image.set_patches (Image.patches self) self = self.
Proof. destruct self; reflexivity. Qed.

(** X12. Bytes after the samples of the last patch are not looked at:
    when the file holds all [number_of_patches] descriptors, each with
    dimensions that are dimensions, and [_readSW4patches] succeeds, then it
    succeeds with the same image on the file followed by any other bytes,
    which it leaves unread. *)
Theorem trailing_bytes_ignored (E : environment) (self img : Image.t)
  (f rest extra : list byte) :
  0 <= Image.number_of_patches self ->
  32 * Image.number_of_patches self <= Z.of_nat (List.length f) ->
  Forall (sane_dims E)
    (fst (np_fromfile SW4_patch_dtype_itemsize (Image.number_of_patches self) f)) ->
  Image._readSW4patches E self f = Ok (img, rest) ->
  Image._readSW4patches E self (f ++ extra) = Ok (img, rest ++ extra).
Proof.
  intros HN Hlen Hsane H.
  rewrite readSW4patches_unfold in H |- *.
  rewrite np_fromfile_app;
    [| unfold SW4_patch_dtype_itemsize; lia | exact HN
     | change (Z.of_nat SW4_patch_dtype_itemsize) with 32; lia].
  cbn [fst snd].
  apply patches_loop_decodes in H. destruct H as (ps & Hd & ->).
  rewrite <- (set_patches_self self) at 1.
  apply decodes_patches_loop.
  apply decodes_app; assumption.
Qed.

Lemma trailing_bytes_ignored_witness :
  Image._readSW4patches scenario_env (image_after_header float64 1 0)
    (scenario_patch_bytes ++ [x2a; x2a; x2a])
  = Ok (Image.set_patches
          [Patch.mk 0 (PyFloat f64_hundred) (PyFloat f64_zero) 1 3 1 2
             (extent_xy f64_hundred f64_zero 3 2)
             (Some (mk_ndarray float64 (2, 3) (map f64_of_Z [1; 2; 3; 4; 5; 6])))
             (PyFloat (f64_of_Z 1)) (PyFloat (f64_of_Z 6))
             (PyFloat (seq_std float64 (map f64_of_Z [1; 2; 3; 4; 5; 6])))
             (PyFloat (IEEE.sqrt float64
                         (seq_mean float64
                            (np_square float64 (map f64_of_Z [1; 2; 3; 4; 5; 6])))))]
          (image_after_header float64 1 0),
        [] ++ [x2a; x2a; x2a]).
Proof.
  apply (trailing_bytes_ignored scenario_env (image_after_header float64 1 0) _
           scenario_patch_bytes [] [x2a; x2a; x2a]).
  - vm_compute. discriminate.
  - vm_compute. discriminate.
  - match goal with
    | |- Forall _ ?l => let l' := eval vm_compute in l in change l with l'
    end.
    repeat constructor; vm_compute; discriminate.
  - vm_compute. reflexivity.
Defined.

(** X13. How far [_readSW4patches] moves in the file: when the file holds
    all [number_of_patches] descriptors, each with dimensions that are
    dimensions, a successful call has read the 32 bytes of every
    descriptor and, for every patch, [ni * nj] samples of the size of the
    image's precision, and nothing else. *)
Theorem bytes_read_by_readSW4patches (E : environment) (self img : Image.t)
  (f rest : list byte) (t : float_dtype) :
  Image.precision self = PrecType t ->
  0 <= Image.number_of_patches self ->
  32 * Image.number_of_patches self <= Z.of_nat (List.length f) ->
  Forall (sane_dims E)
    (fst (np_fromfile SW4_patch_dtype_itemsize (Image.number_of_patches self) f)) ->
  Image._readSW4patches E self f = Ok (img, rest) ->
  Z.of_nat (List.length f) - Z.of_nat (List.length rest)
  = 32 * Image.number_of_patches self
    + Z.of_nat (IEEE.itemsize t)
      * samples_needed E
          (fst (np_fromfile SW4_patch_dtype_itemsize (Image.number_of_patches self) f)).
Proof.
  intros Hp HN Hlen Hsane H.
  rewrite readSW4patches_unfold in H.
  apply patches_loop_decodes in H. destruct H as (ps & Hd & _).
  rewrite (decodes_consumes E self t _ _ _ _ _ Hp Hd Hsane).
  rewrite np_fromfile_rest by exact HN.
  change (Z.of_nat SW4_patch_dtype_itemsize) with 32.
  rewrite length_skipn. lia.
Qed.

Lemma bytes_read_by_readSW4patches_witness :
  exists img,
    Image._readSW4patches scenario_env (image_after_header float64 1 0)
      (scenario_patch_bytes ++ [x2a])
    = Ok (img, [x2a]) /\
    Z.of_nat (List.length (scenario_patch_bytes ++ [x2a])) - Z.of_nat (List.length [x2a])
    = 32 * Image.number_of_patches (image_after_header float64 1 0)
      + Z.of_nat (IEEE.itemsize float64)
        * samples_needed scenario_env
            (fst (np_fromfile SW4_patch_dtype_itemsize
                    (Image.number_of_patches (image_after_header float64 1 0))
                    (scenario_patch_bytes ++ [x2a]))).
Proof.
  eexists. split.
  - vm_compute. reflexivity.
  - eapply (bytes_read_by_readSW4patches scenario_env (image_after_header float64 1 0) _
              (scenario_patch_bytes ++ [x2a]) [x2a] float64).
    + reflexivity.
    + vm_compute. discriminate.
    + vm_compute. discriminate.
    + match goal with
      | |- Forall _ ?l => let l' := eval vm_compute in l in change l with l'
      end.
      repeat constructor; vm_compute; discriminate.
    + vm_compute. reflexivity.
Defined.

(** ** _readSW4patches: extent and shape *)




(** ** _readSW4patches: where the samples lie *)

Lemma np_fromfile_full (size : nat) (count : Z) (f : list byte) :
  (0 < size)%nat -> 0 <= count ->
  count * Z.of_nat size <= Z.of_nat (List.length f) ->
  np_fromfile size count f
  = (chunks size (Z.to_nat count) f, skipn (Z.to_nat (count * Z.of_nat size)) f).
Proof.
  intros Hs Hc Hfit. unfold np_fromfile. cbv zeta.
  destruct (Z.ltb_spec count 0) as [Hneg | _]; [lia |].
  assert (H1 : count <= Z.of_nat (List.length f) / Z.of_nat size)
    by (apply Z.div_le_lower_bound; lia).
  rewrite (Z.min_l count) by assumption.
  rewrite (Z.min_l (count * Z.of_nat size)) by lia.
  reflexivity.
Qed.

Lemma decodes_blocks (E : environment) (self : Image.t) (t : float_dtype) (code : Z)
  (i : Z) (infos : list (list byte)) (f f' : list byte) (ps : list Patch.t) :
  Image.precision self = PrecType t ->
  Image._plane self = Some code ->
  decodes E self i infos f ps f' ->
  Forall (sane_dims E) infos ->
  Forall2 (fun p buf => exists g, grid_of p (code =? 2) g /\ items g = buf)
    ps (sample_blocks E t infos f).
Proof.
  intros Hp Hc.
  induction 1 as [| i item rest f f1 f' p ps Hd _ IH]; intros Hsane; [constructor |].
  apply Forall_cons_iff in Hsane. destruct Hsane as [Hitem Hrest].
  destruct (decode_patch_fits E self t i item f p f1 Hp Hd Hitem) as (Hfit & Hf1).
  cbn [sample_blocks]. cbv zeta. constructor.
  - apply (decode_patch_inv E self t i item f p f1 Hp) in Hd.
    destruct Hd as (code2 & g & lo & hi & Hc2 & Hg & _ & _ & _ & ->).
    rewrite Hc in Hc2. injection Hc2 as <-.
    exists g. split.
    + split; [exact (np_reshape_fix _ _ _ _ _ Hg) |]. cbn [Patch.data].
      destruct (Z.eqb_spec code 0) as [-> | N0]; [reflexivity |].
      destruct (Z.eqb_spec code 1) as [-> | N1]; [reflexivity |].
      destruct (code =? 2); reflexivity.
    + destruct (np_reshape_ok _ _ _ _ _ Hg) as (_ & -> & _).
      unfold patch_samples, samples_at.
      pose proof Hitem as (Hi & Hj & Hmax).
      rewrite wrap32_small by nia.
      rewrite np_fromfile_full; [reflexivity | destruct t; simpl; lia | nia | lia].
  - rewrite <- Hf1. apply IH. exact Hrest.
Qed.

(** X15. The layout [_readSW4patches] reads: the descriptors of all the
    patches first, 32 bytes each, then the samples of the patches, block
    after block in the order of the descriptors, each of [ni * nj] samples
    of the image's precision.  The grid of the k-th patch is made of the
    k-th block (reshaped to [nj] by [ni], and transposed for the plane
    code 2). *)
Theorem samples_follow_descriptors (E : environment) (self img : Image.t)
  (f rest : list byte) (t : float_dtype) (code : Z) :
  Image.precision self = PrecType t ->
  Image._plane self = Some code ->
  0 <= Image.number_of_patches self ->
  32 * Image.number_of_patches self <= Z.of_nat (List.length f) ->
  Forall (sane_dims E) (chunks 32 (Z.to_nat (Image.number_of_patches self)) f) ->
  Image._readSW4patches E self f = Ok (img, rest) ->
  exists ps,
    Image.patches img = Image.patches self ++ ps /\
    Forall2 (fun p buf => exists g, grid_of p (code =? 2) g /\ items g = buf)
      ps
      (sample_blocks E t (chunks 32 (Z.to_nat (Image.number_of_patches self)) f)
         (skipn (Z.to_nat (32 * Image.number_of_patches self)) f)).
Proof.
  intros Hp Hc HN Hlen Hsane H.
  rewrite readSW4patches_unfold in H.
  rewrite np_fromfile_full in H;
    [| unfold SW4_patch_dtype_itemsize; lia | exact HN
     | change (Z.of_nat SW4_patch_dtype_itemsize) with 32; lia].
  cbn [fst snd] in H.
  change (Z.of_nat SW4_patch_dtype_itemsize) with 32 in H.
  change SW4_patch_dtype_itemsize with 32%nat in H.
  apply patches_loop_decodes in H. destruct H as (ps & Hd & ->).
  exists ps. split; [reflexivity |].
  replace (32 * Image.number_of_patches self) with (Image.number_of_patches self * 32) by lia.
  exact (decodes_blocks E self t code _ _ _ _ _ Hp Hc Hd Hsane).
Qed.

Lemma samples_follow_descriptors_witness :
  exists img rest,
    Image._readSW4patches scenario_env (image_after_header float64 1 2) scenario_patch_bytes
    = Ok (img, rest) /\
    exists ps,
      Image.patches img = Image.patches (image_after_header float64 1 2) ++ ps /\
      Forall2 (fun p buf => exists g, grid_of p (2 =? 2) g /\ items g = buf)
        ps
        (sample_blocks scenario_env float64
           (chunks 32 (Z.to_nat (Image.number_of_patches (image_after_header float64 1 2)))
              scenario_patch_bytes)
           (skipn (Z.to_nat (32 * Image.number_of_patches (image_after_header float64 1 2)))
              scenario_patch_bytes)).
Proof.
  eexists. eexists. split.
  - vm_compute. reflexivity.
  - eapply (samples_follow_descriptors scenario_env (image_after_header float64 1 2) _
              scenario_patch_bytes _ float64 2).
    + reflexivity.
    + reflexivity.
    + vm_compute. discriminate.
    + vm_compute. discriminate.
    + match goal with
      | |- Forall _ ?l => let l' := eval vm_compute in l in change l with l'
      end.
      repeat constructor; vm_compute; discriminate.
    + vm_compute. reflexivity.
Defined.
